(** * Strategy, risk and execution core: a shallow embedding and its properties

    The development follows the Python sources file by file:
    - [strategy_risk_engine/models.py]  : [Side], [Candle], [StopLossSpec],
      [TakeProfitSpec], [OrderPlan], [Position], [ReviewResult];
    - [strategy_risk_engine/sizing.py]  : [SizeCalculator];
    - [strategy_risk_engine/strategy.py]: [VolatilityBreakoutStrategy];
    - [strategy_risk_engine/risk.py]    : [RiskManager];
    - [src/execution/order_manager.py]  : [execution.OrderManager]
      ([check_stop_loss]) and [engine.OrderManager] (the fills);
    - [reconciliation/reconciler.py]    : [reconciliation.PositionReconciler];
    - [src/config/settings.py]          : [Settings];
    - [src/storage/models.py], [src/storage/sqlite_manager.py] : [storage];
    - [src/execution/signal_router.py]  : [SignalRouter];
    - [src/execution/governor.py]       : [engine.Governor];
    - [src/execution/filters.py]        : [MarketData], [MarketFilters].

    Conventions of the embedding.
    - A Python [float] is an exact rational ([Q]); comparisons are the
      boolean ones of [QArith].  Rounding, infinities and NaN are outside
      the model.  An [int] is a [Z].  What the program accumulates with
      [+=] is stated as that running sum, term after term in the order of
      the program ([fold_left Qplus]), and a bound on a computed quantity
      is stated against the expression the program evaluates, so that the
      statements do not lean on re-associating a sum or on cancelling a
      division.
    - A timezone-aware [datetime] is the number of microseconds since the
      Unix epoch of the instant it denotes (so [astimezone(timezone.utc)]
      is the identity, and comparison is comparison of instants); a
      [timedelta] is a number of microseconds.
    - A [date] is its day ordinal (days since 1970-01-01); [isoformat] is
      injective on dates, so two day identifiers are equal as strings
      exactly when their ordinals are equal.
    - A raised exception is the [Raise] case of [result]. *)

From Stdlib Require Import ZArith QArith Qabs Lia Lqa.
From stdpp Require Import gmap strings list fin_maps.

Local Open Scope string_scope.
Local Open Scope Z_scope.

(** ** Python values and exceptions *)

Inductive exn : Type :=
| KeyError
| ValueError
| ZeroDivisionError
| IndexError
| AttributeError.

Inductive result (A : Type) : Type :=
| Ok (a : A)
| Raise (e : exn).

Arguments Ok {A} a.
Arguments Raise {A} e.

(** The exception monad, with stdpp's notation [x ← m; k]. *)
#[global] Instance result_ret : MRet result := fun _ a => Ok a.
#[global] Instance result_bind : MBind result := fun _ _ k m =>
  match m with
  | Ok a => k a
  | Raise e => Raise e
  end.

Abbreviation float := Q (only parsing).
Abbreviation datetime := Z (only parsing).
Abbreviation timedelta := Z (only parsing).

(** [a < b], [a <= b] and [a == b] on floats, as booleans. *)
Definition Qltb (a b : Q) : bool := negb (Qle_bool b a).
Definition Qleb (a b : Q) : bool := Qle_bool a b.
Definition Qeqb (a b : Q) : bool := Qeq_bool a b.

(** [min(a, b)]: the first argument unless the second is strictly smaller. *)
Definition py_min (a b : Q) : Q := if Qltb b a then b else a.

(** [max(a, b)]: the first argument unless the second is strictly larger. *)
Definition py_max (a b : Q) : Q := if Qltb a b then b else a.

(** [a / b] on floats. *)
Definition py_div (a b : Q) : result Q :=
  if Qeqb b 0 then Raise ZeroDivisionError else Ok (a / b)%Q.

(** [max(...)] and [min(...)] over a sequence: the first extremal element,
    [ValueError] on the empty sequence. *)
Definition py_max_seq (l : list Q) : result Q :=
  match l with
  | [] => Raise ValueError
  | x :: l' => Ok (fold_left py_max l' x)
  end.

Definition py_min_seq (l : list Q) : result Q :=
  match l with
  | [] => Raise ValueError
  | x :: l' => Ok (fold_left py_min l' x)
  end.

(** [sum(...)]: a left fold from [0]. *)
Definition py_sum (l : list Q) : Q := fold_left Qplus l 0%Q.

(** [l[i:]] for any integer [i]. *)
Definition py_slice_from {A : Type} (i : Z) (l : list A) : list A :=
  let n := Z.of_nat (length l) in
  let lo := if i <? 0 then Z.max 0 (n + i) else Z.min i n in
  skipn (Z.to_nat lo) l.

(** [l[-1]]. *)
Definition py_last {A : Type} (l : list A) : result A :=
  match last l with
  | Some x => Ok x
  | None => Raise IndexError
  end.

(** [l[:-1]]. *)
Definition py_init {A : Type} (l : list A) : list A :=
  firstn (length l - 1)%nat l.

(** ** strategy_risk_engine/models.py *)

Inductive Side : Type := BUY | SELL.

Definition Side_eqb (a b : Side) : bool :=
  match a, b with
  | BUY, BUY | SELL, SELL => true
  | _, _ => false
  end.

#[global] Instance Side_eq_dec : EqDecision Side.
Proof. solve_decision. Defined.

Inductive EntryType : Type := MARKET | STOP | LIMIT.

Module Candle.
Record t : Type := mk {
  symbol : string;
  open_time : datetime;
  close_time : datetime;
  open : float;
  high : float;
  low : float;
  close : float
}.
End Candle.

(** [StopLossKind = Literal["fixed", "trailing"]] is not enforced at run
    time: the kind is a string, and every kind other than ["fixed"] takes
    the trailing branch. *)
Module StopLossSpec.
Record t : Type := mk {
  kind : string;
  price : option float;
  trail_by : option float
}.

Definition resolved_stop_price (self : t) (entry_price : float) (side : Side)
  : result float :=
  if String.eqb (kind self) "fixed" then
    match price self with
    | None => Raise ValueError
    | Some p => Ok p
    end
  else
    match trail_by self with
    | None => Raise ValueError
    | Some d =>
        match side with
        | BUY => Ok (entry_price - d)%Q
        | SELL => Ok (entry_price + d)%Q
        end
    end.
End StopLossSpec.

Module TakeProfitSpec.
Record t : Type := mk { price : float }.
End TakeProfitSpec.

Module OrderPlan.
Record t : Type := mk {
  va_id : string;
  symbol : string;
  side : Side;
  entry_type : EntryType;
  entry_price : float;
  risk_tag : string;
  stop_loss : option StopLossSpec.t;
  take_profit : option TakeProfitSpec.t
}.
End OrderPlan.

Module Position.
Record t : Type := mk {
  va_id : string;
  symbol : string;
  qty : float;
  avg_entry_price : float
}.

Definition notional (self : t) : float :=
  (Qabs (qty self) * avg_entry_price self)%Q.

Definition side (self : t) : option Side :=
  if Qltb 0 (qty self) then Some BUY
  else if Qltb (qty self) 0 then Some SELL
  else None.
End Position.

Module ReviewResult.
Record t : Type := mk {
  approved : bool;
  reason : option string;
  qty : option float
}.
End ReviewResult.

(** ** strategy_risk_engine/sizing.py *)

Module MarketConstraints.
Record t : Type := mk {
  min_qty : float;
  min_notional : float
}.
End MarketConstraints.

Module SizeResult.
Record t : Type := mk {
  qty : float;
  reason : option string
}.
End SizeResult.

Module SizeCalculator.
Record t : Type := mk {
  risk_per_trade_pct : float;
  default_leverage : float;
  max_leverage : float;
  market_constraints : MarketConstraints.t
}.

(** Lines 64-68 of [calculate_qty]: the loss-decay factor. *)
Definition decay_of (consecutive_losses : Z) : float :=
  if 4 <=? consecutive_losses then (1 # 4)%Q
  else if 2 <=? consecutive_losses then (1 # 2)%Q
  else 1%Q.

Definition calculate_qty (self : t) (plan : OrderPlan.t)
    (virtual_equity : float) (consecutive_losses : Z)
    (leverage : option float) : result SizeResult.t :=
  if Qleb virtual_equity 0 then
    Ok (SizeResult.mk 0 (Some "virtual_equity_non_positive"))
  else
    let lev := match leverage with
               | None => default_leverage self
               | Some l => l
               end in
    let lev := py_min lev (max_leverage self) in
    if Qleb lev 0 then
      Ok (SizeResult.mk 0 (Some "leverage_non_positive"))
    else
      sl ← match OrderPlan.stop_loss plan with
           | None => Raise AttributeError
           | Some s => Ok s
           end;
      resolved_sl ← StopLossSpec.resolved_stop_price sl
                      (OrderPlan.entry_price plan) (OrderPlan.side plan);
      let per_unit_risk := Qabs (OrderPlan.entry_price plan - resolved_sl) in
      if Qleb per_unit_risk 0 then
        Ok (SizeResult.mk 0 (Some "stop_loss_distance_zero"))
      else
        let risk_budget := (virtual_equity * risk_per_trade_pct self)%Q in
        raw_qty ← py_div risk_budget per_unit_risk;
        let max_notional := (virtual_equity * lev)%Q in
        qty_cap ← py_div max_notional (OrderPlan.entry_price plan);
        let qty := py_min raw_qty qty_cap in
        let decay := decay_of consecutive_losses in
        let qty := (qty * decay)%Q in
        let min_qty := MarketConstraints.min_qty (market_constraints self) in
        let min_notional :=
          MarketConstraints.min_notional (market_constraints self) in
        if Qltb qty min_qty then
          Ok (SizeResult.mk 0 (Some "below_min_qty"))
        else if Qltb (qty * OrderPlan.entry_price plan)%Q min_notional then
          Ok (SizeResult.mk 0 (Some "below_min_notional"))
        else
          let qty := match OrderPlan.side plan with
                     | SELL => (- qty)%Q
                     | BUY => qty
                     end in
          Ok (SizeResult.mk qty None).
End SizeCalculator.

(** ** strategy_risk_engine/strategy.py *)

Module StrategyConfig.
Record t : Type := mk {
  lookback_candles : Z;
  tp_mode : string;
  fixed_tp_r : float;
  sl_range_mult : float;
  min_stop_distance : float;
  risk_tag : string
}.
End StrategyConfig.

Module VolatilityBreakoutStrategy.
Record t : Type := mk { config : StrategyConfig.t }.

(** The comprehension on the first line of [evaluate]. *)
Definition eligible (symbol : string) (as_of : datetime) (c : Candle.t)
  : bool :=
  String.eqb (Candle.symbol c) symbol && (Candle.close_time c <=? as_of).

Definition evaluate (self : t) (va_id symbol : string) (as_of : datetime)
    (candles : list Candle.t) : result (option OrderPlan.t) :=
  let cfg := config self in
  let closed := List.filter (eligible symbol as_of) candles in
  if Z.of_nat (length closed) <? StrategyConfig.lookback_candles cfg + 1 then
    Ok None
  else
    let window :=
      py_slice_from (- (StrategyConfig.lookback_candles cfg + 1)) closed in
    trigger ← py_last window;
    let reference := py_init window in
    prev_high ← py_max_seq (map Candle.high reference);
    prev_low ← py_min_seq (map Candle.low reference);
    let signal :=
      if Qltb prev_high (Candle.close trigger) then Some BUY
      else if Qltb (Candle.close trigger) prev_low then Some SELL
      else None in
    match signal with
    | None => Ok None
    | Some side =>
        avg_range ←
          py_div
            (py_sum (map (fun c => (Candle.high c - Candle.low c)%Q) reference))
            (inject_Z (Z.of_nat (length reference)));
        let stop_distance :=
          py_max (StrategyConfig.min_stop_distance cfg)
                 (avg_range * StrategyConfig.sl_range_mult cfg)%Q in
        let entry_price := Candle.close trigger in
        let '(sl_price, tp_price) :=
          match side with
          | BUY =>
              ((entry_price - stop_distance)%Q,
               (entry_price + StrategyConfig.fixed_tp_r cfg * stop_distance)%Q)
          | SELL =>
              ((entry_price + stop_distance)%Q,
               (entry_price - StrategyConfig.fixed_tp_r cfg * stop_distance)%Q)
          end in
        let '(stop_loss, take_profit) :=
          if String.eqb (StrategyConfig.tp_mode cfg) "fixed" then
            (StopLossSpec.mk "fixed" (Some sl_price) None,
             Some (TakeProfitSpec.mk tp_price))
          else
            (StopLossSpec.mk "trailing" None (Some stop_distance), None) in
        Ok (Some (OrderPlan.mk va_id symbol side MARKET entry_price
                    (StrategyConfig.risk_tag cfg) (Some stop_loss) take_profit))
    end.
End VolatilityBreakoutStrategy.

(** ** strategy_risk_engine/risk.py *)

Module RiskConfig.
Record t : Type := mk {
  max_daily_loss : float;
  max_drawdown_pct : float;
  max_trades_per_day : Z;
  risk_per_trade_pct : float;
  default_leverage : float;
  max_leverage : float;
  daily_reset_hour_utc : Z;
  max_symbol_exposure_pct_real_equity : float;
  market_constraints : MarketConstraints.t
}.
End RiskConfig.

Module VaState.
Record t : Type := mk {
  virtual_equity : float;
  peak_virtual_equity : float;
  daily_pnl : float;
  daily_trades : Z;
  day_id : option Z;
  consecutive_losses : Z;
  kill_switch : bool
}.
End VaState.

Definition microseconds_per_hour : Z := 3600 * 1000000.
Definition microseconds_per_day : Z := 24 * microseconds_per_hour.

(** [d.date()] of a UTC instant, as a day ordinal. *)
Definition date_of (d : datetime) : Z := d / microseconds_per_day.

(** [timedelta(hours=h)]. *)
Definition timedelta_hours (h : Z) : timedelta := h * microseconds_per_hour.

Module RiskManager.
Record t : Type := mk {
  config : RiskConfig.t;
  real_equity : float;
  _va : gmap string VaState.t;
  _positions : gmap (string * string) Position.t;
  _symbol_owner : gmap string string;
  _blocked_until : gmap (string * string) datetime
}.

Definition __init__ (config : RiskConfig.t) (real_equity : float) : t :=
  mk config real_equity ∅ ∅ ∅ ∅.

(** [self._sizer], built once from the frozen configuration. *)
Definition _sizer (self : t) : SizeCalculator.t :=
  SizeCalculator.mk
    (RiskConfig.risk_per_trade_pct (config self))
    (RiskConfig.default_leverage (config self))
    (RiskConfig.max_leverage (config self))
    (RiskConfig.market_constraints (config self)).

Definition set_va (self : t) (va : gmap string VaState.t) : t :=
  mk (config self) (real_equity self) va (_positions self)
     (_symbol_owner self) (_blocked_until self).

Definition set_positions (self : t)
    (positions : gmap (string * string) Position.t) : t :=
  mk (config self) (real_equity self) (_va self) positions
     (_symbol_owner self) (_blocked_until self).

Definition set_symbol_owner (self : t) (owner : gmap string string) : t :=
  mk (config self) (real_equity self) (_va self) (_positions self)
     owner (_blocked_until self).

Definition set_blocked_until (self : t)
    (blocked : gmap (string * string) datetime) : t :=
  mk (config self) (real_equity self) (_va self) (_positions self)
     (_symbol_owner self) blocked.

(** [self._positions.values()].  The dictionary's insertion order is not
    kept by the map; the two uses below ([any] and a sum compared in exact
    arithmetic) do not depend on it. *)
Definition positions_values (self : t) : list Position.t :=
  (map_to_list (_positions self)).*2.

Definition register_va (self : t) (va_id : string) (virtual_equity : float)
  : t :=
  set_va self
    (<[va_id := VaState.mk virtual_equity virtual_equity 0 0 None 0 false]>
       (_va self)).

Definition apply_governor_breach (self : t) (va_id symbol : string)
    (now : datetime) (cooldown : timedelta) : t :=
  set_blocked_until self
    (<[(va_id, symbol) := now + cooldown]> (_blocked_until self)).

Definition _require_va (self : t) (va_id : string) : result VaState.t :=
  match _va self !! va_id with
  | None => Raise KeyError
  | Some st => Ok st
  end.

(** [_day_id] is only called on [now.astimezone(timezone.utc)], which is
    timezone-aware: its [ValueError] branch is never taken. *)
Definition _day_id (self : t) (now : datetime) : Z :=
  let shift := timedelta_hours (RiskConfig.daily_reset_hour_utc (config self)) in
  let shifted := now - shift in
  date_of shifted.

(** [_roll_day] mutates the [VaState] object it is given; here it returns
    the new value, which the caller stores back under the VA's key. *)
Definition _roll_day (self : t) (st : VaState.t) (now : datetime)
  : VaState.t :=
  let day_id := _day_id self now in
  match VaState.day_id st with
  | None =>
      VaState.mk (VaState.virtual_equity st) (VaState.peak_virtual_equity st)
        (VaState.daily_pnl st) (VaState.daily_trades st) (Some day_id)
        (VaState.consecutive_losses st) (VaState.kill_switch st)
  | Some d =>
      if negb (day_id =? d) then
        VaState.mk (VaState.virtual_equity st)
          (VaState.peak_virtual_equity st)
          0 0 (Some day_id)
          (VaState.consecutive_losses st) (VaState.kill_switch st)
      else st
  end.

Definition record_trade_pnl (self : t) (va_id symbol : string) (pnl : float)
    (now : datetime) : result unit * t :=
  match _require_va self va_id with
  | Raise e => (Raise e, self)
  | Ok st =>
      let st := _roll_day self st now in
      let virtual_equity := (VaState.virtual_equity st + pnl)%Q in
      let daily_pnl := (VaState.daily_pnl st + pnl)%Q in
      let consecutive_losses :=
        if Qltb pnl 0 then VaState.consecutive_losses st + 1 else 0 in
      let peak_virtual_equity :=
        py_max (VaState.peak_virtual_equity st) virtual_equity in
      let kill_switch := VaState.kill_switch st in
      let kill_switch :=
        if Qltb 0 peak_virtual_equity then
          let dd := (1 - virtual_equity / peak_virtual_equity)%Q in
          if Qleb (RiskConfig.max_drawdown_pct (config self)) dd then true
          else kill_switch
        else kill_switch in
      let kill_switch :=
        if Qleb virtual_equity 0 then true else kill_switch in
      let st :=
        VaState.mk virtual_equity peak_virtual_equity daily_pnl
          (VaState.daily_trades st) (VaState.day_id st)
          consecutive_losses kill_switch in
      (Ok tt, set_va self (<[va_id := st]> (_va self)))
  end.

Definition _any_position_for_symbol (self : t) (symbol : string) : bool :=
  existsb
    (fun pos =>
       String.eqb (Position.symbol pos) symbol
       && negb (Qeqb (Position.qty pos) 0))
    (positions_values self).

Definition record_position (self : t) (va_id symbol : string) (qty : float)
    (avg_entry_price : float) : t :=
  let key := (va_id, symbol) in
  if Qeqb qty 0 then
    let self := set_positions self (delete key (_positions self)) in
    if bool_decide (_symbol_owner self !! symbol = Some va_id)
       && negb (_any_position_for_symbol self symbol)
    then set_symbol_owner self (delete symbol (_symbol_owner self))
    else self
  else
    let self :=
      set_positions self
        (<[key := Position.mk va_id symbol qty avg_entry_price]>
           (_positions self)) in
    set_symbol_owner self (<[symbol := va_id]> (_symbol_owner self)).

Definition _would_breach_symbol_exposure_cap (self : t) (symbol : string)
    (add_notional : float) : bool :=
  if Qleb (RiskConfig.max_symbol_exposure_pct_real_equity (config self)) 0
  then true
  else
    let cap :=
      (real_equity self
       * RiskConfig.max_symbol_exposure_pct_real_equity (config self))%Q in
    if Qleb cap 0 then true
    else
      let existing :=
        py_sum
          (map Position.notional
             (List.filter
                (fun pos => String.eqb (Position.symbol pos) symbol)
                (positions_values self))) in
      Qltb cap (existing + add_notional)%Q.

Definition rejected (reason : option string) : ReviewResult.t :=
  ReviewResult.mk false reason None.

Definition review_orderplan (self : t) (plan : OrderPlan.t) (now : datetime)
    (reserve : bool) : result ReviewResult.t * t :=
  let va_id := OrderPlan.va_id plan in
  let symbol := OrderPlan.symbol plan in
  match _require_va self va_id with
  | Raise e => (Raise e, self)
  | Ok st =>
      let st := _roll_day self st now in
      let self := set_va self (<[va_id := st]> (_va self)) in
      if VaState.kill_switch st then
        (Ok (rejected (Some "kill_switch")), self)
      else
      match OrderPlan.stop_loss plan with
      | None => (Ok (rejected (Some "stop_loss_required")), self)
      | Some stop_loss =>
      if String.eqb (StopLossSpec.kind stop_loss) "fixed"
         && bool_decide (OrderPlan.take_profit plan = None)
      then (Ok (rejected (Some "take_profit_required_for_fixed")), self)
      else
      if match _blocked_until self !! (va_id, symbol) with
         | Some blocked_until => now <? blocked_until
         | None => false
         end
      then (Ok (rejected (Some "cooldown_active")), self)
      else
      if Qltb 0 (RiskConfig.max_daily_loss (config self))
         && Qleb (RiskConfig.max_daily_loss (config self))
                 (- VaState.daily_pnl st)%Q
      then (Ok (rejected (Some "max_daily_loss")), self)
      else
      if RiskConfig.max_trades_per_day (config self) <=? VaState.daily_trades st
      then (Ok (rejected (Some "max_trades_per_day")), self)
      else
      if match _symbol_owner self !! symbol with
         | Some owner => negb (String.eqb owner va_id)
         | None => false
         end
      then (Ok (rejected (Some "symbol_owned_by_other_va")), self)
      else
      if match _positions self !! (va_id, symbol) with
         | Some existing_pos =>
             match Position.side existing_pos with
             | Some s => negb (Side_eqb s (OrderPlan.side plan))
             | None => false
             end
         | None => false
         end
      then (Ok (rejected (Some "opposing_exposure_not_allowed")), self)
      else
      match SizeCalculator.calculate_qty (_sizer self) plan
              (VaState.virtual_equity st) (VaState.consecutive_losses st)
              None with
      | Raise e => (Raise e, self)
      | Ok size =>
      if Qeqb (SizeResult.qty size) 0 then
        (Ok (rejected (SizeResult.reason size)), self)
      else
      if _would_breach_symbol_exposure_cap self symbol
           (Qabs (SizeResult.qty size) * OrderPlan.entry_price plan)%Q
      then (Ok (rejected (Some "net_exposure_cap")), self)
      else
        let self :=
          if reserve then
            let st :=
              VaState.mk (VaState.virtual_equity st)
                (VaState.peak_virtual_equity st) (VaState.daily_pnl st)
                (VaState.daily_trades st + 1) (VaState.day_id st)
                (VaState.consecutive_losses st) (VaState.kill_switch st) in
            let self := set_va self (<[va_id := st]> (_va self)) in
            match _symbol_owner self !! symbol with
            | Some _ => self
            | None =>
                set_symbol_owner self
                  (<[symbol := va_id]> (_symbol_owner self))
            end
          else self in
        (Ok (ReviewResult.mk true None (Some (SizeResult.qty size))), self)
      end
      end
  end.
End RiskManager.

(** ** src/storage/models.py and src/execution/order_manager.py *)

Module execution.

Module Position.
Record t : Type := mk {
  id : option Z;
  va_id : string;
  symbol : string;
  quantity : float;
  entry_price : float;
  current_price : float;
  unrealized_pnl : float;
  realized_pnl : float;
  stop_loss_price : option float;
  opened_at : datetime;
  updated_at : datetime
}.
End Position.

Module OrderManager.
(** [check_stop_loss] reads neither [self.db] nor [self.settings] and
    awaits nothing.  The guard [if not position.stop_loss_price] is
    taken by [None] and by [0.0]. *)
Definition check_stop_loss (position : Position.t) (current_price : float)
  : bool :=
  match Position.stop_loss_price position with
  | None => false
  | Some stop_loss_price =>
      if Qeqb stop_loss_price 0 then false
      else if Qltb 0 (Position.quantity position)
              && Qleb current_price stop_loss_price then true
      else if Qltb (Position.quantity position) 0
              && Qleb stop_loss_price current_price then true
      else false
  end.
End OrderManager.

End execution.

(** ** exchange/models.py, storage/database.py and reconciliation/reconciler.py *)

Module reconciliation.

(** A call of the exchange adapter returns or raises; the reconciler only
    ever reads the message of what was raised ([str(e)]). *)
Inductive outcome (A : Type) : Type :=
| Returns (a : A)
| Throws (msg : string).

Arguments Returns {A} a.
Arguments Throws {A} msg.

Module ExchangeOrder.
Record t : Type := mk {
  order_id : string;
  client_order_id : string;
  symbol : string;
  side : string;
  order_type : string;
  price : float;
  qty : float;
  reduce_only : bool;
  status : string;
  filled_qty : float;
  created_at : datetime;
  updated_at : datetime
}.
End ExchangeOrder.

Module ExchangePosition.
Record t : Type := mk {
  symbol : string;
  side : string;
  qty : float;
  avg_entry_price : float;
  mark_price : float;
  unrealized_pnl : float;
  leverage : float;
  stop_loss_price : option float;
  take_profit_price : option float
}.
End ExchangePosition.

(** Rows of the [positions] and [incidents] tables, without the
    [created_at] / [updated_at] columns the database fills in. *)
Module PositionRecord.
Record t : Type := mk {
  id : string;
  va_id : string;
  symbol : string;
  qty : float;
  avg_entry_price : float
}.
End PositionRecord.

Inductive json : Type :=
| JFloat (x : float)
| JStr (s : string).

Module IncidentRecord.
Record t : Type := mk {
  id : string;
  incident_type : string;
  va_id : option string;
  symbol : option string;
  order_id : option string;
  severity : string;
  description : string;
  incident_metadata : option (list (string * json))
}.
End IncidentRecord.

Module Database.
Record t : Type := mk {
  positions : list PositionRecord.t;
  incidents : list IncidentRecord.t
}.

(** [session.query(PositionRecord).filter_by(va_id=..., symbol=...).first()] *)
Definition get_position (self : t) (va_id symbol : string)
  : option PositionRecord.t :=
  List.find
    (fun r =>
       String.eqb (PositionRecord.va_id r) va_id
       && String.eqb (PositionRecord.symbol r) symbol)
    (positions self).

Definition create_incident (self : t) (incident_id incident_type
    severity description : string) (va_id symbol order_id : option string)
    (metadata : option (list (string * json))) : t :=
  mk (positions self)
     (incidents self
      ++ [IncidentRecord.mk incident_id incident_type va_id symbol
            order_id severity description metadata]).
End Database.

(** The exchange adapter, over an exchange state [X] it alone knows. *)
Module BybitClient.
Record t (X : Type) : Type := mk {
  get_positions : X -> outcome (list ExchangePosition.t) * X;
  get_open_orders : option string -> X
                    -> outcome (list ExchangeOrder.t) * X;
  attach_stop_loss : string -> string -> float -> X -> outcome bool * X;
  panic_close_position : string -> string -> float -> X
                         -> outcome ExchangeOrder.t * X
}.
Arguments get_positions {X}.
Arguments get_open_orders {X}.
Arguments attach_stop_loss {X}.
Arguments panic_close_position {X}.
End BybitClient.

(** What the reconciler asked of the adapter, in order. *)
Inductive Call : Type :=
| call_get_positions
| call_get_open_orders (symbol : option string)
| call_attach_stop_loss (symbol order_id : string) (stop_price : float)
| call_panic_close_position (symbol side : string) (qty : float).

(** Everything a reconcile pass can touch: the exchange, the database,
    the adapter calls made so far and the number of uuids drawn. *)
Record world (X : Type) : Type := mk_world {
  exchange : X;
  db : Database.t;
  calls : list Call;
  uuids_drawn : nat
}.
Arguments mk_world {X}.
Arguments exchange {X}.
Arguments db {X}.
Arguments calls {X}.
Arguments uuids_drawn {X}.

Module PositionReconciler.
(** [uuid4] and [str_float] stand for [str(uuid.uuid4())] (the n-th
    draw) and for the f-string rendering of a float. *)
Record t (X : Type) : Type := mk {
  client : BybitClient.t X;
  panic_close_timeout_sec : Z;
  uuid4 : nat -> string;
  str_float : float -> string
}.
Arguments client {X}.
Arguments panic_close_timeout_sec {X}.
Arguments uuid4 {X}.
Arguments str_float {X}.

Definition log {X : Type} (c : Call) (x : X) (w : world X) : world X :=
  mk_world x (db w) (calls w ++ [c]) (uuids_drawn w).

Definition file_incident {X : Type} (self : t X) (w : world X)
    (incident_type severity description : string)
    (symbol order_id : option string)
    (metadata : option (list (string * json))) : world X :=
  mk_world (exchange w)
    (Database.create_incident (db w) (uuid4 self (uuids_drawn w))
       incident_type severity description None symbol order_id metadata)
    (calls w) (S (uuids_drawn w)).

Definition _panic_close {X : Type} (self : t X)
    (position : ExchangePosition.t) (w : world X) : world X :=
  let symbol := ExchangePosition.symbol position in
  let side := ExchangePosition.side position in
  let qty := ExchangePosition.qty position in
  let '(r, x) :=
    BybitClient.panic_close_position (client self) symbol side qty
      (exchange w) in
  let w := log (call_panic_close_position symbol side qty) x w in
  match r with
  | Returns close_order =>
      file_incident self w "panic_close" "high"
        ("Panic-closed position " ++ symbol ++ " " ++ side ++ " "
         ++ str_float self qty)
        (Some symbol) (Some (ExchangeOrder.order_id close_order))
        (Some [("position_qty", JFloat qty);
               ("position_side", JStr side);
               ("close_order_id",
                JStr (ExchangeOrder.order_id close_order))])
  | Throws e =>
      file_incident self w "panic_close_failed" "critical"
        ("Failed to panic-close position " ++ symbol ++ ": " ++ e)
        (Some symbol) None
        (Some [("error", JStr e)])
  end.

Definition is_entry_order (o : ExchangeOrder.t) : bool :=
  negb (ExchangeOrder.reduce_only o)
  && (String.eqb (ExchangeOrder.status o) "New"
      || String.eqb (ExchangeOrder.status o) "PartiallyFilled").

Definition _enforce_sl_attachment {X : Type} (self : t X)
    (position : ExchangePosition.t) (w : world X) : world X :=
  let symbol := ExchangePosition.symbol position in
  let '(r, x) :=
    BybitClient.get_open_orders (client self) (Some symbol) (exchange w) in
  let w := log (call_get_open_orders (Some symbol)) x w in
  match r with
  | Throws _ => _panic_close self position w
  | Returns orders =>
      match List.filter is_entry_order orders with
      | [] => _panic_close self position w
      | entry_order :: _ =>
          let sl_price :=
            if String.eqb (ExchangePosition.side position) "Buy"
            then (ExchangeOrder.price entry_order * (98 # 100))%Q
            else (ExchangeOrder.price entry_order * (102 # 100))%Q in
          let '(r, x) :=
            BybitClient.attach_stop_loss (client self) symbol
              (ExchangeOrder.order_id entry_order) sl_price (exchange w) in
          let w :=
            log (call_attach_stop_loss symbol
                   (ExchangeOrder.order_id entry_order) sl_price) x w in
          match r with
          | Returns true => w
          | Returns false | Throws _ => _panic_close self position w
          end
      end
  end.

(** The body of the [for] loop of [reconcile_positions]. *)
Definition reconcile_position {X : Type} (self : t X) (w : world X)
    (xch_pos : ExchangePosition.t) : world X :=
  match Database.get_position (db w) "unknown"
          (ExchangePosition.symbol xch_pos) with
  | None => w
  | Some va_pos =>
      match ExchangePosition.stop_loss_price xch_pos with
      | None => _enforce_sl_attachment self xch_pos w
      | Some _ => w
      end
  end.

Definition reconcile_positions {X : Type} (self : t X) (w : world X)
  : outcome unit * world X :=
  let '(r, x) := BybitClient.get_positions (client self) (exchange w) in
  let w := log call_get_positions x w in
  match r with
  | Throws e => (Throws e, w)
  | Returns exchange_positions =>
      (Returns tt, fold_left (reconcile_position self) exchange_positions w)
  end.
End PositionReconciler.

End reconciliation.

(** ** The sizer's loss decay, as the specification states it

    Written from the specification (section 8), not from the code: the
    factor is 1 below two consecutive losses, 0.5 from two, 0.25 from four. *)

Module SizerSpec.

Definition loss_decay (c : Z) : float :=
  if c <? 2 then 1%Q
  else if c <? 4 then (1 # 2)%Q
  else (1 # 4)%Q.

(** Steps 4 to 8 of section 4.2, for a plan that passed steps 1 to 3 with
    effective leverage [lev] and per-unit risk [R]. *)
Definition sized_qty (self : SizeCalculator.t) (plan : OrderPlan.t)
    (virtual_equity lev R : float) (c : Z) : SizeResult.t :=
  let entry := OrderPlan.entry_price plan in
  let raw_qty :=
    (virtual_equity * SizeCalculator.risk_per_trade_pct self / R)%Q in
  let qty_cap := (virtual_equity * lev / entry)%Q in
  let qty := (py_min raw_qty qty_cap * loss_decay c)%Q in
  let mc := SizeCalculator.market_constraints self in
  if Qltb qty (MarketConstraints.min_qty mc) then
    SizeResult.mk 0 (Some "below_min_qty")
  else if Qltb (qty * entry)%Q (MarketConstraints.min_notional mc) then
    SizeResult.mk 0 (Some "below_min_notional")
  else
    SizeResult.mk (match OrderPlan.side plan with
                   | BUY => qty
                   | SELL => (- qty)%Q
                   end) None.

(** [min(leverage ?? default, max_leverage)]. *)
Definition effective_leverage (self : SizeCalculator.t)
    (leverage : option float) : float :=
  py_min (default (SizeCalculator.default_leverage self) leverage)
         (SizeCalculator.max_leverage self).

End SizerSpec.

(** ** The review checks of the risk manager, as the specification lists them

    [risk_checks] is written from the specification (section 4.4), not from
    the code: ten checks, in the listed order, each with its reason.  The
    theorems below compare [RiskManager.review_orderplan] with it. *)

Module ReviewSpec.

Inductive verdict : Type :=
| Pass
| Fail (reason : option string)
| Crash (e : exn).

Definition fail_if (b : bool) (reason : string) : verdict :=
  if b then Fail (Some reason) else Pass.

Section Checks.
Variable self : RiskManager.t.
Variable st : VaState.t.
Variable plan : OrderPlan.t.
Variable now : datetime.

Let cfg := RiskManager.config self.
Let va_id := OrderPlan.va_id plan.
Let symbol := OrderPlan.symbol plan.

(** 1. [VaState.kill_switch]. *)
Definition check_kill_switch : verdict :=
  fail_if (VaState.kill_switch st) "kill_switch".

(** 2. [plan.stop_loss] absent. *)
Definition check_stop_loss_required : verdict :=
  fail_if (bool_decide (OrderPlan.stop_loss plan = None))
    "stop_loss_required".

(** 3. [plan.stop_loss] is fixed and [take_profit] absent. *)
Definition check_take_profit_required_for_fixed : verdict :=
  fail_if
    (match OrderPlan.stop_loss plan with
     | Some sl =>
         bool_decide (StopLossSpec.kind sl = "fixed")
         && bool_decide (OrderPlan.take_profit plan = None)
     | None => false
     end)
    "take_profit_required_for_fixed".

(** 4. [blocked_until[(VA, symbol)] > now]. *)
Definition check_cooldown_active : verdict :=
  fail_if
    (match RiskManager._blocked_until self !! (va_id, symbol) with
     | Some until => bool_decide (until > now)
     | None => false
     end)
    "cooldown_active".

(** 5. [max_daily_loss > 0] and [-daily_pnl >= max_daily_loss]. *)
Definition check_max_daily_loss : verdict :=
  fail_if
    (Qltb 0 (RiskConfig.max_daily_loss cfg)
     && Qleb (RiskConfig.max_daily_loss cfg) (- VaState.daily_pnl st)%Q)
    "max_daily_loss".

(** 6. [daily_trades >= max_trades_per_day]. *)
Definition check_max_trades_per_day : verdict :=
  fail_if
    (bool_decide
       (VaState.daily_trades st >= RiskConfig.max_trades_per_day cfg))
    "max_trades_per_day".

(** 7. [symbol_owner[symbol]] exists and is not [plan.VA]. *)
Definition check_symbol_owned_by_other_va : verdict :=
  fail_if
    (match RiskManager._symbol_owner self !! symbol with
     | Some owner => bool_decide (owner ≠ va_id)
     | None => false
     end)
    "symbol_owned_by_other_va".

(** A position's side is the sign of its qty (section 3): it opposes a
    BUY when its qty is below zero and a SELL when it is above. *)
Definition opposes (pos : Position.t) (side : Side) : bool :=
  match side with
  | BUY => Qltb (Position.qty pos) 0
  | SELL => Qltb 0 (Position.qty pos)
  end.

(** 8. The existing position has the opposing side. *)
Definition check_opposing_exposure : verdict :=
  fail_if
    (match RiskManager._positions self !! (va_id, symbol) with
     | Some pos => opposes pos (OrderPlan.side plan)
     | None => false
     end)
    "opposing_exposure_not_allowed".

(** The sizer's answer for this plan and this VA state. *)
Definition sized : result SizeResult.t :=
  SizeCalculator.calculate_qty (RiskManager._sizer self) plan
    (VaState.virtual_equity st) (VaState.consecutive_losses st) None.

(** 9. The sizer returns [qty == 0]: the sizer's reason. *)
Definition check_sizer : verdict :=
  match sized with
  | Raise e => Crash e
  | Ok size =>
      if Qeqb (SizeResult.qty size) 0 then Fail (SizeResult.reason size)
      else Pass
  end.

(** Sigma notional over the symbol: [|qty| * avg_entry_price] of every
    position held on it, by whichever VA. *)
Definition notional_over_symbol : float :=
  py_sum
    (map (fun pos => (Qabs (Position.qty pos) * Position.avg_entry_price pos)%Q)
       (List.filter (fun pos => String.eqb (Position.symbol pos) symbol)
          (RiskManager.positions_values self))).

(** 10. Would-breach symbol exposure cap: Sigma notional over the symbol
    + [|qty| * entry] > [real_equity * max_symbol_exposure_pct].  If the
    cap is [<= 0], always blocked: the cap is [max_symbol_exposure_pct] of
    [real_equity], and it is not positive when that fraction or the
    amount it gives is not. *)
Definition check_net_exposure_cap : verdict :=
  match sized with
  | Raise e => Crash e
  | Ok size =>
      let pct := RiskConfig.max_symbol_exposure_pct_real_equity cfg in
      let cap := (RiskManager.real_equity self * pct)%Q in
      fail_if
        (Qleb pct 0 || Qleb cap 0
         || Qltb cap
              (notional_over_symbol
               + Qabs (SizeResult.qty size) * OrderPlan.entry_price plan)%Q)
        "net_exposure_cap"
  end.

Definition risk_checks : list verdict :=
  [ check_kill_switch;
    check_stop_loss_required;
    check_take_profit_required_for_fixed;
    check_cooldown_active;
    check_max_daily_loss;
    check_max_trades_per_day;
    check_symbol_owned_by_other_va;
    check_opposing_exposure;
    check_sizer;
    check_net_exposure_cap ].
End Checks.

Definition is_pass (v : verdict) : bool :=
  match v with Pass => true | _ => false end.

(** The first check of a list that does not pass. *)
Fixpoint first_failing (l : list verdict) : verdict :=
  match l with
  | [] => Pass
  | v :: l' => if is_pass v then first_failing l' else v
  end.

(** The state a review starts from: the VA's state rolled to [now]. *)
Definition rolled (self : RiskManager.t) (va_id : string) (st : VaState.t)
    (now : datetime) : RiskManager.t :=
  RiskManager.set_va self
    (<[va_id := RiskManager._roll_day self st now]> (RiskManager._va self)).

(** On approval with [reserve]: one more daily trade, and the symbol
    claimed if it was unclaimed. *)
Definition reserved (self : RiskManager.t) (plan : OrderPlan.t)
    (st : VaState.t) : RiskManager.t :=
  let st' :=
    VaState.mk (VaState.virtual_equity st) (VaState.peak_virtual_equity st)
      (VaState.daily_pnl st) (VaState.daily_trades st + 1)
      (VaState.day_id st) (VaState.consecutive_losses st)
      (VaState.kill_switch st) in
  let self' :=
    RiskManager.set_va self
      (<[OrderPlan.va_id plan := st']> (RiskManager._va self)) in
  match RiskManager._symbol_owner self !! OrderPlan.symbol plan with
  | Some _ => self'
  | None =>
      RiskManager.set_symbol_owner self'
        (<[OrderPlan.symbol plan := OrderPlan.va_id plan]>
           (RiskManager._symbol_owner self))
  end.

(** What a review answers, read off the first failing check. *)
Definition answer (self : RiskManager.t) (st : VaState.t)
    (plan : OrderPlan.t) (now : datetime) : result ReviewResult.t :=
  match first_failing (risk_checks self st plan now) with
  | Fail reason => Ok (ReviewResult.mk false reason None)
  | Crash e => Raise e
  | Pass =>
      size ← sized self st plan;
      Ok (ReviewResult.mk true None (Some (SizeResult.qty size)))
  end.

(** The state a review leaves: reserved on approval when asked to. *)
Definition after (self : RiskManager.t) (st : VaState.t)
    (plan : OrderPlan.t) (now : datetime) (reserve : bool)
  : RiskManager.t :=
  match answer self st plan now with
  | Ok r =>
      if ReviewResult.approved r && reserve then reserved self plan st
      else self
  | Raise _ => self
  end.

End ReviewSpec.

(** A plan the sizer can work on: a non-zero entry price and, when there is
    a stop-loss, one that carries the field its kind needs. *)
Definition sizable (plan : OrderPlan.t) : Prop :=
  ~ (OrderPlan.entry_price plan == 0)%Q
  /\ forall spec : StopLossSpec.t,
       OrderPlan.stop_loss plan = Some spec ->
       exists sl : Q,
         StopLossSpec.resolved_stop_price spec (OrderPlan.entry_price plan)
           (OrderPlan.side plan) = Ok sl.

(** ** Histories of a risk manager *)

Inductive op : Type :=
| op_register_va (va_id : string) (virtual_equity : float)
| op_apply_governor_breach (va_id symbol : string) (now : datetime)
    (cooldown : timedelta)
| op_record_trade_pnl (va_id symbol : string) (pnl : float) (now : datetime)
| op_record_position (va_id symbol : string) (qty avg_entry_price : float)
| op_review_orderplan (plan : OrderPlan.t) (now : datetime) (reserve : bool).

(** One public call; an exception leaves the caller with the state as the
    call left it. *)
Definition step (s : RiskManager.t) (o : op) : RiskManager.t :=
  match o with
  | op_register_va va_id e => RiskManager.register_va s va_id e
  | op_apply_governor_breach va_id symbol now cooldown =>
      RiskManager.apply_governor_breach s va_id symbol now cooldown
  | op_record_trade_pnl va_id symbol pnl now =>
      snd (RiskManager.record_trade_pnl s va_id symbol pnl now)
  | op_record_position va_id symbol qty avg =>
      RiskManager.record_position s va_id symbol qty avg
  | op_review_orderplan plan now reserve =>
      snd (RiskManager.review_orderplan s plan now reserve)
  end.

Definition run (s : RiskManager.t) (ops : list op) : RiskManager.t :=
  fold_left step ops s.

(** The condition under which a VA must be killed. *)
Definition kill_condition (cfg : RiskConfig.t) (st : VaState.t) : Prop :=
  (VaState.virtual_equity st <= 0)%Q
  \/ ((0 < VaState.peak_virtual_equity st)%Q
      /\ (RiskConfig.max_drawdown_pct cfg
          <= 1 - VaState.virtual_equity st / VaState.peak_virtual_equity st)%Q).

Definition kill_switch_invariant (s : RiskManager.t) : Prop :=
  forall (va_id : string) (st : VaState.t),
    RiskManager._va s !! va_id = Some st ->
    kill_condition (RiskManager.config s) st ->
    VaState.kill_switch st = true.

(** Every stored position sits under its own key and is non-zero. *)
Definition positions_wf (s : RiskManager.t) : Prop :=
  forall (va_id symbol : string) (p : Position.t),
    RiskManager._positions s !! (va_id, symbol) = Some p ->
    Position.va_id p = va_id /\ Position.symbol p = symbol
    /\ ~ (Position.qty p == 0)%Q.

(** Two VA states that agree on what the kill condition reads. *)
Definition same_risk (a b : VaState.t) : Prop :=
  VaState.virtual_equity a = VaState.virtual_equity b
  /\ VaState.peak_virtual_equity a = VaState.peak_virtual_equity b
  /\ VaState.kill_switch a = VaState.kill_switch b.

(** Every call of a history is a registration with positive equity or
    another call. *)
Definition registers_positive (o : op) : Prop :=
  match o with
  | op_register_va _ e => (0 < e)%Q
  | _ => True
  end.

(** ** Concrete configurations and scenarios *)

Module Scenario.

Definition minutes (n : Z) : timedelta := n * 60 * 1000000.
Definition seconds (n : Z) : timedelta := n * 1000000.

(** 2025-01-01T00:00:00Z. *)
Definition jan_1_2025 : datetime := 1735689600 * 1000000.

(** [RiskConfig()] with its defaults, and [MarketConstraints(0.0, 0.0)]. *)
Definition default_config : RiskConfig.t :=
  RiskConfig.mk 0 (30 # 100) 10 (1 # 100) 3 5 0 1 (MarketConstraints.mk 0 0).

(** The plan of the risk tests: BUY BTCUSDT at 100, fixed stop at 99,
    take-profit at 102. *)
Definition plan_va1 : OrderPlan.t :=
  OrderPlan.mk "va1" "BTCUSDT" BUY MARKET 100 "t"
    (Some (StopLossSpec.mk "fixed" (Some 99%Q) None))
    (Some (TakeProfitSpec.mk 102)).

(** Scenario 4: [max_trades_per_day = 1], reset hour 0. *)
Definition config_daily_reset : RiskConfig.t :=
  RiskConfig.mk 0 (30 # 100) 1 (1 # 100) 3 5 0 1 (MarketConstraints.mk 0 0).

Definition rm_daily_reset : RiskManager.t :=
  RiskManager.register_va (RiskManager.__init__ config_daily_reset 10000)
    "va1" 1000.

Definition before_midnight : datetime :=
  jan_1_2025 + 23 * microseconds_per_hour + minutes 59.
Definition after_midnight : datetime :=
  jan_1_2025 + microseconds_per_day + minutes 1.

(** The sizer of a risk manager with the default configuration. *)
Definition sizer : SizeCalculator.t :=
  RiskManager._sizer (RiskManager.__init__ default_config 10000).

Definition stop_at_99 : StopLossSpec.t :=
  StopLossSpec.mk "fixed" (Some 99%Q) None.

(** A VA registered with no equity. *)
Definition rm_zero_equity : RiskManager.t :=
  run (RiskManager.__init__ default_config 10000)
    [op_register_va "va1" 0].

(** One VA holding BTCUSDT. *)
Definition rm_one_position : RiskManager.t :=
  run (RiskManager.__init__ default_config 10000)
    [op_register_va "va1" 1000;
     op_register_va "va2" 1000;
     op_record_position "va2" "BTCUSDT" 1 100].

(** [risk_per_trade_pct = 0], no market minimum. *)
Definition config_zero_risk : RiskConfig.t :=
  RiskConfig.mk 0 (30 # 100) 10 0 3 5 0 1 (MarketConstraints.mk 0 0).

Definition rm_zero_risk : RiskManager.t :=
  RiskManager.register_va (RiskManager.__init__ config_zero_risk 10000)
    "va1" 1000.

(** A plan quoted at a negative price, one unit away from its stop. *)
Definition plan_negative_entry : OrderPlan.t :=
  OrderPlan.mk "va1" "BTCUSDT" BUY MARKET (-100) "t"
    (Some (StopLossSpec.mk "fixed" (Some (-99)%Q) None))
    (Some (TakeProfitSpec.mk (-102))).

(** Scenario 1: lookback 3, fixed take-profit at 1.7 R. *)
Definition strategy : VolatilityBreakoutStrategy.t :=
  VolatilityBreakoutStrategy.mk
    (StrategyConfig.mk 3 "fixed" (17 # 10) 1 0 "vol_breakout_5m_closed").

(** [_candle] of the tests: a five-minute bar opening at [t0]. *)
Definition _candle (symbol : string) (t0 : datetime) (o h l c : float)
  : Candle.t :=
  Candle.mk symbol t0 (t0 + minutes 5) o h l c.

Definition candles_scenario_1 (t0 : datetime) : list Candle.t :=
  [ _candle "BTCUSDT" (t0 + minutes 0) 100 101 99 100;
    _candle "BTCUSDT" (t0 + minutes 5) 100 102 99 101;
    _candle "BTCUSDT" (t0 + minutes 10) 101 103 100 102;
    _candle "BTCUSDT" (t0 + minutes 15) 102 104 101 105 ].

(** The bars of [test_closed_candle_only_evaluation_no_lookahead]: the
    fourth bar closes at 103, on the previous high. *)
Definition candles_test (t0 : datetime) : list Candle.t :=
  [ _candle "BTCUSDT" (t0 + minutes 0) 100 101 99 100;
    _candle "BTCUSDT" (t0 + minutes 5) 100 102 99 101;
    _candle "BTCUSDT" (t0 + minutes 10) 101 103 100 102;
    _candle "BTCUSDT" (t0 + minutes 15) 102 104 101 103 ].

(** The future bar: closes at [t0 + 25m] on 109. *)
Definition future_candle (t0 : datetime) (o h l : float) : Candle.t :=
  _candle "BTCUSDT" (t0 + minutes 20) o h l 109.

(** A long position whose stop-loss price is [0.0]. *)
Definition position_zero_stop : execution.Position.t :=
  execution.Position.mk None "va1" "BTCUSDT" 1 100 100 0 0 (Some 0%Q)
    jan_1_2025 jan_1_2025.

Definition position_long : execution.Position.t :=
  execution.Position.mk None "va1" "BTCUSDT" 1 100 100 0 0 (Some 99%Q)
    jan_1_2025 jan_1_2025.

(** Scenario 7: the exchange reports BTCUSDT Buy 1.0 without stop-loss,
    has no open order, and accepts the closing order. *)
Definition xch_position : reconciliation.ExchangePosition.t :=
  reconciliation.ExchangePosition.mk "BTCUSDT" "Buy" 1 100 101 1 3 None None.

Definition close_order : reconciliation.ExchangeOrder.t :=
  reconciliation.ExchangeOrder.mk "close_order123" "close_order123"
    "BTCUSDT" "Sell" "Market" 0 1 true "New" 0 jan_1_2025 jan_1_2025.

Definition client : reconciliation.BybitClient.t unit :=
  reconciliation.BybitClient.mk unit
    (fun x => (reconciliation.Returns [xch_position], x))
    (fun _ x => (reconciliation.Returns [], x))
    (fun _ _ _ x => (reconciliation.Returns true, x))
    (fun _ _ _ x => (reconciliation.Returns close_order, x)).

Definition reconciler : reconciliation.PositionReconciler.t unit :=
  reconciliation.PositionReconciler.mk unit client 30
    (fun n => "uuid") (fun q => "1.0").

Definition world_with (rows : list reconciliation.PositionRecord.t)
  : reconciliation.world unit :=
  reconciliation.mk_world tt (reconciliation.Database.mk rows []) [] 0.

Definition row_of (va_id : string) : reconciliation.PositionRecord.t :=
  reconciliation.PositionRecord.mk "pos1" va_id "BTCUSDT" 1 100.

(** Scenario 6: real equity 1000 and a cap of 10% of it, with 0.9 BTCUSDT
    held from 100. *)
Definition config_exposure_cap : RiskConfig.t :=
  RiskConfig.mk 0 (30 # 100) 10 (1 # 100) 3 5 0 (10 # 100)
    (MarketConstraints.mk 0 0).

Definition rm_exposure_cap : RiskManager.t :=
  run (RiskManager.__init__ config_exposure_cap 1000)
    [op_register_va "va1" 1000;
     op_record_position "va1" "BTCUSDT" (9 # 10) 100].

(** "va1" short one BTCUSDT. *)
Definition rm_short : RiskManager.t :=
  run (RiskManager.__init__ default_config 10000)
    [op_register_va "va1" 1000;
     op_record_position "va1" "BTCUSDT" (-1) 100].

(** A plan quoted at an entry price of zero. *)
Definition plan_zero_entry : OrderPlan.t :=
  OrderPlan.mk "va1" "BTCUSDT" BUY MARKET 0 "t"
    (Some (StopLossSpec.mk "fixed" (Some (-1)%Q) None))
    (Some (TakeProfitSpec.mk 2)).
End Scenario.

(** ** Invariants and predicates over histories *)

(** The call registers the VA. *)
Definition registers (va_id : string) (o : op) : Prop :=
  match o with
  | op_register_va v _ => v = va_id
  | _ => False
  end.

(** The call sets the cooldown of the pair. *)
Definition breaches (va_id symbol : string) (o : op) : Prop :=
  match o with
  | op_apply_governor_breach v s _ _ => v = va_id /\ s = symbol
  | _ => False
  end.

(** No VA has reserved more trades than a day allows. *)
Definition daily_trades_bounded (s : RiskManager.t) : Prop :=
  forall (va_id : string) (st : VaState.t),
    RiskManager._va s !! va_id = Some st ->
    0 <= VaState.daily_trades st
    <= RiskConfig.max_trades_per_day (RiskManager.config s).

(** The peak is a peak, and the loss streak is a count. *)
Definition peak_above_equity (s : RiskManager.t) : Prop :=
  forall (va_id : string) (st : VaState.t),
    RiskManager._va s !! va_id = Some st ->
    (VaState.virtual_equity st <= VaState.peak_virtual_equity st)%Q
    /\ 0 <= VaState.consecutive_losses st.

(** Every symbol with a stored position has an owner. *)
Definition positions_owned (s : RiskManager.t) : Prop :=
  forall (va_id symbol : string) (p : Position.t),
    RiskManager._positions s !! (va_id, symbol) = Some p ->
    is_Some (RiskManager._symbol_owner s !! symbol).

(** The notional already held on a symbol, as the exposure check sums it. *)
Definition symbol_notional (s : RiskManager.t) (symbol : string) : Q :=
  py_sum
    (map Position.notional
       (List.filter (fun pos => String.eqb (Position.symbol pos) symbol)
          (RiskManager.positions_values s))).

(** The VA state after one more reserved trade. *)
Definition bump_trades (st : VaState.t) : VaState.t :=
  VaState.mk (VaState.virtual_equity st) (VaState.peak_virtual_equity st)
    (VaState.daily_pnl st) (VaState.daily_trades st + 1) (VaState.day_id st)
    (VaState.consecutive_losses st) (VaState.kill_switch st).

(** The P&L a call records for the VA, if it records one. *)
Definition recorded_pnl (va_id : string) (o : op) : option float :=
  match o with
  | op_record_trade_pnl v _ pnl _ =>
      if String.eqb v va_id then Some pnl else None
  | _ => None
  end.

(** The P&L recorded for the VA by a sequence of calls, in order. *)
Definition recorded_pnls (va_id : string) (ops : list op) : list float :=
  omap (recorded_pnl va_id) ops.

(** ** src/config/settings.py *)

Module Settings.
Record t : Type := mk {
  database_path : string;
  max_loss_cooldown : Z;
  cooldown_duration_seconds : Z;
  max_spread_bps : float;
  max_slippage_bps : float;
  max_latency_ms : float;
  trading_window_start : string;
  trading_window_end : string;
  reconcile_interval_seconds : Z;
  kill_switch_enabled : bool;
  max_position_size : float;
  max_open_positions_per_va : Z;
  stop_loss_percentage : float
}.
End Settings.

(** ** src/storage/models.py and src/storage/sqlite_manager.py

    The engine's [datetime]s are naive UTC ones ([datetime.utcnow()]);
    they are microseconds since the epoch like the aware ones, and
    [isoformat] / [fromisoformat] through a TEXT column is the identity.
    [Position] is [execution.Position]. *)

Module storage.

Inductive OrderStatus : Type :=
| PENDING
| SUBMITTED
| PARTIAL_FILL
| FILLED
| CANCELLED
| REJECTED.

Inductive OrderSide : Type := BUY | SELL.

Module Order.
Record t : Type := mk {
  id : option Z;
  va_id : string;
  symbol : string;
  side : OrderSide;
  quantity : float;
  price : option float;
  stop_loss_price : option float;
  filled_quantity : float;
  status : OrderStatus;
  created_at : datetime;
  updated_at : datetime;
  reduce_only : bool;
  order_ref : option string
}.
End Order.

Module Trade.
Record t : Type := mk {
  id : option Z;
  va_id : string;
  symbol : string;
  side : OrderSide;
  quantity : float;
  price : float;
  pnl : float;
  order_id : option Z;
  executed_at : datetime
}.
End Trade.

Module VirtualAccount.
Record t : Type := mk {
  id : option Z;
  va_id : string;
  balance : float;
  total_pnl : float;
  total_trades : Z;
  winning_trades : Z;
  losing_trades : Z;
  max_drawdown : float;
  current_drawdown : float;
  consecutive_losses : Z;
  in_cooldown : bool;
  cooldown_until : option datetime;
  created_at : datetime;
  updated_at : datetime
}.
End VirtualAccount.

(** The tables the fills and the governor touch.  [virtual_accounts] has
    [va_id UNIQUE] and [positions] has [UNIQUE(va_id, symbol)], so each is
    a map on that key; [positions_seq] is the last [id] the AUTOINCREMENT
    of [positions] gave out; [trades] is only ever appended to, so the
    [id] of a row is its rank.  Foreign keys are declared but not
    enforced (no [PRAGMA foreign_keys]). *)
Module SQLiteManager.
Record t : Type := mk {
  virtual_accounts : gmap string VirtualAccount.t;
  positions : gmap (string * string) execution.Position.t;
  positions_seq : Z;
  trades : list Trade.t
}.

Definition get_virtual_account (self : t) (va_id : string)
  : option VirtualAccount.t :=
  virtual_accounts self !! va_id.

(** [UPDATE virtual_accounts SET ... WHERE va_id = ?]: every column but
    [id], [va_id] and [created_at]; [now] is the [utcnow()] the method
    reads for [updated_at]. *)
Definition update_virtual_account (self : t) (va : VirtualAccount.t)
    (now : datetime) : t :=
  match virtual_accounts self !! VirtualAccount.va_id va with
  | None => self
  | Some row =>
      mk (<[VirtualAccount.va_id va :=
              VirtualAccount.mk (VirtualAccount.id row)
                (VirtualAccount.va_id row)
                (VirtualAccount.balance va) (VirtualAccount.total_pnl va)
                (VirtualAccount.total_trades va)
                (VirtualAccount.winning_trades va)
                (VirtualAccount.losing_trades va)
                (VirtualAccount.max_drawdown va)
                (VirtualAccount.current_drawdown va)
                (VirtualAccount.consecutive_losses va)
                (VirtualAccount.in_cooldown va)
                (VirtualAccount.cooldown_until va)
                (VirtualAccount.created_at row) now]>
            (virtual_accounts self))
         (positions self) (positions_seq self) (trades self)
  end.

Definition get_position (self : t) (va_id symbol : string)
  : option execution.Position.t :=
  positions self !! (va_id, symbol).

(** [INSERT OR REPLACE INTO positions]: the row gets a fresh [id]. *)
Definition create_position (self : t) (position : execution.Position.t)
  : t :=
  let id := positions_seq self + 1 in
  mk (virtual_accounts self)
     (<[(execution.Position.va_id position,
         execution.Position.symbol position) :=
          execution.Position.mk (Some id)
            (execution.Position.va_id position)
            (execution.Position.symbol position)
            (execution.Position.quantity position)
            (execution.Position.entry_price position)
            (execution.Position.current_price position)
            (execution.Position.unrealized_pnl position)
            (execution.Position.realized_pnl position)
            (execution.Position.stop_loss_price position)
            (execution.Position.opened_at position)
            (execution.Position.updated_at position)]>
        (positions self))
     id (trades self).

(** [UPDATE positions SET quantity, current_price, unrealized_pnl,
    realized_pnl, stop_loss_price, updated_at WHERE va_id = ? AND
    symbol = ?]: [entry_price] is not among the columns written. *)
Definition update_position (self : t) (position : execution.Position.t)
    (now : datetime) : t :=
  let key :=
    (execution.Position.va_id position,
     execution.Position.symbol position) in
  match positions self !! key with
  | None => self
  | Some row =>
      mk (virtual_accounts self)
         (<[key :=
              execution.Position.mk (execution.Position.id row)
                (execution.Position.va_id row)
                (execution.Position.symbol row)
                (execution.Position.quantity position)
                (execution.Position.entry_price row)
                (execution.Position.current_price position)
                (execution.Position.unrealized_pnl position)
                (execution.Position.realized_pnl position)
                (execution.Position.stop_loss_price position)
                (execution.Position.opened_at row) now]>
            (positions self))
         (positions_seq self) (trades self)
  end.

Definition delete_position (self : t) (va_id symbol : string) : t :=
  mk (virtual_accounts self) (delete (va_id, symbol) (positions self))
     (positions_seq self) (trades self).

Definition create_trade (self : t) (trade : Trade.t) : t :=
  mk (virtual_accounts self) (positions self) (positions_seq self)
     (trades self
      ++ [Trade.mk (Some (Z.of_nat (length (trades self)) + 1))
            (Trade.va_id trade) (Trade.symbol trade) (Trade.side trade)
            (Trade.quantity trade) (Trade.price trade) (Trade.pnl trade)
            (Trade.order_id trade) (Trade.executed_at trade)]).
End SQLiteManager.

End storage.

(** ** src/execution/signal_router.py *)

Module SignalRouter.
Record t : Type := mk { _va_symbol_map : gmap string string }.

(** [positions] is what [await self.db.get_positions(va_id)] returns; the
    router only reads the database, and only when [va_id] is not in its
    map. *)
Definition can_trade_symbol (self : t)
    (positions : list execution.Position.t) (va_id symbol : string)
  : (bool * string) * t :=
  let current_symbol := _va_symbol_map self !! va_id in
  let '(current_symbol, self) :=
    match current_symbol with
    | Some _ => (current_symbol, self)
    | None =>
        match positions with
        | p :: _ =>
            (Some (execution.Position.symbol p),
             mk (<[va_id := execution.Position.symbol p]>
                   (_va_symbol_map self)))
        | [] => (None, self)
        end
    end in
  match current_symbol with
  | None => ((true, "OK"), mk (<[va_id := symbol]> (_va_symbol_map self)))
  | Some current_symbol =>
      if String.eqb current_symbol symbol then ((true, "OK"), self)
      else ((false,
             "VA already trading " ++ current_symbol ++ ", cannot trade "
             ++ symbol), self)
  end.

Definition release_symbol (self : t) (va_id : string) : t :=
  mk (delete va_id (_va_symbol_map self)).

Definition get_active_symbol (self : t) (va_id : string) : option string :=
  _va_symbol_map self !! va_id.
End SignalRouter.

(** ** src/execution/governor.py and the fills of
       src/execution/order_manager.py

    [utcnow n] is the [n]-th reading of [datetime.utcnow()]; a world
    carries the database and the number of readings taken so far.  The
    coroutines are embedded as they run when nothing else is scheduled
    between their [await]s. *)

Module engine.
Import storage.

Record world : Type := mk_world {
  db : SQLiteManager.t;
  clock_reads : nat
}.

(** What a fill can raise. *)
Inductive fault : Type :=
| TypeError
| ValidationError
| AttributeError
| ZeroDivisionError.

Inductive outcome (A : Type) : Type :=
| Done (a : A)
| Fails (e : fault).

Arguments Done {A} a.
Arguments Fails {A} e.

(** The formatting of numbers in messages: [f"{x:.0f}"] and [str(n)]. *)
Record formats : Type := mk_formats {
  format_0f : float -> string;
  str_int : Z -> string
}.

(** [await self.db.update_virtual_account(va)], which reads the clock. *)
Definition update_virtual_account (utcnow : nat -> datetime) (w : world)
    (va : VirtualAccount.t) : world :=
  mk_world
    (SQLiteManager.update_virtual_account (db w) va
       (utcnow (clock_reads w)))
    (S (clock_reads w)).

Definition update_position (utcnow : nat -> datetime) (w : world)
    (position : execution.Position.t) : world :=
  mk_world
    (SQLiteManager.update_position (db w) position (utcnow (clock_reads w)))
    (S (clock_reads w)).

Module Governor.
Record t : Type := mk {
  settings : Settings.t;
  utcnow : nat -> datetime;
  fmt : formats
}.

Definition _activate_cooldown (self : t) (w : world) (va : VirtualAccount.t)
  : world :=
  let until :=
    utcnow self (clock_reads w)
    + Settings.cooldown_duration_seconds (settings self) * 1000000 in
  let w := mk_world (db w) (S (clock_reads w)) in
  update_virtual_account (utcnow self) w
    (VirtualAccount.mk (VirtualAccount.id va) (VirtualAccount.va_id va)
       (VirtualAccount.balance va) (VirtualAccount.total_pnl va)
       (VirtualAccount.total_trades va) (VirtualAccount.winning_trades va)
       (VirtualAccount.losing_trades va) (VirtualAccount.max_drawdown va)
       (VirtualAccount.current_drawdown va)
       (VirtualAccount.consecutive_losses va)
       true (Some until)
       (VirtualAccount.created_at va) (VirtualAccount.updated_at va)).

(** The second half of [can_trade], after the cooldown block. *)
Definition check_losses (self : t) (w : world) (va : VirtualAccount.t)
  : (bool * string) * world :=
  if Settings.max_loss_cooldown (settings self)
     <=? VirtualAccount.consecutive_losses va
  then
    ((false,
      "Cooldown activated: "
      ++ str_int (fmt self) (Settings.max_loss_cooldown (settings self))
      ++ " consecutive losses"),
     _activate_cooldown self w va)
  else ((true, "OK"), w).

Definition can_trade (self : t) (w : world) (va_id : string)
  : (bool * string) * world :=
  match SQLiteManager.get_virtual_account (db w) va_id with
  | None => ((false, "Virtual account " ++ va_id ++ " not found"), w)
  | Some va =>
      match VirtualAccount.in_cooldown va, VirtualAccount.cooldown_until va
      with
      | true, Some cooldown_until =>
          if utcnow self (clock_reads w) <? cooldown_until then
            let remaining :=
              (inject_Z (cooldown_until - utcnow self (S (clock_reads w)))
               / 1000000)%Q in
            ((false,
              "In cooldown for " ++ format_0f (fmt self) remaining
              ++ "s due to consecutive losses"),
             mk_world (db w) (S (S (clock_reads w))))
          else
            let va :=
              VirtualAccount.mk (VirtualAccount.id va)
                (VirtualAccount.va_id va) (VirtualAccount.balance va)
                (VirtualAccount.total_pnl va)
                (VirtualAccount.total_trades va)
                (VirtualAccount.winning_trades va)
                (VirtualAccount.losing_trades va)
                (VirtualAccount.max_drawdown va)
                (VirtualAccount.current_drawdown va)
                0 false None
                (VirtualAccount.created_at va)
                (VirtualAccount.updated_at va) in
            let w := mk_world (db w) (S (clock_reads w)) in
            check_losses self (update_virtual_account (utcnow self) w va) va
      | _, _ => check_losses self w va
      end
  end.

(** [record_trade_result] reads [self.db] only; [utcnow] is the clock. *)
Definition record_trade_result (utcnow : nat -> datetime) (w : world)
    (va_id : string) (pnl : float) : world :=
  match SQLiteManager.get_virtual_account (db w) va_id with
  | None => w
  | Some va =>
      let total_trades := VirtualAccount.total_trades va + 1 in
      let total_pnl := (VirtualAccount.total_pnl va + pnl)%Q in
      let balance := (VirtualAccount.balance va + pnl)%Q in
      if Qltb 0 pnl then
        update_virtual_account utcnow w
          (VirtualAccount.mk (VirtualAccount.id va)
             (VirtualAccount.va_id va) balance total_pnl total_trades
             (VirtualAccount.winning_trades va + 1)
             (VirtualAccount.losing_trades va)
             (VirtualAccount.max_drawdown va)
             (if Qltb (VirtualAccount.current_drawdown va) 0 then 0%Q
              else VirtualAccount.current_drawdown va)
             0
             (VirtualAccount.in_cooldown va)
             (VirtualAccount.cooldown_until va)
             (VirtualAccount.created_at va) (VirtualAccount.updated_at va))
      else
        let current_drawdown :=
          (VirtualAccount.current_drawdown va + pnl)%Q in
        update_virtual_account utcnow w
          (VirtualAccount.mk (VirtualAccount.id va)
             (VirtualAccount.va_id va) balance total_pnl total_trades
             (VirtualAccount.winning_trades va)
             (VirtualAccount.losing_trades va + 1)
             (if Qltb current_drawdown (VirtualAccount.max_drawdown va)
              then current_drawdown
              else VirtualAccount.max_drawdown va)
             current_drawdown
             (VirtualAccount.consecutive_losses va + 1)
             (VirtualAccount.in_cooldown va)
             (VirtualAccount.cooldown_until va)
             (VirtualAccount.created_at va) (VirtualAccount.updated_at va))
  end.
End Governor.

Module OrderManager.
Record t : Type := mk {
  settings : Settings.t;
  utcnow : nat -> datetime
}.

(** Truth of an [Optional[float]]: [None] and [0.0] are false. *)
Definition truthy (x : option float) : bool :=
  match x with
  | None => false
  | Some x => negb (Qeqb x 0)
  end.

Definition _is_closing_order (order : Order.t)
    (position : execution.Position.t) : bool :=
  match Order.side order with
  | SELL => Qltb 0 (execution.Position.quantity position)
  | BUY => Qltb (execution.Position.quantity position) 0
  end.

Definition _calculate_stop_loss (self : t) (entry_price : float)
    (side : OrderSide) : float :=
  match side with
  | BUY =>
      (entry_price
       * (1 - Settings.stop_loss_percentage (settings self) / 100))%Q
  | SELL =>
      (entry_price
       * (1 + Settings.stop_loss_percentage (settings self) / 100))%Q
  end.

(** [Trade(...)] with its [executed_at] default, then [create_trade]. *)
Definition log_trade (self : t) (w : world) (order : Order.t)
    (quantity price pnl : float) : world :=
  mk_world
    (SQLiteManager.create_trade (db w)
       (Trade.mk None (Order.va_id order) (Order.symbol order)
          (Order.side order) quantity price pnl (Order.id order)
          (utcnow self (clock_reads w))))
    (S (clock_reads w)).

Definition _open_or_add_position (self : t) (w : world) (order : Order.t)
    (existing_position : option execution.Position.t) : outcome world :=
  let quantity :=
    match Order.side order with
    | BUY => Order.filled_quantity order
    | SELL => (- Order.filled_quantity order)%Q
    end in
  match existing_position with
  | Some existing_position =>
      match Order.price order with
      | None => Fails TypeError
      | Some price =>
          let total_cost :=
            (execution.Position.entry_price existing_position
             * Qabs (execution.Position.quantity existing_position)
             + price * Order.filled_quantity order)%Q in
          let total_quantity :=
            (Qabs (execution.Position.quantity existing_position)
             + Order.filled_quantity order)%Q in
          if Qeqb total_quantity 0 then Fails ZeroDivisionError
          else
            let new_entry_price := (total_cost / total_quantity)%Q in
            let existing_position :=
              execution.Position.mk
                (execution.Position.id existing_position)
                (execution.Position.va_id existing_position)
                (execution.Position.symbol existing_position)
                (execution.Position.quantity existing_position + quantity)%Q
                new_entry_price
                price
                (execution.Position.unrealized_pnl existing_position)
                (execution.Position.realized_pnl existing_position)
                (if truthy (Order.stop_loss_price order)
                 then Order.stop_loss_price order
                 else execution.Position.stop_loss_price existing_position)
                (execution.Position.opened_at existing_position)
                (execution.Position.updated_at existing_position) in
            let w := update_position (utcnow self) w existing_position in
            Done (log_trade self w order (Order.filled_quantity order) price 0)
      end
  | None =>
      match Order.price order with
      | None =>
          if truthy (Order.stop_loss_price order) then Fails ValidationError
          else Fails TypeError
      | Some price =>
          let stop_loss_price :=
            if truthy (Order.stop_loss_price order)
            then Order.stop_loss_price order
            else Some (_calculate_stop_loss self price (Order.side order)) in
          let position :=
            execution.Position.mk None (Order.va_id order)
              (Order.symbol order) quantity price price 0 0
              stop_loss_price
              (utcnow self (clock_reads w))
              (utcnow self (S (clock_reads w))) in
          let w :=
            mk_world (SQLiteManager.create_position (db w) position)
              (S (S (clock_reads w))) in
          Done (log_trade self w order (Order.filled_quantity order) price
                  0)
      end
  end.

Definition _close_position (self : t) (w : world) (order : Order.t)
    (position : option execution.Position.t) : outcome world :=
  match position with
  | None => Fails AttributeError
  | Some position =>
      let close_quantity :=
        py_min (Order.filled_quantity order)
          (Qabs (execution.Position.quantity position)) in
      match Order.price order with
      | None => Fails TypeError
      | Some price =>
          let pnl :=
            if Qltb 0 (execution.Position.quantity position)
            then ((price - execution.Position.entry_price position)
                  * close_quantity)%Q
            else ((execution.Position.entry_price position - price)
                  * close_quantity)%Q in
          let w := log_trade self w order close_quantity price pnl in
          let position :=
            execution.Position.mk (execution.Position.id position)
              (execution.Position.va_id position)
              (execution.Position.symbol position)
              (execution.Position.quantity position
               + match Order.side order with
                 | BUY => close_quantity
                 | SELL => - close_quantity
                 end)%Q
              (execution.Position.entry_price position)
              (execution.Position.current_price position)
              (execution.Position.unrealized_pnl position)
              (execution.Position.realized_pnl position + pnl)%Q
              (execution.Position.stop_loss_price position)
              (execution.Position.opened_at position)
              (execution.Position.updated_at position) in
          let w :=
            if Qltb (Qabs (execution.Position.quantity position))
                 (1 # 10000)
            then
              mk_world
                (SQLiteManager.delete_position (db w) (Order.va_id order)
                   (Order.symbol order))
                (clock_reads w)
            else update_position (utcnow self) w position in
          Done (Governor.record_trade_result (utcnow self) w
                  (Order.va_id order) pnl)
      end
  end.

Definition _process_fill (self : t) (w : world) (order : Order.t)
  : outcome world :=
  let position :=
    SQLiteManager.get_position (db w) (Order.va_id order)
      (Order.symbol order) in
  if Order.reduce_only order
     || match position with
        | Some position => _is_closing_order order position
        | None => false
        end
  then _close_position self w order position
  else _open_or_add_position self w order position.
End OrderManager.

End engine.

(** ** src/execution/filters.py *)

Module MarketData.
Record t : Type := mk {
  symbol : string;
  bid : float;
  ask : float;
  last : float;
  latency_ms : float;
  timestamp : datetime
}.

Definition spread (self : t) : float := (ask self - bid self)%Q.

Definition spread_bps (self : t) : float :=
  let mid := ((bid self + ask self) / 2)%Q in
  if Qeqb mid 0 then 0%Q else (spread self / mid * 10000)%Q.
End MarketData.

Module MarketFilters.
(** [strptime_HM s] stands for
    [datetime.strptime(s, "%H:%M").time()], a time of day in
    microseconds since midnight, or the [ValueError] it raises;
    [format_2f], [format_1f] and [str_float] for [f"{x:.2f}"],
    [f"{x:.1f}"] and [f"{x}"]. *)
Record t : Type := mk {
  settings : Settings.t;
  strptime_HM : string -> result Z;
  format_2f : float -> string;
  format_1f : float -> string;
  str_float : float -> string
}.

Definition check_spread (self : t) (market_data : MarketData.t)
  : bool * string :=
  if Qltb (Settings.max_spread_bps (settings self))
       (MarketData.spread_bps market_data)
  then (false,
        "Spread " ++ format_2f self (MarketData.spread_bps market_data)
        ++ "bps exceeds max "
        ++ str_float self (Settings.max_spread_bps (settings self))
        ++ "bps")
  else (true, "OK").

Definition check_slippage (self : t) (expected_price : float)
    (market_data : MarketData.t) : result (bool * string) :=
  let actual_price := MarketData.last market_data in
  q ← py_div (Qabs (actual_price - expected_price)) expected_price;
  let slippage := (q * 10000)%Q in
  if Qltb (Settings.max_slippage_bps (settings self)) slippage
  then Ok (false,
           "Slippage " ++ format_2f self slippage ++ "bps exceeds max "
           ++ str_float self (Settings.max_slippage_bps (settings self))
           ++ "bps")
  else Ok (true, "OK").

Definition check_latency (self : t) (market_data : MarketData.t)
  : bool * string :=
  if Qltb (Settings.max_latency_ms (settings self))
       (MarketData.latency_ms market_data)
  then (false,
        "Latency " ++ format_1f self (MarketData.latency_ms market_data)
        ++ "ms exceeds max "
        ++ str_float self (Settings.max_latency_ms (settings self))
        ++ "ms")
  else (true, "OK").

(** [utcnow] is the reading of [datetime.utcnow()]; its [.time()] is what
    is left of it after whole days. *)
Definition check_trading_window (self : t) (utcnow : datetime)
  : result (bool * string) :=
  let now := utcnow mod microseconds_per_day in
  start ← strptime_HM self (Settings.trading_window_start (settings self));
  end_ ← strptime_HM self (Settings.trading_window_end (settings self));
  if (start <=? now) && (now <=? end_) then Ok (true, "OK")
  else Ok (false,
           "Outside trading window "
           ++ Settings.trading_window_start (settings self) ++ "-"
           ++ Settings.trading_window_end (settings self)).

(** The [for] loop of [check_all]. *)
Fixpoint first_failed (checks : list (bool * string)) : bool * string :=
  match checks with
  | [] => (true, "OK")
  | (passed, message) :: checks =>
      if passed then first_failed checks else (false, message)
  end.

Definition check_all (self : t) (market_data : MarketData.t)
    (expected_price : option float) (utcnow : datetime)
  : result (bool * string) :=
  let c_spread := check_spread self market_data in
  let c_latency := check_latency self market_data in
  c_window ← check_trading_window self utcnow;
  let checks := [c_spread; c_latency; c_window] in
  checks ←
    match expected_price with
    | Some expected_price =>
        c ← check_slippage self expected_price market_data;
        Ok (checks ++ [c])%list
    | None => Ok checks
    end;
  Ok (first_failed checks).
End MarketFilters.

(** ** Histories of the signal router *)

Inductive router_call : Type :=
| call_can_trade_symbol (positions : list execution.Position.t)
    (va_id symbol : string)
| call_release_symbol (va_id : string).

Definition router_step (self : SignalRouter.t) (c : router_call)
  : SignalRouter.t :=
  match c with
  | call_can_trade_symbol positions va_id symbol =>
      snd (SignalRouter.can_trade_symbol self positions va_id symbol)
  | call_release_symbol va_id => SignalRouter.release_symbol self va_id
  end.

Definition router_run (self : SignalRouter.t) (calls : list router_call)
  : SignalRouter.t :=
  fold_left router_step calls self.

(** The call is a [release_symbol] of [va_id]. *)
Definition releases (va_id : string) (c : router_call) : bool :=
  match c with
  | call_release_symbol v => String.eqb v va_id
  | call_can_trade_symbol _ _ _ => false
  end.

(** ** Histories of the governor *)

(** Every row of [virtual_accounts] sits under its own [va_id]. *)
Definition accounts_keyed (db : storage.SQLiteManager.t) : Prop :=
  forall (k : string) (a : storage.VirtualAccount.t),
    storage.SQLiteManager.virtual_accounts db !! k = Some a ->
    storage.VirtualAccount.va_id a = k.





(** ** Histories of fills *)

(** Every row of [positions] sits under its own [(va_id, symbol)]. *)
Definition positions_keyed (db : storage.SQLiteManager.t) : Prop :=
  forall (k : string * string) (p : execution.Position.t),
    storage.SQLiteManager.positions db !! k = Some p ->
    (execution.Position.va_id p, execution.Position.symbol p) = k.

(** [_simulate_fill] runs in a task of its own: what [_process_fill]
    raises there stops that fill and no other, and it raises before it
    writes. *)
Definition fill_step (self : engine.OrderManager.t) (w : engine.world)
    (order : storage.Order.t) : engine.world :=
  match engine.OrderManager._process_fill self w order with
  | engine.Done w => w
  | engine.Fails _ => w
  end.

Definition run_fills (self : engine.OrderManager.t) (w : engine.world)
    (fills : list storage.Order.t) : engine.world :=
  fold_left (fill_step self) fills w.


(** Every row of [positions] has an [id], one the AUTOINCREMENT has
    given out. *)
Definition position_ids_bounded (db : storage.SQLiteManager.t) : Prop :=
  forall (k : string * string) (p : execution.Position.t),
    storage.SQLiteManager.positions db !! k = Some p ->
    exists i : Z,
      execution.Position.id p = Some i
      /\ i <= storage.SQLiteManager.positions_seq db.

(** [p'] is the row [p] at a later time: same [id], and the columns no
    statement of the engine writes after the INSERT. *)
Definition same_row (p p' : execution.Position.t) : Prop :=
  execution.Position.id p' = execution.Position.id p
  /\ execution.Position.entry_price p' = execution.Position.entry_price p
  /\ execution.Position.opened_at p' = execution.Position.opened_at p.

(** The rows of [db'] are rows of [db] at a later time, or were inserted
    after it. *)
Definition rows_follow (db db' : storage.SQLiteManager.t) : Prop :=
  storage.SQLiteManager.positions_seq db
  <= storage.SQLiteManager.positions_seq db'
  /\ forall (k : string * string) (p' : execution.Position.t),
       storage.SQLiteManager.positions db' !! k = Some p' ->
       (exists i : Z,
          execution.Position.id p' = Some i
          /\ i <= storage.SQLiteManager.positions_seq db')
       /\ ((exists p : execution.Position.t,
              storage.SQLiteManager.positions db !! k = Some p
              /\ same_row p p')
           \/ (exists i : Z,
                 execution.Position.id p' = Some i
                 /\ storage.SQLiteManager.positions_seq db < i)).


(** ** A scenario of the execution engine *)

Module EngineScenario.
(** A clock that moves a millisecond per reading. *)
Definition utcnow (n : nat) : datetime :=
  Scenario.jan_1_2025 + Z.of_nat n * 1000.

(** [Settings()] with its defaults. *)
Definition settings : Settings.t :=
  Settings.mk "trading.db" 3 300 10 5 500 "09:30" "16:00" 5 false 10000 5 2.

(** [VirtualAccount(va_id="va1")] once created. *)
Definition account : storage.VirtualAccount.t :=
  storage.VirtualAccount.mk (Some 1) "va1" 100000 0 0 0 0 0 0 0 false None
    Scenario.jan_1_2025 Scenario.jan_1_2025.

Definition db : storage.SQLiteManager.t :=
  storage.SQLiteManager.mk {["va1" := account]} ∅ 0 [].

Definition world : engine.world := engine.mk_world db 0.

Definition manager : engine.OrderManager.t :=
  engine.OrderManager.mk settings utcnow.

Definition governor : engine.Governor.t :=
  engine.Governor.mk settings utcnow
    (engine.mk_formats (fun _ => "0") (fun _ => "3")).

(** The account after three losing trades of 10 each. *)
Definition account_after_losses : storage.VirtualAccount.t :=
  storage.VirtualAccount.mk (Some 1) "va1" 99970 (-30) 3 0 3 (-30) (-30) 3
    false None Scenario.jan_1_2025 Scenario.jan_1_2025.

Definition world_after_losses : engine.world :=
  engine.mk_world
    (storage.SQLiteManager.mk {["va1" := account_after_losses]} ∅ 0 []) 0.

(** A filled order of "va1" on BTCUSDT, without a stop-loss. *)
Definition order_at (price : float) (side : storage.OrderSide)
    (quantity : float) (reduce_only : bool) : storage.Order.t :=
  storage.Order.mk (Some 1) "va1" "BTCUSDT" side quantity (Some price) None
    quantity storage.FILLED Scenario.jan_1_2025 Scenario.jan_1_2025
    reduce_only None.

(** The world after [fill]s, a fill that raises leaving it as it was. *)
Definition after (fills : list storage.Order.t) : engine.world :=
  run_fills manager world fills.

(** "va1" long 5 BTCUSDT from 100. *)
Definition world_long : engine.world :=
  after [order_at 100 storage.BUY 5 false].

(** The filters of the default settings; of [strptime] only what the two
    default window strings need. *)
Definition filters : MarketFilters.t :=
  MarketFilters.mk settings
    (fun s =>
       if String.eqb s "09:30" then Ok (Scenario.minutes 570)
       else if String.eqb s "16:00" then Ok (Scenario.minutes 960)
       else Raise ValueError)
    (fun _ => "0.00") (fun _ => "0.0") (fun _ => "0.0").

(** A quote around 100, seen at 10:00 UTC. *)
Definition market_data : MarketData.t :=
  MarketData.mk "BTCUSDT" (9999 # 100) (10001 # 100) 100 100
    (Scenario.jan_1_2025 + Scenario.minutes 600).
End EngineScenario.

(** ** Traces of the reconciler *)

(** The symbols of the panic-close calls of a trace, in order. *)
Definition panic_close_symbols (cs : list reconciliation.Call)
  : list string :=
  omap (fun c =>
          match c with
          | reconciliation.call_panic_close_position symbol _ _ => Some symbol
          | _ => None
          end) cs.




(** * Properties *)

(** ** Comparisons on floats *)

Lemma Qltb_lt (a b : Q) : Qltb a b = true <-> (a < b)%Q.
Proof.
  unfold Qltb. rewrite negb_true_iff, <- not_true_iff_false, Qle_bool_iff.
  split; [apply Qnot_le_lt | apply Qlt_not_le].
Qed.

Lemma Qltb_ge (a b : Q) : Qltb a b = false <-> (b <= a)%Q.
Proof.
  unfold Qltb. rewrite negb_false_iff. apply Qle_bool_iff.
Qed.

Lemma Qleb_le (a b : Q) : Qleb a b = true <-> (a <= b)%Q.
Proof. apply Qle_bool_iff. Qed.

Lemma Qleb_gt (a b : Q) : Qleb a b = false <-> (b < a)%Q.
Proof.
  unfold Qleb. rewrite <- not_true_iff_false, Qle_bool_iff.
  split; [apply Qnot_le_lt | apply Qlt_not_le].
Qed.

Lemma Qeqb_eq (a b : Q) : Qeqb a b = true <-> (a == b)%Q.
Proof. apply Qeq_bool_iff. Qed.

Lemma Qeqb_neq (a b : Q) : Qeqb a b = false <-> ~ (a == b)%Q.
Proof.
  unfold Qeqb. rewrite <- not_true_iff_false, Qeq_bool_iff. tauto.
Qed.

Lemma Qabs_pos_of_nonzero (x : Q) : ~ (x == 0)%Q -> (0 < Qabs x)%Q.
Proof.
  intros Hx. apply Qnot_le_lt. intros Hle.
  apply Qabs_Qle_condition in Hle as [Hlo Hhi].
  apply Hx. apply Qle_antisym; [exact Hhi | exact Hlo].
Qed.

Lemma py_div_ok (a b : Q) : ~ (b == 0)%Q -> py_div a b = Ok (a / b)%Q.
Proof. intros Hb. unfold py_div. apply Qeqb_neq in Hb. now rewrite Hb. Qed.

Lemma py_div_zero (a b : Q) :
  (b == 0)%Q -> py_div a b = Raise ZeroDivisionError.
Proof. intros Hb. unfold py_div. apply Qeqb_eq in Hb. now rewrite Hb. Qed.

(** ** The stop-loss trigger of the order manager *)

(** A stop-loss price that is missing or [0.0] never triggers. *)
Lemma check_stop_loss_unset (p : execution.Position.t) (x : Q) :
  match execution.Position.stop_loss_price p with
  | None => True
  | Some sl => (sl == 0)%Q
  end ->
  execution.OrderManager.check_stop_loss p x = false.
Proof.
  unfold execution.OrderManager.check_stop_loss.
  destruct (execution.Position.stop_loss_price p) as [sl|]; [|reflexivity].
  intros H. apply Qeqb_eq in H. now rewrite H.
Qed.

(** C8, as stated, fails: a long position with stop-loss price 0.0 is not
    triggered at price 0.0, although 0.0 <= 0.0. *)
Lemma check_stop_loss_zero_stop_not_triggered :
  (0 < execution.Position.quantity Scenario.position_zero_stop)%Q
  /\ execution.Position.stop_loss_price Scenario.position_zero_stop = Some 0%Q
  /\ (0 <= 0)%Q
  /\ execution.OrderManager.check_stop_loss Scenario.position_zero_stop 0
     = false.
Proof.
  split; [reflexivity|]. split; [reflexivity|].
  split; [apply Qle_refl | reflexivity].
Qed.

(** C8 (amended): for every position whose stop-loss price is set and
    non-zero, a long position is triggered exactly when the price is at or
    below the stop, and a short position exactly when it is at or above. *)
Theorem check_stop_loss_iff (p : execution.Position.t) (sl x : Q) :
  execution.Position.stop_loss_price p = Some sl ->
  ~ (sl == 0)%Q ->
  ((0 < execution.Position.quantity p)%Q ->
   (execution.OrderManager.check_stop_loss p x = true <-> (x <= sl)%Q))
  /\ ((execution.Position.quantity p < 0)%Q ->
      (execution.OrderManager.check_stop_loss p x = true <-> (sl <= x)%Q)).
Proof.
  intros Hsl Hnz. unfold execution.OrderManager.check_stop_loss.
  rewrite Hsl. apply Qeqb_neq in Hnz. rewrite Hnz.
  split; intros Hq.
  - apply Qltb_lt in Hq as Hpos. rewrite Hpos. simpl.
    destruct (Qleb x sl) eqn:Hx.
    + apply Qleb_le in Hx. tauto.
    + assert (Hneg : Qltb (execution.Position.quantity p) 0 = false).
      { apply Qltb_ge. now apply Qlt_le_weak. }
      rewrite Hneg. simpl. apply Qleb_gt in Hx.
      split; [discriminate|]. intros Hle. exfalso.
      exact (Qlt_not_le _ _ Hx Hle).
  - assert (Hpos : Qltb 0 (execution.Position.quantity p) = false).
    { apply Qltb_ge. now apply Qlt_le_weak. }
    rewrite Hpos. simpl. apply Qltb_lt in Hq as Hneg. rewrite Hneg. simpl.
    destruct (Qleb sl x) eqn:Hx.
    + apply Qleb_le in Hx. tauto.
    + apply Qleb_gt in Hx. split; [discriminate|]. intros Hle. exfalso.
      exact (Qlt_not_le _ _ Hx Hle).
Qed.

Lemma check_stop_loss_iff_witness :
  execution.Position.stop_loss_price Scenario.position_long = Some 99%Q
  /\ ~ (99 == 0)%Q
  /\ (execution.OrderManager.check_stop_loss Scenario.position_long 98 = true
      <-> (98 <= 99)%Q).
Proof.
  split; [reflexivity|]. split; [discriminate|].
  apply (check_stop_loss_iff Scenario.position_long 99 98);
    [reflexivity | discriminate | reflexivity].
Defined.

(** ** The sizer *)

Lemma decay_of_tiers (c : Z) :
  SizeCalculator.decay_of c
  = if c <? 2 then 1%Q else if c <? 4 then (1 # 2)%Q else (1 # 4)%Q.
Proof.
  unfold SizeCalculator.decay_of.
  destruct (Z.leb_spec 4 c), (Z.leb_spec 2 c), (Z.ltb_spec c 2),
    (Z.ltb_spec c 4); (reflexivity || lia).
Qed.

(** The sizer up to the point where the decay is applied: a plan with
    positive equity, positive leverage, a resolvable stop at a non-zero
    distance and a non-zero entry price reaches it. *)
Lemma calculate_qty_reaches_decay (self : SizeCalculator.t)
    (plan : OrderPlan.t) (ve : Q) (c : Z) (leverage : option Q)
    (spec : StopLossSpec.t) (sl : Q) :
  (0 < ve)%Q ->
  (0 < SizerSpec.effective_leverage self leverage)%Q ->
  OrderPlan.stop_loss plan = Some spec ->
  StopLossSpec.resolved_stop_price spec (OrderPlan.entry_price plan)
    (OrderPlan.side plan) = Ok sl ->
  ~ (OrderPlan.entry_price plan - sl == 0)%Q ->
  ~ (OrderPlan.entry_price plan == 0)%Q ->
  SizeCalculator.calculate_qty self plan ve c leverage
  = Ok (let entry := OrderPlan.entry_price plan in
        let R := Qabs (entry - sl) in
        let raw_qty := (ve * SizeCalculator.risk_per_trade_pct self / R)%Q in
        let qty_cap :=
          (ve * SizerSpec.effective_leverage self leverage / entry)%Q in
        let qty := (py_min raw_qty qty_cap * SizeCalculator.decay_of c)%Q in
        let mc := SizeCalculator.market_constraints self in
        if Qltb qty (MarketConstraints.min_qty mc) then
          SizeResult.mk 0 (Some "below_min_qty")
        else if Qltb (qty * entry)%Q (MarketConstraints.min_notional mc) then
          SizeResult.mk 0 (Some "below_min_notional")
        else
          SizeResult.mk (match OrderPlan.side plan with
                         | BUY => qty
                         | SELL => (- qty)%Q
                         end) None).
Proof.
  intros Hve Hlev Hspec Hsl HR Hentry.
  unfold SizeCalculator.calculate_qty.
  apply Qleb_gt in Hve. rewrite Hve.
  unfold SizerSpec.effective_leverage in *.
  replace (match leverage with
           | Some l => l
           | None => SizeCalculator.default_leverage self
           end)
    with (default (SizeCalculator.default_leverage self) leverage)
    by now destruct leverage.
  apply Qleb_gt in Hlev. rewrite Hlev.
  rewrite Hspec. cbn [mbind result_bind]. rewrite Hsl. cbn [mbind result_bind].
  assert (HR' : Qleb (Qabs (OrderPlan.entry_price plan - sl)) 0 = false).
  { apply Qleb_gt. now apply Qabs_pos_of_nonzero. }
  rewrite HR'.
  rewrite (py_div_ok _ (Qabs (OrderPlan.entry_price plan - sl))).
  2:{ intros H. apply Qleb_gt in HR'. rewrite H in HR'.
      exact (Qlt_irrefl _ HR'). }
  rewrite (py_div_ok _ (OrderPlan.entry_price plan)) by exact Hentry.
  cbn [mbind result_bind]. cbv zeta.
  destruct (OrderPlan.side plan);
    repeat match goal with |- context [if ?b then _ else _] =>
      destruct b end; reflexivity.
Qed.

(** C5: the loss-decay factor is 1 below two consecutive losses, 0.5 from
    two and 0.25 from four, and the sizer multiplies min(raw_qty, qty_cap)
    by it before the min_qty and min_notional checks. *)
Theorem sizer_loss_decay (self : SizeCalculator.t) (plan : OrderPlan.t)
    (ve : Q) (c : Z) (leverage : option Q) (spec : StopLossSpec.t) (sl : Q) :
  (0 < ve)%Q ->
  (0 < SizerSpec.effective_leverage self leverage)%Q ->
  OrderPlan.stop_loss plan = Some spec ->
  StopLossSpec.resolved_stop_price spec (OrderPlan.entry_price plan)
    (OrderPlan.side plan) = Ok sl ->
  ~ (OrderPlan.entry_price plan - sl == 0)%Q ->
  ~ (OrderPlan.entry_price plan == 0)%Q ->
  SizeCalculator.decay_of c = SizerSpec.loss_decay c
  /\ SizeCalculator.calculate_qty self plan ve c leverage
     = Ok (SizerSpec.sized_qty self plan ve
             (SizerSpec.effective_leverage self leverage)
             (Qabs (OrderPlan.entry_price plan - sl)) c).
Proof.
  intros Hve Hlev Hspec Hsl HR Hentry.
  assert (Hdecay : SizeCalculator.decay_of c = SizerSpec.loss_decay c)
    by apply decay_of_tiers.
  split; [exact Hdecay|].
  rewrite (calculate_qty_reaches_decay self plan ve c leverage spec sl)
    by assumption.
  unfold SizerSpec.sized_qty. cbv zeta. rewrite Hdecay.
  destruct (OrderPlan.side plan); reflexivity.
Qed.

Lemma sizer_loss_decay_witness :
  (0 < 998)%Q
  /\ (0 < SizerSpec.effective_leverage Scenario.sizer None)%Q
  /\ OrderPlan.stop_loss Scenario.plan_va1 = Some Scenario.stop_at_99
  /\ StopLossSpec.resolved_stop_price Scenario.stop_at_99 100 BUY = Ok 99%Q
  /\ ~ (100 - 99 == 0)%Q
  /\ ~ (100 == 0)%Q
  /\ SizeCalculator.decay_of 2 = (1 # 2)%Q
  /\ SizeCalculator.calculate_qty Scenario.sizer Scenario.plan_va1 998 2 None
     = Ok (SizerSpec.sized_qty Scenario.sizer Scenario.plan_va1 998
             (SizerSpec.effective_leverage Scenario.sizer None)
             (Qabs (100 - 99)) 2).
Proof.
  repeat (split; [first [reflexivity | discriminate]|]).
  apply (sizer_loss_decay Scenario.sizer Scenario.plan_va1 998 2 None
           Scenario.stop_at_99 99);
    first [reflexivity | discriminate].
Defined.

(** ** The review of the risk manager *)

Lemma eqb_decide (a b : string) : String.eqb a b = bool_decide (a = b).
Proof.
  destruct (String.eqb_spec a b) as [->|Hne].
  - now rewrite bool_decide_eq_true_2.
  - now rewrite bool_decide_eq_false_2.
Qed.

Lemma neqb_decide (a b : string) :
  negb (String.eqb a b) = bool_decide (a ≠ b).
Proof.
  destruct (String.eqb_spec a b) as [->|Hne]; simpl.
  - rewrite bool_decide_eq_false_2; [reflexivity | tauto].
  - now rewrite bool_decide_eq_true_2.
Qed.

Lemma ltb_decide (a b : Z) : (a <? b) = bool_decide (b > a).
Proof.
  destruct (Z.ltb_spec a b).
  - rewrite bool_decide_eq_true_2; [reflexivity | lia].
  - rewrite bool_decide_eq_false_2; [reflexivity | lia].
Qed.

Lemma leb_decide (a b : Z) : (a <=? b) = bool_decide (b >= a).
Proof.
  destruct (Z.leb_spec a b).
  - rewrite bool_decide_eq_true_2; [reflexivity | lia].
  - rewrite bool_decide_eq_false_2; [reflexivity | lia].
Qed.

Lemma side_neq_decide (a b : Side) :
  negb (Side_eqb a b) = bool_decide (a ≠ b).
Proof. now destruct a, b. Qed.

(** Check 8 of section 4.4 is the test [review_orderplan] makes with
    [Position.side]. *)
Lemma check_opposing_exposure_code (self : RiskManager.t)
    (plan : OrderPlan.t) :
  ReviewSpec.check_opposing_exposure self plan
  = ReviewSpec.fail_if
      (match RiskManager._positions self
               !! (OrderPlan.va_id plan, OrderPlan.symbol plan) with
       | Some pos =>
           match Position.side pos with
           | Some s => bool_decide (s ≠ OrderPlan.side plan)
           | None => false
           end
       | None => false
       end)
      "opposing_exposure_not_allowed".
Proof.
  unfold ReviewSpec.check_opposing_exposure. f_equal.
  destruct (RiskManager._positions self !! _) as [pos|]; [|reflexivity].
  unfold ReviewSpec.opposes, Position.side.
  destruct (Qltb 0 (Position.qty pos)) eqn:Hpos.
  - apply Qltb_lt in Hpos. destruct (OrderPlan.side plan).
    + rewrite bool_decide_eq_false_2 by (intros H; now apply H).
      apply Qltb_ge. lra.
    + rewrite bool_decide_eq_true_2 by discriminate. reflexivity.
  - destruct (Qltb (Position.qty pos) 0) eqn:Hneg.
    + destruct (OrderPlan.side plan).
      * rewrite bool_decide_eq_true_2 by discriminate. reflexivity.
      * rewrite bool_decide_eq_false_2 by (intros H; now apply H).
        reflexivity.
    + now destruct (OrderPlan.side plan).
Qed.

(** Check 10 of section 4.4 is [_would_breach_symbol_exposure_cap] on the
    notional of the sized order. *)
Lemma check_net_exposure_cap_code (self : RiskManager.t) (st : VaState.t)
    (plan : OrderPlan.t) :
  ReviewSpec.check_net_exposure_cap self st plan
  = match ReviewSpec.sized self st plan with
    | Raise e => ReviewSpec.Crash e
    | Ok size =>
        ReviewSpec.fail_if
          (RiskManager._would_breach_symbol_exposure_cap self
             (OrderPlan.symbol plan)
             (Qabs (SizeResult.qty size) * OrderPlan.entry_price plan)%Q)
          "net_exposure_cap"
    end.
Proof.
  unfold ReviewSpec.check_net_exposure_cap.
  destruct (ReviewSpec.sized self st plan) as [size|e]; [|reflexivity].
  cbv zeta. f_equal.
  unfold RiskManager._would_breach_symbol_exposure_cap,
    ReviewSpec.notional_over_symbol.
  destruct (Qleb (RiskConfig.max_symbol_exposure_pct_real_equity _) 0);
    [reflexivity|].
  cbn [orb]. destruct (Qleb _ 0); reflexivity.
Qed.

(** Turn the decided propositions of the check list into the boolean
    tests of the code. *)
Ltac bridge :=
  repeat first
    [ rewrite <- eqb_decide | rewrite <- neqb_decide | rewrite <- ltb_decide
    | rewrite <- leb_decide | rewrite <- side_neq_decide ].

(** One check of [review_orderplan]: split on its condition; the failing
    branch is closed at once. *)
Ltac review_step :=
  cbn [ReviewSpec.first_failing ReviewSpec.is_pass];
  lazymatch goal with
  | |- (if match ?l with Some _ => _ | None => false end then _ else _) = _ =>
      destruct l eqn:?
  | |- (if ?b then _ else _) = _ =>
      bridge; destruct b eqn:?; [reflexivity|]
  | |- match ?x with Ok _ => _ | Raise _ => _ end = _ =>
      destruct x eqn:?; [|reflexivity]
  end.

(** [review_orderplan], for a registered VA, answers as the first failing
    check of [ReviewSpec.risk_checks] says, over the rolled state. *)
Lemma review_orderplan_answer (self : RiskManager.t) (plan : OrderPlan.t)
    (now : datetime) (reserve : bool) (st : VaState.t) :
  RiskManager._va self !! OrderPlan.va_id plan = Some st ->
  let st' := RiskManager._roll_day self st now in
  let self' := ReviewSpec.rolled self (OrderPlan.va_id plan) st now in
  RiskManager.review_orderplan self plan now reserve
  = (ReviewSpec.answer self' st' plan now,
     ReviewSpec.after self' st' plan now reserve).
Proof.
  intros Hva st' self'.
  unfold RiskManager.review_orderplan, RiskManager._require_va.
  rewrite Hva. fold st'. cbv zeta.
  change (RiskManager.set_va self
            (<[OrderPlan.va_id plan := st']> (RiskManager._va self)))
    with self'.
  unfold ReviewSpec.after, ReviewSpec.answer, ReviewSpec.risk_checks.
  rewrite !check_opposing_exposure_code, !check_net_exposure_cap_code.
  unfold ReviewSpec.check_kill_switch, ReviewSpec.check_stop_loss_required,
    ReviewSpec.check_take_profit_required_for_fixed,
    ReviewSpec.check_cooldown_active, ReviewSpec.check_max_daily_loss,
    ReviewSpec.check_max_trades_per_day,
    ReviewSpec.check_symbol_owned_by_other_va,
    ReviewSpec.check_sizer, ReviewSpec.sized, ReviewSpec.fail_if.
  destruct (OrderPlan.stop_loss plan) as [stop_loss|] eqn:Hstop.
  2:{ cbn [ReviewSpec.first_failing ReviewSpec.is_pass].
      destruct (VaState.kill_switch st'); reflexivity. }
  rewrite (bool_decide_eq_false_2 (Some stop_loss = None)) by discriminate.
  repeat review_step.
  all: cbn [ReviewSpec.first_failing ReviewSpec.is_pass mbind result_bind
            ReviewResult.approved andb].
  all: destruct reserve; [|reflexivity].
  all: unfold ReviewSpec.reserved;
    cbn [RiskManager._symbol_owner RiskManager.set_va RiskManager._va].
  all: repeat match goal with
         | H : RiskManager._symbol_owner _ !! _ = _ |- _ => rewrite H; clear H
         | H : VaState.kill_switch _ = _ |- _ => rewrite H; clear H
         end.
  all: reflexivity.
Qed.

Lemma first_failing_pass (l : list ReviewSpec.verdict) :
  ReviewSpec.first_failing l = ReviewSpec.Pass ->
  Forall (fun v => v = ReviewSpec.Pass) l.
Proof.
  induction l as [|v l IH]; simpl; intros H; [constructor|].
  destruct v; simpl in H; try discriminate.
  constructor; [reflexivity | now apply IH].
Qed.

Lemma first_failing_app (l1 l2 : list ReviewSpec.verdict) :
  ReviewSpec.first_failing l1 = ReviewSpec.Pass ->
  ReviewSpec.first_failing (l1 ++ l2) = ReviewSpec.first_failing l2.
Proof.
  induction l1 as [|v l1 IH]; simpl; intros H; [reflexivity|].
  destruct v; simpl in *; try discriminate. now apply IH.
Qed.

(** The sizer returns for every plan whose stop-loss resolves and whose
    entry price is not zero; it raises only without that. *)
Lemma calculate_qty_returns (self : SizeCalculator.t) (plan : OrderPlan.t)
    (ve : Q) (c : Z) (leverage : option Q) (spec : StopLossSpec.t) (sl : Q) :
  OrderPlan.stop_loss plan = Some spec ->
  StopLossSpec.resolved_stop_price spec (OrderPlan.entry_price plan)
    (OrderPlan.side plan) = Ok sl ->
  ~ (OrderPlan.entry_price plan == 0)%Q ->
  exists size : SizeResult.t,
    SizeCalculator.calculate_qty self plan ve c leverage = Ok size.
Proof.
  intros Hspec Hsl Hentry. unfold SizeCalculator.calculate_qty.
  destruct (Qleb ve 0); [eauto|].
  destruct (Qleb (py_min _ _) 0); [eauto|].
  rewrite Hspec. cbn [mbind result_bind]. rewrite Hsl.
  cbn [mbind result_bind].
  destruct (Qleb (Qabs (OrderPlan.entry_price plan - sl)) 0) eqn:HR; [eauto|].
  rewrite (py_div_ok _ (Qabs (OrderPlan.entry_price plan - sl))).
  2:{ intros H. apply Qleb_gt in HR. rewrite H in HR.
      exact (Qlt_irrefl _ HR). }
  rewrite (py_div_ok _ (OrderPlan.entry_price plan)) by exact Hentry.
  cbn [mbind result_bind].
  destruct (Qltb _ _); [eauto|]. destruct (Qltb _ _); eauto.
Qed.

(** None of the checks 1 to 8 raises, so a review raises only when the
    sizer does. *)
Lemma first_failing_crash (self : RiskManager.t) (st : VaState.t)
    (plan : OrderPlan.t) (now : datetime) (e : exn) :
  ReviewSpec.first_failing (ReviewSpec.risk_checks self st plan now)
  = ReviewSpec.Crash e ->
  ReviewSpec.sized self st plan = Raise e.
Proof.
  unfold ReviewSpec.risk_checks.
  rewrite check_opposing_exposure_code, check_net_exposure_cap_code.
  unfold ReviewSpec.check_kill_switch,
    ReviewSpec.check_stop_loss_required,
    ReviewSpec.check_take_profit_required_for_fixed,
    ReviewSpec.check_cooldown_active, ReviewSpec.check_max_daily_loss,
    ReviewSpec.check_max_trades_per_day,
    ReviewSpec.check_symbol_owned_by_other_va,
    ReviewSpec.check_sizer, ReviewSpec.fail_if.
  cbn [ReviewSpec.first_failing].
  repeat match goal with
         | |- context [ReviewSpec.is_pass (if ?b then _ else _)] =>
             destruct b; cbn [ReviewSpec.is_pass]; [discriminate|]
         end.
  destruct (ReviewSpec.sized self st plan) as [size|e']; cbn [ReviewSpec.is_pass].
  - destruct (Qeqb (SizeResult.qty size) 0); cbn [ReviewSpec.is_pass];
      [discriminate|].
    destruct (RiskManager._would_breach_symbol_exposure_cap _ _ _);
      cbn [ReviewSpec.is_pass]; discriminate.
  - congruence.
Qed.

(** A review of a plan whose stop-loss, if any, resolves and whose entry
    price is not zero returns a ReviewResult. *)
Lemma review_orderplan_returns (self : RiskManager.t) (plan : OrderPlan.t)
    (now : datetime) (reserve : bool) (st : VaState.t) :
  RiskManager._va self !! OrderPlan.va_id plan = Some st ->
  sizable plan ->
  exists r : ReviewResult.t,
    fst (RiskManager.review_orderplan self plan now reserve) = Ok r.
Proof.
  intros Hva [Hentry Hspec].
  rewrite (review_orderplan_answer self plan now reserve st Hva). cbn [fst].
  unfold ReviewSpec.answer.
  destruct (OrderPlan.stop_loss plan) as [spec|] eqn:Hsl.
  - destruct (ReviewSpec.first_failing _) as [|reason|e] eqn:Hfirst.
    + apply first_failing_pass in Hfirst.
      unfold ReviewSpec.risk_checks in Hfirst.
      do 8 (apply Forall_cons in Hfirst as [_ Hfirst]).
      apply Forall_cons in Hfirst as [Hsizer _].
      unfold ReviewSpec.check_sizer in Hsizer.
      destruct (ReviewSpec.sized _ _ plan) as [size|]; [|discriminate].
      cbn [mbind result_bind]. eauto.
    + eauto.
    + exfalso. apply first_failing_crash in Hfirst.
      destruct (Hspec spec eq_refl) as [sl Hres].
      destruct (calculate_qty_returns
                  (RiskManager._sizer
                     (ReviewSpec.rolled self (OrderPlan.va_id plan) st now))
                  plan
                  (VaState.virtual_equity (RiskManager._roll_day self st now))
                  (VaState.consecutive_losses
                     (RiskManager._roll_day self st now))
                  None spec sl Hsl Hres Hentry) as [size Hsize].
      unfold ReviewSpec.sized in Hfirst. congruence.
  - unfold ReviewSpec.risk_checks, ReviewSpec.check_kill_switch,
      ReviewSpec.check_stop_loss_required, ReviewSpec.fail_if.
    rewrite Hsl. cbn [ReviewSpec.first_failing].
    destruct (VaState.kill_switch _); cbn; eauto.
Qed.

(** C1, as stated, fails: a review does not return for every plan of a
    registered VA, and a rejection does not always carry a reason.  A plan
    quoted at an entry price of zero passes the checks 1 to 8 and makes
    the sizer divide by zero; with risk_per_trade_pct = 0 the scenario
    plan is rejected with no reason at all. *)
Lemma review_orderplan_zero_entry_raises :
  is_Some (RiskManager._va Scenario.rm_daily_reset !! "va1")
  /\ fst (RiskManager.review_orderplan Scenario.rm_daily_reset
            Scenario.plan_zero_entry Scenario.before_midnight true)
     = Raise ZeroDivisionError
  /\ is_Some (RiskManager._va Scenario.rm_zero_risk !! "va1")
  /\ fst (RiskManager.review_orderplan Scenario.rm_zero_risk
            Scenario.plan_va1 Scenario.before_midnight true)
     = Ok (ReviewResult.mk false None None).
Proof.
  split; [eexists; reflexivity|]. split; [reflexivity|].
  split; [eexists; reflexivity|]. reflexivity.
Qed.

(** A rejection without a reason comes from the sizer: the checks 1 to 8
    pass and the sizer returned a zero quantity with no reason. *)
Lemma first_failing_no_reason (self : RiskManager.t) (st : VaState.t)
    (plan : OrderPlan.t) (now : datetime) :
  ReviewSpec.first_failing (ReviewSpec.risk_checks self st plan now)
  = ReviewSpec.Fail None ->
  ReviewSpec.first_failing
    (firstn 8 (ReviewSpec.risk_checks self st plan now))
  = ReviewSpec.Pass
  /\ exists size : SizeResult.t,
       ReviewSpec.sized self st plan = Ok size
       /\ (SizeResult.qty size == 0)%Q
       /\ SizeResult.reason size = None.
Proof.
  unfold ReviewSpec.risk_checks.
  rewrite check_opposing_exposure_code, check_net_exposure_cap_code.
  unfold ReviewSpec.check_kill_switch,
    ReviewSpec.check_stop_loss_required,
    ReviewSpec.check_take_profit_required_for_fixed,
    ReviewSpec.check_cooldown_active, ReviewSpec.check_max_daily_loss,
    ReviewSpec.check_max_trades_per_day,
    ReviewSpec.check_symbol_owned_by_other_va,
    ReviewSpec.check_sizer, ReviewSpec.fail_if.
  cbn [firstn ReviewSpec.first_failing].
  repeat match goal with
         | |- context [ReviewSpec.is_pass (if ?b then _ else _)] =>
             destruct b; cbn [ReviewSpec.is_pass]; [discriminate|]
         end.
  destruct (ReviewSpec.sized self st plan) as [size|e];
    cbn [ReviewSpec.is_pass]; [|discriminate].
  destruct (Qeqb (SizeResult.qty size) 0) eqn:Hq; cbn [ReviewSpec.is_pass].
  - intros H. injection H as Hreason. split; [reflexivity|].
    exists size. split; [reflexivity|].
    split; [now apply Qeqb_eq | exact Hreason].
  - destruct (RiskManager._would_breach_symbol_exposure_cap _ _ _);
      cbn [ReviewSpec.is_pass]; discriminate.
Qed.

(** C1 (amended): for a registered VA, review_orderplan rolls the day and
    then answers as the first failing check of the ten checks of section
    4.4 says, taken in that order: a rejection with that check's reason
    (its fixed string for the checks 1 to 8 and 10, the sizer's reason for
    check 9, which is no reason at all when the sizer returns a zero
    quantity without one), and an approval, with the sized quantity, only
    when all ten pass.  The review returns such an answer for every plan
    whose entry price is not zero and whose stop-loss, when present,
    resolves; on any other plan that passes the checks 1 to 8 the sizer
    may raise, and the exception reaches the caller. *)
Theorem review_orderplan_first_failing_check (self : RiskManager.t)
    (plan : OrderPlan.t) (now : datetime) (reserve : bool) (st : VaState.t) :
  RiskManager._va self !! OrderPlan.va_id plan = Some st ->
  let st' := RiskManager._roll_day self st now in
  let self' := ReviewSpec.rolled self (OrderPlan.va_id plan) st now in
  match ReviewSpec.first_failing (ReviewSpec.risk_checks self' st' plan now)
  with
  | ReviewSpec.Fail reason =>
      RiskManager.review_orderplan self plan now reserve
      = (Ok (ReviewResult.mk false reason None), self')
  | ReviewSpec.Crash e =>
      RiskManager.review_orderplan self plan now reserve = (Raise e, self')
  | ReviewSpec.Pass =>
      exists size : SizeResult.t,
        ReviewSpec.sized self' st' plan = Ok size
        /\ ~ (SizeResult.qty size == 0)%Q
        /\ RiskManager.review_orderplan self plan now reserve
           = (Ok (ReviewResult.mk true None (Some (SizeResult.qty size))),
              if reserve then ReviewSpec.reserved self' plan st' else self')
  end
  /\ (ReviewSpec.first_failing (ReviewSpec.risk_checks self' st' plan now)
      = ReviewSpec.Fail None ->
      ReviewSpec.first_failing
        (firstn 8 (ReviewSpec.risk_checks self' st' plan now))
      = ReviewSpec.Pass
      /\ exists size : SizeResult.t,
           ReviewSpec.sized self' st' plan = Ok size
           /\ (SizeResult.qty size == 0)%Q
           /\ SizeResult.reason size = None)
  /\ (forall e : exn,
        ReviewSpec.first_failing (ReviewSpec.risk_checks self' st' plan now)
        = ReviewSpec.Crash e ->
        ReviewSpec.sized self' st' plan = Raise e /\ ~ sizable plan)
  /\ (sizable plan ->
      exists r : ReviewResult.t,
        fst (RiskManager.review_orderplan self plan now reserve) = Ok r).
Proof.
  intros Hva st' self'.
  assert (Hreturns : sizable plan ->
            exists r : ReviewResult.t,
              fst (RiskManager.review_orderplan self plan now reserve)
              = Ok r)
    by (intros Hs; now apply review_orderplan_returns with (st := st)).
  split; [|split; [apply first_failing_no_reason|split; [|exact Hreturns]]].
  - rewrite (review_orderplan_answer self plan now reserve st Hva).
    fold st' self'. unfold ReviewSpec.after, ReviewSpec.answer.
    destruct (ReviewSpec.first_failing
                (ReviewSpec.risk_checks self' st' plan now))
      eqn:Hfirst; [|reflexivity|reflexivity].
    apply first_failing_pass in Hfirst.
    unfold ReviewSpec.risk_checks in Hfirst.
    do 8 (apply Forall_cons in Hfirst as [_ Hfirst]).
    apply Forall_cons in Hfirst as [Hsizer _].
    unfold ReviewSpec.check_sizer in Hsizer.
    destruct (ReviewSpec.sized self' st' plan) as [size|e]; [|discriminate].
    exists size. split; [reflexivity|].
    destruct (Qeqb (SizeResult.qty size) 0) eqn:Hq; [discriminate|].
    split; [now apply Qeqb_neq|].
    cbn [mbind result_bind ReviewResult.approved andb]. reflexivity.
  - intros e Hcrash. split; [now apply first_failing_crash with (now := now)|].
    intros Hs. destruct (Hreturns Hs) as [r Hr].
    rewrite (review_orderplan_answer self plan now reserve st Hva) in Hr.
    cbn [fst] in Hr. fold st' self' in Hr.
    unfold ReviewSpec.answer in Hr. rewrite Hcrash in Hr. discriminate.
Qed.

Lemma review_orderplan_first_failing_check_witness :
  RiskManager.review_orderplan Scenario.rm_one_position Scenario.plan_va1
    Scenario.before_midnight false
  = (Ok (ReviewResult.mk false (Some "symbol_owned_by_other_va") None),
     ReviewSpec.rolled Scenario.rm_one_position "va1"
       (VaState.mk 1000 1000 0 0 None 0 false) Scenario.before_midnight)
  /\ RiskManager.review_orderplan Scenario.rm_short Scenario.plan_va1
       Scenario.before_midnight false
     = (Ok (ReviewResult.mk false (Some "opposing_exposure_not_allowed")
              None),
        ReviewSpec.rolled Scenario.rm_short "va1"
          (VaState.mk 1000 1000 0 0 None 0 false) Scenario.before_midnight)
  /\ RiskManager.review_orderplan Scenario.rm_exposure_cap Scenario.plan_va1
       Scenario.before_midnight false
     = (Ok (ReviewResult.mk false (Some "net_exposure_cap") None),
        ReviewSpec.rolled Scenario.rm_exposure_cap "va1"
          (VaState.mk 1000 1000 0 0 None 0 false) Scenario.before_midnight)
  /\ (exists size : SizeResult.t,
        ReviewSpec.sized
          (ReviewSpec.rolled Scenario.rm_daily_reset "va1"
             (VaState.mk 1000 1000 0 0 None 0 false)
             Scenario.before_midnight)
          (RiskManager._roll_day Scenario.rm_daily_reset
             (VaState.mk 1000 1000 0 0 None 0 false)
             Scenario.before_midnight)
          Scenario.plan_va1
        = Ok size
        /\ ~ (SizeResult.qty size == 0)%Q
        /\ RiskManager.review_orderplan Scenario.rm_daily_reset
             Scenario.plan_va1 Scenario.before_midnight false
           = (Ok (ReviewResult.mk true None (Some (SizeResult.qty size))),
              ReviewSpec.rolled Scenario.rm_daily_reset "va1"
                (VaState.mk 1000 1000 0 0 None 0 false)
                Scenario.before_midnight))
  /\ RiskManager.review_orderplan Scenario.rm_daily_reset
       Scenario.plan_zero_entry Scenario.before_midnight false
     = (Raise ZeroDivisionError,
        ReviewSpec.rolled Scenario.rm_daily_reset "va1"
          (VaState.mk 1000 1000 0 0 None 0 false) Scenario.before_midnight)
  /\ sizable Scenario.plan_va1
  /\ exists r : ReviewResult.t,
       fst (RiskManager.review_orderplan Scenario.rm_one_position
              Scenario.plan_va1 Scenario.before_midnight false) = Ok r.
Proof.
  assert (Hsizable : sizable Scenario.plan_va1).
  { split; [discriminate|].
    intros spec H. injection H as <-. exists 99%Q. reflexivity. }
  destruct (review_orderplan_first_failing_check Scenario.rm_one_position
              Scenario.plan_va1 Scenario.before_midnight false
              (VaState.mk 1000 1000 0 0 None 0 false) eq_refl)
    as (Howned & _ & _ & Hreturns).
  destruct (review_orderplan_first_failing_check Scenario.rm_short
              Scenario.plan_va1 Scenario.before_midnight false
              (VaState.mk 1000 1000 0 0 None 0 false) eq_refl)
    as (Hopposing & _).
  destruct (review_orderplan_first_failing_check Scenario.rm_exposure_cap
              Scenario.plan_va1 Scenario.before_midnight false
              (VaState.mk 1000 1000 0 0 None 0 false) eq_refl)
    as (Hcap & _).
  destruct (review_orderplan_first_failing_check Scenario.rm_daily_reset
              Scenario.plan_va1 Scenario.before_midnight false
              (VaState.mk 1000 1000 0 0 None 0 false) eq_refl)
    as (Happroved & _).
  destruct (review_orderplan_first_failing_check Scenario.rm_daily_reset
              Scenario.plan_zero_entry Scenario.before_midnight false
              (VaState.mk 1000 1000 0 0 None 0 false) eq_refl)
    as (Hraises & _).
  split; [exact Howned|]. split; [exact Hopposing|]. split; [exact Hcap|].
  split; [exact Happroved|]. split; [exact Hraises|].
  split; [exact Hsizable | exact (Hreturns Hsizable)].
Defined.

(** ** Rolling the day *)

Lemma roll_day_idempotent (self self' : RiskManager.t) (st : VaState.t)
    (now : datetime) :
  RiskManager.config self' = RiskManager.config self ->
  RiskManager._roll_day self' (RiskManager._roll_day self st now) now
  = RiskManager._roll_day self st now.
Proof.
  intros Hcfg. unfold RiskManager._roll_day, RiskManager._day_id.
  rewrite Hcfg.
  destruct (VaState.day_id st) as [d|] eqn:Hd; simpl.
  - destruct (Z.eqb_spec
                (date_of (now - timedelta_hours
                            (RiskConfig.daily_reset_hour_utc
                               (RiskManager.config self)))) d) as [He|Hne];
      simpl.
    + rewrite Hd. rewrite (proj2 (Z.eqb_eq _ _) He). reflexivity.
    + rewrite Z.eqb_refl. reflexivity.
  - rewrite Z.eqb_refl. reflexivity.
Qed.

Lemma rolled_rolled (self : RiskManager.t) (va_id : string) (st : VaState.t)
    (now : datetime) :
  ReviewSpec.rolled (ReviewSpec.rolled self va_id st now) va_id
    (RiskManager._roll_day self st now) now
  = ReviewSpec.rolled self va_id st now.
Proof.
  unfold ReviewSpec.rolled at 1 3.
  rewrite roll_day_idempotent by reflexivity.
  unfold ReviewSpec.rolled, RiskManager.set_va. simpl.
  now rewrite insert_insert_eq.
Qed.

(** A review sees the state only through its rolled form. *)
Lemma review_orderplan_rolled (self : RiskManager.t) (plan : OrderPlan.t)
    (now : datetime) (reserve : bool) (st : VaState.t) :
  RiskManager._va self !! OrderPlan.va_id plan = Some st ->
  RiskManager.review_orderplan
    (ReviewSpec.rolled self (OrderPlan.va_id plan) st now) plan now reserve
  = RiskManager.review_orderplan self plan now reserve.
Proof.
  intros Hva.
  rewrite (review_orderplan_answer self plan now reserve st Hva).
  rewrite (review_orderplan_answer _ plan now reserve
             (RiskManager._roll_day self st now)).
  2:{ unfold ReviewSpec.rolled. simpl. apply lookup_insert_eq. }
  rewrite rolled_rolled.
  rewrite roll_day_idempotent by reflexivity. reflexivity.
Qed.

Lemma after_no_reserve (self : RiskManager.t) (st : VaState.t)
    (plan : OrderPlan.t) (now : datetime) :
  ReviewSpec.after self st plan now false = self.
Proof.
  unfold ReviewSpec.after.
  destruct (ReviewSpec.answer self st plan now) as [r|]; [|reflexivity].
  now rewrite andb_false_r.
Qed.

(** C9: two successive reviews of the same plan at the same instant with
    reserve=false give the same outcome (the same ReviewResult, or the same
    exception), and the second leaves the state as the first left it. *)
Theorem review_orderplan_idempotent (self : RiskManager.t)
    (plan : OrderPlan.t) (now : datetime) :
  let first := RiskManager.review_orderplan self plan now false in
  RiskManager.review_orderplan (snd first) plan now false = first.
Proof.
  cbv zeta.
  destruct (RiskManager._va self !! OrderPlan.va_id plan) as [st|] eqn:Hva.
  - rewrite (review_orderplan_answer self plan now false st Hva).
    rewrite after_no_reserve. cbn [snd].
    rewrite (review_orderplan_rolled self plan now false st Hva).
    rewrite (review_orderplan_answer self plan now false st Hva).
    now rewrite after_no_reserve.
  - unfold RiskManager.review_orderplan, RiskManager._require_va.
    rewrite Hva. cbn [snd]. now rewrite Hva.
Qed.

(** Scenario 4, for any [reserve] flag of the second and third review. *)
Lemma daily_reset_scenario (b2 b3 : bool) :
  let r1 := RiskManager.review_orderplan Scenario.rm_daily_reset
              Scenario.plan_va1 Scenario.before_midnight true in
  let r2 := RiskManager.review_orderplan (snd r1) Scenario.plan_va1
              Scenario.before_midnight b2 in
  let r3 := RiskManager.review_orderplan (snd r2) Scenario.plan_va1
              Scenario.after_midnight b3 in
  fst r1 = Ok (ReviewResult.mk true None (Some (1000 # 100)%Q))
  /\ fst r2 = Ok (ReviewResult.mk false (Some "max_trades_per_day") None)
  /\ fst r3 = Ok (ReviewResult.mk true None (Some (1000 # 100)%Q)).
Proof.
  destruct b2, b3; vm_compute; repeat split; reflexivity.
Qed.

(** C6: the day identifier is the UTC date of now minus the reset hour;
    a VA without a stored day gets the new one and nothing is reset; a VA
    whose stored day differs gets daily_pnl and daily_trades reset to 0;
    the checks of a review run on the rolled state; and scenario 4 goes
    approved, rejected max_trades_per_day, approved. *)
Theorem day_roll_before_review (self : RiskManager.t) (plan : OrderPlan.t)
    (now : datetime) (reserve : bool) (st : VaState.t) :
  RiskManager._va self !! OrderPlan.va_id plan = Some st ->
  let day :=
    (now - RiskConfig.daily_reset_hour_utc (RiskManager.config self)
           * 3600000000) / 86400000000 in
  let st' := RiskManager._roll_day self st now in
  let self' := ReviewSpec.rolled self (OrderPlan.va_id plan) st now in
  RiskManager._day_id self now = day
  /\ st' = match VaState.day_id st with
           | None =>
               VaState.mk (VaState.virtual_equity st)
                 (VaState.peak_virtual_equity st) (VaState.daily_pnl st)
                 (VaState.daily_trades st) (Some day)
                 (VaState.consecutive_losses st) (VaState.kill_switch st)
           | Some d =>
               if bool_decide (d = day) then st
               else
                 VaState.mk (VaState.virtual_equity st)
                   (VaState.peak_virtual_equity st) 0 0 (Some day)
                   (VaState.consecutive_losses st) (VaState.kill_switch st)
           end
  /\ RiskManager._va self' !! OrderPlan.va_id plan = Some st'
  /\ RiskManager.review_orderplan self plan now reserve
     = RiskManager.review_orderplan self' plan now reserve
  /\ RiskManager.review_orderplan self plan now reserve
     = (ReviewSpec.answer self' st' plan now,
        ReviewSpec.after self' st' plan now reserve)
  /\ (forall b2 b3 : bool,
        let r1 := RiskManager.review_orderplan Scenario.rm_daily_reset
                    Scenario.plan_va1 Scenario.before_midnight true in
        let r2 := RiskManager.review_orderplan (snd r1) Scenario.plan_va1
                    Scenario.before_midnight b2 in
        let r3 := RiskManager.review_orderplan (snd r2) Scenario.plan_va1
                    Scenario.after_midnight b3 in
        fst r1 = Ok (ReviewResult.mk true None (Some (1000 # 100)%Q))
        /\ fst r2 = Ok (ReviewResult.mk false (Some "max_trades_per_day") None)
        /\ fst r3 = Ok (ReviewResult.mk true None (Some (1000 # 100)%Q))).
Proof.
  intros Hva day st' self'.
  assert (Hday : RiskManager._day_id self now = day) by reflexivity.
  split; [exact Hday|].
  split.
  { unfold st', RiskManager._roll_day. rewrite Hday.
    destruct (VaState.day_id st) as [d|]; [|reflexivity].
    destruct (Z.eqb_spec day d) as [->|Hne]; simpl.
    - now rewrite bool_decide_eq_true_2.
    - rewrite bool_decide_eq_false_2; [reflexivity | congruence]. }
  split; [apply lookup_insert_eq|].
  split; [symmetry; now apply review_orderplan_rolled|].
  split; [now apply review_orderplan_answer|].
  exact daily_reset_scenario.
Qed.

Lemma day_roll_before_review_witness :
  RiskManager._va Scenario.rm_daily_reset !! "va1"
  = Some (VaState.mk 1000 1000 0 0 None 0 false)
  /\ RiskManager._day_id Scenario.rm_daily_reset Scenario.after_midnight
     = 20090
  /\ RiskManager._roll_day Scenario.rm_daily_reset
       (VaState.mk 1000 1000 (-5) 1 (Some 20089) 0 false)
       Scenario.after_midnight
     = VaState.mk 1000 1000 0 0 (Some 20090) 0 false.
Proof.
  split; [reflexivity|].
  pose proof (day_roll_before_review Scenario.rm_daily_reset Scenario.plan_va1
                Scenario.after_midnight false
                (VaState.mk 1000 1000 0 0 None 0 false) eq_refl) as H.
  split; [exact (proj1 H) | reflexivity].
Defined.

(** ** A zero risk budget *)

(** C10, as stated, fails: with risk_per_trade_pct = 0 and no market
    minimum, a plan with positive equity, positive leverage and a non-zero
    stop distance, but quoted at a negative price, is rejected below_min_qty
    by the sizer and by the review. *)
Lemma zero_risk_negative_entry_below_min_qty :
  (RiskConfig.risk_per_trade_pct Scenario.config_zero_risk == 0)%Q
  /\ (0 < 1000)%Q
  /\ (0 < SizerSpec.effective_leverage
            (RiskManager._sizer Scenario.rm_zero_risk) None)%Q
  /\ ~ (Qabs (-100 - -99) == 0)%Q
  /\ SizeCalculator.calculate_qty (RiskManager._sizer Scenario.rm_zero_risk)
       Scenario.plan_negative_entry 1000 0 None
     = Ok (SizeResult.mk 0 (Some "below_min_qty"))
  /\ fst (RiskManager.review_orderplan Scenario.rm_zero_risk
            Scenario.plan_negative_entry Scenario.before_midnight true)
     = Ok (ReviewResult.mk false (Some "below_min_qty") None).
Proof.
  repeat split; try reflexivity. discriminate.
Qed.

(** With a zero risk budget and no market minimum the sizer returns a zero
    quantity without a reason, whatever the loss count and the leverage
    override, as long as the entry price is positive. *)
Lemma calculate_qty_zero_risk (self : SizeCalculator.t) (plan : OrderPlan.t)
    (ve : Q) (c : Z) (leverage : option Q) (spec : StopLossSpec.t) (sl : Q) :
  (SizeCalculator.risk_per_trade_pct self == 0)%Q ->
  (MarketConstraints.min_qty (SizeCalculator.market_constraints self) == 0)%Q ->
  (MarketConstraints.min_notional (SizeCalculator.market_constraints self)
   == 0)%Q ->
  (0 < ve)%Q ->
  (0 < SizerSpec.effective_leverage self leverage)%Q ->
  OrderPlan.stop_loss plan = Some spec ->
  StopLossSpec.resolved_stop_price spec (OrderPlan.entry_price plan)
    (OrderPlan.side plan) = Ok sl ->
  ~ (OrderPlan.entry_price plan - sl == 0)%Q ->
  (0 < OrderPlan.entry_price plan)%Q ->
  exists q : Q,
    (q == 0)%Q
    /\ SizeCalculator.calculate_qty self plan ve c leverage
       = Ok (SizeResult.mk q None).
Proof.
  intros Hpct Hmq Hmn Hve Hlev Hspec Hsl HR Hentry.
  assert (Hentry' : ~ (OrderPlan.entry_price plan == 0)%Q).
  { intros H. rewrite H in Hentry. exact (Qlt_irrefl _ Hentry). }
  rewrite (calculate_qty_reaches_decay self plan ve c leverage spec sl)
    by assumption.
  cbv zeta.
  set (R := Qabs (OrderPlan.entry_price plan - sl)).
  set (raw := (ve * SizeCalculator.risk_per_trade_pct self / R)%Q).
  set (cap := (ve * SizerSpec.effective_leverage self leverage
               / OrderPlan.entry_price plan)%Q).
  assert (Hraw : (raw == 0)%Q).
  { unfold raw. rewrite Hpct. unfold Qdiv.
    rewrite Qmult_0_r. apply Qmult_0_l. }
  assert (Hcap : (0 < cap)%Q).
  { unfold cap. apply Qlt_shift_div_l; [exact Hentry|].
    rewrite Qmult_0_l. rewrite <- (Qmult_0_l (SizerSpec.effective_leverage self leverage)).
    apply Qmult_lt_compat_r; assumption. }
  assert (Hmin : py_min raw cap = raw).
  { unfold py_min.
    assert (H : Qltb cap raw = false).
    { apply Qltb_ge. rewrite Hraw. now apply Qlt_le_weak. }
    now rewrite H. }
  rewrite Hmin.
  assert (Hqty : (raw * SizeCalculator.decay_of c == 0)%Q).
  { rewrite Hraw. apply Qmult_0_l. }
  assert (H1 : Qltb (raw * SizeCalculator.decay_of c)
                 (MarketConstraints.min_qty
                    (SizeCalculator.market_constraints self)) = false).
  { apply Qltb_ge. rewrite Hqty, Hmq. apply Qle_refl. }
  assert (H2 : Qltb (raw * SizeCalculator.decay_of c
                     * OrderPlan.entry_price plan)
                 (MarketConstraints.min_notional
                    (SizeCalculator.market_constraints self)) = false).
  { apply Qltb_ge. rewrite Hqty, Hmn, Qmult_0_l. apply Qle_refl. }
  rewrite H1, H2.
  eexists. split; [|reflexivity].
  destruct (OrderPlan.side plan); [exact Hqty|].
  rewrite Hqty. reflexivity.
Qed.

(** C10 (amended): with risk_per_trade_pct = 0 and min_qty = min_notional
    = 0, for any plan with positive entry price, positive equity, positive
    leverage and a non-zero stop distance, calculate_qty returns a zero
    quantity with reason None, and a review that none of the checks 1 to 8
    rejects returns approved = false with reason None. *)
Theorem zero_risk_rejected_without_reason (self : RiskManager.t)
    (plan : OrderPlan.t) (now : datetime) (reserve : bool) (st : VaState.t)
    (spec : StopLossSpec.t) (sl : Q) :
  RiskManager._va self !! OrderPlan.va_id plan = Some st ->
  (RiskConfig.risk_per_trade_pct (RiskManager.config self) == 0)%Q ->
  (MarketConstraints.min_qty
     (RiskConfig.market_constraints (RiskManager.config self)) == 0)%Q ->
  (MarketConstraints.min_notional
     (RiskConfig.market_constraints (RiskManager.config self)) == 0)%Q ->
  (0 < VaState.virtual_equity st)%Q ->
  (0 < SizerSpec.effective_leverage (RiskManager._sizer self) None)%Q ->
  OrderPlan.stop_loss plan = Some spec ->
  StopLossSpec.resolved_stop_price spec (OrderPlan.entry_price plan)
    (OrderPlan.side plan) = Ok sl ->
  ~ (OrderPlan.entry_price plan - sl == 0)%Q ->
  (0 < OrderPlan.entry_price plan)%Q ->
  let st' := RiskManager._roll_day self st now in
  let self' := ReviewSpec.rolled self (OrderPlan.va_id plan) st now in
  (exists q : Q,
     (q == 0)%Q
     /\ SizeCalculator.calculate_qty (RiskManager._sizer self) plan
          (VaState.virtual_equity st) (VaState.consecutive_losses st') None
        = Ok (SizeResult.mk q None))
  /\ (ReviewSpec.first_failing
        (firstn 8 (ReviewSpec.risk_checks self' st' plan now))
      = ReviewSpec.Pass ->
      RiskManager.review_orderplan self plan now reserve
      = (Ok (ReviewResult.mk false None None), self')).
Proof.
  intros Hva Hpct Hmq Hmn Hve Hlev Hspec Hsl HR Hentry st' self'.
  destruct (calculate_qty_zero_risk (RiskManager._sizer self) plan
              (VaState.virtual_equity st) (VaState.consecutive_losses st')
              None spec sl Hpct Hmq Hmn Hve Hlev Hspec Hsl HR Hentry)
    as [q [Hq Hcalc]].
  split; [now exists q|].
  intros Hpass.
  assert (Hve' : VaState.virtual_equity st' = VaState.virtual_equity st).
  { unfold st', RiskManager._roll_day.
    destruct (VaState.day_id st) as [d|]; [|reflexivity].
    now destruct (negb _). }
  rewrite (review_orderplan_answer self plan now reserve st Hva).
  fold st' self'. unfold ReviewSpec.after, ReviewSpec.answer.
  assert (Hfirst : ReviewSpec.first_failing
                     (ReviewSpec.risk_checks self' st' plan now)
                   = ReviewSpec.Fail None).
  { rewrite <- (firstn_skipn 8 (ReviewSpec.risk_checks self' st' plan now)).
    rewrite (first_failing_app _ _ Hpass).
    unfold ReviewSpec.risk_checks. cbn [skipn ReviewSpec.first_failing].
    unfold ReviewSpec.check_sizer, ReviewSpec.sized.
    change (RiskManager._sizer self') with (RiskManager._sizer self).
    rewrite Hve', Hcalc. cbn [SizeResult.qty SizeResult.reason].
    apply Qeqb_eq in Hq. rewrite Hq. reflexivity. }
  rewrite Hfirst. reflexivity.
Qed.

Lemma zero_risk_rejected_without_reason_witness :
  RiskManager.review_orderplan Scenario.rm_zero_risk Scenario.plan_va1
    Scenario.before_midnight true
  = (Ok (ReviewResult.mk false None None),
     ReviewSpec.rolled Scenario.rm_zero_risk "va1"
       (VaState.mk 1000 1000 0 0 None 0 false) Scenario.before_midnight).
Proof.
  apply (zero_risk_rejected_without_reason Scenario.rm_zero_risk
           Scenario.plan_va1 Scenario.before_midnight true
           (VaState.mk 1000 1000 0 0 None 0 false) Scenario.stop_at_99 99);
    first [reflexivity | discriminate].
Defined.

(** ** The strategy evaluator *)

Lemma evaluate_eligible_only (self : VolatilityBreakoutStrategy.t)
    (va_id symbol : string) (as_of : datetime) (c1 c2 : list Candle.t) :
  List.filter (VolatilityBreakoutStrategy.eligible symbol as_of) c1
  = List.filter (VolatilityBreakoutStrategy.eligible symbol as_of) c2 ->
  VolatilityBreakoutStrategy.evaluate self va_id symbol as_of c1
  = VolatilityBreakoutStrategy.evaluate self va_id symbol as_of c2.
Proof.
  intros H. unfold VolatilityBreakoutStrategy.evaluate. now rewrite H.
Qed.

Lemma filter_filter_same {A : Type} (f : A -> bool) (l : list A) :
  List.filter f (List.filter f l) = List.filter f l.
Proof.
  induction l as [|x l IH]; simpl; [reflexivity|].
  destruct (f x) eqn:Hx; simpl; [rewrite Hx, IH|]; auto.
Qed.

Lemma evaluate_too_few (self : VolatilityBreakoutStrategy.t)
    (va_id symbol : string) (as_of : datetime) (candles : list Candle.t) :
  Z.of_nat
    (length (List.filter (VolatilityBreakoutStrategy.eligible symbol as_of)
               candles))
  < StrategyConfig.lookback_candles (VolatilityBreakoutStrategy.config self) + 1 ->
  VolatilityBreakoutStrategy.evaluate self va_id symbol as_of candles = Ok None.
Proof.
  intros H. unfold VolatilityBreakoutStrategy.evaluate.
  apply Z.ltb_lt in H. now rewrite H.
Qed.

(** Settle the [close_time <= as_of] tests of the scenario bars. *)
Ltac settle_close_times :=
  unfold VolatilityBreakoutStrategy.eligible, Scenario.candles_scenario_1,
    Scenario.candles_test, Scenario.future_candle, Scenario._candle;
  cbn [List.filter app Candle.symbol Candle.close_time];
  repeat match goal with
    | |- context [(?a <=? ?b)] =>
        first
          [ rewrite (proj2 (Z.leb_le a b))
              by (unfold Scenario.minutes, Scenario.seconds; lia)
          | rewrite (proj2 (Z.leb_gt a b))
              by (unfold Scenario.minutes, Scenario.seconds; lia) ]
    end;
  cbn [String.eqb Ascii.eqb Bool.eqb andb].

Lemma eligible_before_future_close (t0 : datetime) (o h l : Q) :
  List.filter
    (VolatilityBreakoutStrategy.eligible "BTCUSDT"
       (t0 + Scenario.minutes 24 + Scenario.seconds 59))
    (Scenario.candles_scenario_1 t0 ++ [Scenario.future_candle t0 o h l])%list
  = Scenario.candles_scenario_1 t0.
Proof. settle_close_times. reflexivity. Qed.

Lemma eligible_scenario_1 (t0 : datetime) :
  List.filter
    (VolatilityBreakoutStrategy.eligible "BTCUSDT" (t0 + Scenario.minutes 20))
    (Scenario.candles_scenario_1 t0)
  = Scenario.candles_scenario_1 t0.
Proof. settle_close_times. reflexivity. Qed.

Lemma eligible_test_before_future_close (t0 : datetime) (o h l : Q) :
  List.filter
    (VolatilityBreakoutStrategy.eligible "BTCUSDT"
       (t0 + Scenario.minutes 24 + Scenario.seconds 59))
    (Scenario.candles_test t0 ++ [Scenario.future_candle t0 o h l])%list
  = Scenario.candles_test t0.
Proof. settle_close_times. reflexivity. Qed.

Lemma eligible_at_future_close (t0 : datetime) (o h l : Q) :
  List.filter
    (VolatilityBreakoutStrategy.eligible "BTCUSDT" (t0 + Scenario.minutes 25))
    (Scenario.candles_scenario_1 t0 ++ [Scenario.future_candle t0 o h l])%list
  = (Scenario.candles_scenario_1 t0 ++ [Scenario.future_candle t0 o h l])%list.
Proof. settle_close_times. reflexivity. Qed.

(** Scenario 1: the breakout BUY on the 105 close. *)
Lemma evaluate_scenario_1 (t0 : datetime) :
  VolatilityBreakoutStrategy.evaluate Scenario.strategy "va1" "BTCUSDT"
    (t0 + Scenario.minutes 20) (Scenario.candles_scenario_1 t0)
  = Ok (Some (OrderPlan.mk "va1" "BTCUSDT" BUY MARKET 105
                "vol_breakout_5m_closed"
                (Some (StopLossSpec.mk "fixed" (Some (307 # 3)%Q) None))
                (Some (TakeProfitSpec.mk (3286 # 30))))).
Proof.
  unfold VolatilityBreakoutStrategy.evaluate.
  rewrite eligible_scenario_1. vm_compute. reflexivity.
Qed.

Lemma evaluate_before_future_close (t0 : datetime) (o h l : Q) :
  VolatilityBreakoutStrategy.evaluate Scenario.strategy "va1" "BTCUSDT"
    (t0 + Scenario.minutes 24 + Scenario.seconds 59)
    (Scenario.candles_scenario_1 t0 ++ [Scenario.future_candle t0 o h l])%list
  = VolatilityBreakoutStrategy.evaluate Scenario.strategy "va1" "BTCUSDT"
      (t0 + Scenario.minutes 20) (Scenario.candles_scenario_1 t0).
Proof.
  unfold VolatilityBreakoutStrategy.evaluate.
  rewrite eligible_before_future_close, eligible_scenario_1. reflexivity.
Qed.

Lemma evaluate_test_before_future_close (t0 : datetime) (o h l : Q) :
  VolatilityBreakoutStrategy.evaluate Scenario.strategy "va1" "BTCUSDT"
    (t0 + Scenario.minutes 24 + Scenario.seconds 59)
    (Scenario.candles_test t0 ++ [Scenario.future_candle t0 o h l])%list
  = Ok None.
Proof.
  unfold VolatilityBreakoutStrategy.evaluate.
  rewrite eligible_test_before_future_close. vm_compute. reflexivity.
Qed.

Lemma evaluate_at_future_close (t0 : datetime) (o h l : Q) :
  VolatilityBreakoutStrategy.evaluate Scenario.strategy "va1" "BTCUSDT"
    (t0 + Scenario.minutes 25)
    (Scenario.candles_scenario_1 t0 ++ [Scenario.future_candle t0 o h l])%list
  = Ok (Some (OrderPlan.mk "va1" "BTCUSDT" BUY MARKET
                (Candle.close (Scenario.future_candle t0 o h l))
                "vol_breakout_5m_closed"
                (Some (StopLossSpec.mk "fixed" (Some (318 # 3)%Q) None))
                (Some (TakeProfitSpec.mk (3423 # 30))))).
Proof.
  unfold VolatilityBreakoutStrategy.evaluate.
  rewrite eligible_at_future_close. vm_compute. reflexivity.
Qed.

(** C3, as stated, fails: with the bars of scenario 1 (the fourth closes at
    105, above the previous high 103) and the future bar still open at
    t0 + 24m59s, evaluate does not return None; it emits the plan of
    scenario 1. *)
Lemma evaluate_scenario_1_bars_signal_before_future_close :
  VolatilityBreakoutStrategy.evaluate Scenario.strategy "va1" "BTCUSDT"
    (Scenario.jan_1_2025 + Scenario.minutes 24 + Scenario.seconds 59)
    (Scenario.candles_scenario_1 Scenario.jan_1_2025
     ++ [Scenario.future_candle Scenario.jan_1_2025 103 110 102])%list
  <> Ok None.
Proof. rewrite evaluate_before_future_close, evaluate_scenario_1. discriminate. Qed.

(** C3 (amended): evaluate uses only the bars of the requested symbol with
    close_time <= as_of and returns no signal when fewer than N+1 of them
    exist.  With the bars of scenario 1 plus a future bar closing at
    t0 + 25m on 109: at as_of = t0 + 24m59s the future bar is not used and
    evaluate returns what it returns for scenario 1 (the BUY plan on the 105
    close; it returns None when the fourth bar closes at 103, as in the
    repository's test), and at as_of = t0 + 25m it emits a BUY plan whose
    trigger is the newer bar (entry 109, stop 106, take-profit 114.1). *)
Theorem evaluate_no_lookahead (self : VolatilityBreakoutStrategy.t)
    (va_id symbol : string) (as_of : datetime) (candles : list Candle.t)
    (t0 : datetime) (o h l : Q) :
  let closed :=
    List.filter
      (fun c => String.eqb (Candle.symbol c) symbol
                && (Candle.close_time c <=? as_of)) candles in
  let with_future :=
    (Scenario.candles_scenario_1 t0 ++ [Scenario.future_candle t0 o h l])%list
  in
  VolatilityBreakoutStrategy.evaluate self va_id symbol as_of candles
  = VolatilityBreakoutStrategy.evaluate self va_id symbol as_of closed
  /\ (Z.of_nat (length closed)
      < StrategyConfig.lookback_candles
          (VolatilityBreakoutStrategy.config self) + 1 ->
      VolatilityBreakoutStrategy.evaluate self va_id symbol as_of candles
      = Ok None)
  /\ VolatilityBreakoutStrategy.evaluate Scenario.strategy "va1" "BTCUSDT"
       (t0 + Scenario.minutes 24 + Scenario.seconds 59) with_future
     = VolatilityBreakoutStrategy.evaluate Scenario.strategy "va1" "BTCUSDT"
         (t0 + Scenario.minutes 20) (Scenario.candles_scenario_1 t0)
  /\ (exists sl tp : Q,
        VolatilityBreakoutStrategy.evaluate Scenario.strategy "va1" "BTCUSDT"
          (t0 + Scenario.minutes 24 + Scenario.seconds 59) with_future
        = Ok (Some (OrderPlan.mk "va1" "BTCUSDT" BUY MARKET 105
                      "vol_breakout_5m_closed"
                      (Some (StopLossSpec.mk "fixed" (Some sl) None))
                      (Some (TakeProfitSpec.mk tp))))
        /\ (sl == 105 - 8 / 3)%Q /\ (tp == 105 + (17 # 10) * (8 / 3))%Q)
  /\ VolatilityBreakoutStrategy.evaluate Scenario.strategy "va1" "BTCUSDT"
       (t0 + Scenario.minutes 24 + Scenario.seconds 59)
       (Scenario.candles_test t0 ++ [Scenario.future_candle t0 o h l])%list
     = Ok None
  /\ (exists sl tp : Q,
        VolatilityBreakoutStrategy.evaluate Scenario.strategy "va1" "BTCUSDT"
          (t0 + Scenario.minutes 25) with_future
        = Ok (Some (OrderPlan.mk "va1" "BTCUSDT" BUY MARKET
                      (Candle.close (Scenario.future_candle t0 o h l))
                      "vol_breakout_5m_closed"
                      (Some (StopLossSpec.mk "fixed" (Some sl) None))
                      (Some (TakeProfitSpec.mk tp))))
        /\ Candle.close (Scenario.future_candle t0 o h l) = 109%Q
        /\ (sl == 106)%Q /\ (tp == 1141 # 10)%Q).
Proof.
  intros closed with_future.
  split.
  { apply evaluate_eligible_only. symmetry. apply filter_filter_same. }
  split; [apply evaluate_too_few|].
  split; [apply evaluate_before_future_close|].
  split.
  { exists (307 # 3)%Q, (3286 # 30)%Q.
    unfold with_future.
    rewrite evaluate_before_future_close, evaluate_scenario_1.
    repeat split; reflexivity. }
  split; [apply evaluate_test_before_future_close|].
  exists (318 # 3)%Q, (3423 # 30)%Q.
  unfold with_future. rewrite evaluate_at_future_close.
  repeat split; reflexivity.
Qed.

Lemma evaluate_no_lookahead_witness :
  Z.of_nat
    (length
       (List.filter
          (fun c => String.eqb (Candle.symbol c) "BTCUSDT"
                    && (Candle.close_time c <=? Scenario.jan_1_2025
                                                + Scenario.minutes 15))
          (Scenario.candles_scenario_1 Scenario.jan_1_2025)))
  < 3 + 1
  /\ VolatilityBreakoutStrategy.evaluate Scenario.strategy "va1" "BTCUSDT"
       (Scenario.jan_1_2025 + Scenario.minutes 15)
       (Scenario.candles_scenario_1 Scenario.jan_1_2025)
     = Ok None.
Proof.
  split; [reflexivity|].
  destruct (evaluate_no_lookahead Scenario.strategy "va1" "BTCUSDT"
              (Scenario.jan_1_2025 + Scenario.minutes 15)
              (Scenario.candles_scenario_1 Scenario.jan_1_2025)
              Scenario.jan_1_2025 0 0 0) as [_ [Hfew _]].
  apply Hfew. reflexivity.
Defined.

(** ** What the public calls change *)

Lemma roll_day_same_risk (self : RiskManager.t) (st : VaState.t)
    (now : datetime) :
  same_risk st (RiskManager._roll_day self st now).
Proof.
  unfold same_risk, RiskManager._roll_day.
  destruct (VaState.day_id st) as [d|]; [|now repeat split].
  destruct (negb _); now repeat split.
Qed.

(** A review changes neither configuration nor positions, and over the VA
    states only day, daily counters and daily trades. *)
Lemma review_orderplan_effect (s : RiskManager.t) (plan : OrderPlan.t)
    (now : datetime) (reserve : bool) :
  let s' := snd (RiskManager.review_orderplan s plan now reserve) in
  RiskManager.config s' = RiskManager.config s
  /\ RiskManager._positions s' = RiskManager._positions s
  /\ forall (va_id : string) (st2 : VaState.t),
       RiskManager._va s' !! va_id = Some st2 ->
       exists st1 : VaState.t,
         RiskManager._va s !! va_id = Some st1 /\ same_risk st1 st2.
Proof.
  cbv zeta.
  destruct (RiskManager._va s !! OrderPlan.va_id plan) as [st|] eqn:Hva.
  2:{ unfold RiskManager.review_orderplan, RiskManager._require_va.
      rewrite Hva. cbn [snd]. repeat split; try reflexivity.
      intros va_id st2 H. exists st2. now repeat split. }
  rewrite (review_orderplan_answer s plan now reserve st Hva). cbn [snd].
  pose proof (roll_day_same_risk s st now) as (Hve & Hpeak & Hkill).
  assert (Hrolled : forall va_id st2,
             RiskManager._va (ReviewSpec.rolled s (OrderPlan.va_id plan) st now)
             !! va_id = Some st2 ->
             exists st1, RiskManager._va s !! va_id = Some st1
                         /\ same_risk st1 st2).
  { intros va_id st2. unfold ReviewSpec.rolled. cbn [RiskManager._va RiskManager.set_va].
    rewrite lookup_insert_Some. intros [[<- <-]|[Hne H]].
    - exists st. split; [exact Hva | now repeat split].
    - exists st2. split; [exact H | now repeat split]. }
  unfold ReviewSpec.after.
  destruct (ReviewSpec.answer _ _ plan now) as [r|]; [|now repeat split].
  destruct (ReviewResult.approved r && reserve); [|now repeat split].
  unfold ReviewSpec.reserved.
  destruct (RiskManager._symbol_owner _ !! OrderPlan.symbol plan);
    (split; [reflexivity|]; split; [reflexivity|]);
    intros va_id st2;
    cbn [RiskManager._va RiskManager.set_va RiskManager.set_symbol_owner];
    rewrite lookup_insert_Some; intros [[<- <-]|[Hne H]];
    try (exists st; split; [exact Hva | now repeat split]);
    apply Hrolled; unfold ReviewSpec.rolled;
    cbn [RiskManager._va RiskManager.set_va]; exact H.
Qed.

Lemma step_config (s : RiskManager.t) (o : op) :
  RiskManager.config (step s o) = RiskManager.config s.
Proof.
  destruct o as [va e|va sym now cd|va sym pnl now|va sym q ap|plan now r];
    cbn [step].
  - reflexivity.
  - reflexivity.
  - unfold RiskManager.record_trade_pnl.
    now destruct (RiskManager._require_va s va).
  - unfold RiskManager.record_position.
    destruct (Qeqb q 0); [|reflexivity].
    now destruct (_ && _).
  - apply review_orderplan_effect.
Qed.

Lemma run_config (ops : list op) (s : RiskManager.t) :
  RiskManager.config (run s ops) = RiskManager.config s.
Proof.
  revert s. induction ops as [|o ops IH]; intros s; [reflexivity|].
  cbn [run fold_left]. fold (run (step s o) ops).
  now rewrite IH, step_config.
Qed.

(** ** The kill switch *)

Lemma kill_condition_same_risk (cfg : RiskConfig.t) (a b : VaState.t) :
  same_risk a b -> kill_condition cfg b -> kill_condition cfg a.
Proof.
  intros (Hve & Hpeak & _). unfold kill_condition.
  now rewrite Hve, Hpeak.
Qed.

Lemma record_trade_pnl_kills (s : RiskManager.t) (va_id symbol : string)
    (pnl : Q) (now : datetime) (st : VaState.t) :
  RiskManager._va (snd (RiskManager.record_trade_pnl s va_id symbol pnl now))
  !! va_id = Some st ->
  is_Some (RiskManager._va s !! va_id) ->
  kill_condition (RiskManager.config s) st ->
  VaState.kill_switch st = true.
Proof.
  unfold RiskManager.record_trade_pnl, RiskManager._require_va.
  intros Hst [st0 Hst0]. rewrite Hst0 in Hst.
  cbn [snd RiskManager._va RiskManager.set_va] in Hst.
  rewrite lookup_insert_eq in Hst. injection Hst as <-.
  unfold kill_condition. cbn [VaState.virtual_equity
    VaState.peak_virtual_equity VaState.kill_switch].
  intros [Hle|[Hpeak Hdd]].
  - apply Qleb_le in Hle. now rewrite Hle.
  - apply Qltb_lt in Hpeak. apply Qleb_le in Hdd. rewrite Hpeak, Hdd.
    now destruct (Qleb _ 0).
Qed.

(** Every call but a registration keeps the kill-switch invariant. *)
Lemma step_kill_switch_invariant (s : RiskManager.t) (o : op) :
  (0 < RiskConfig.max_drawdown_pct (RiskManager.config s))%Q ->
  registers_positive o ->
  kill_switch_invariant s ->
  kill_switch_invariant (step s o).
Proof.
  intros Hmdd Ho Hinv va st.
  rewrite step_config.
  destruct o as [va0 e|va0 sym now cd|va0 sym pnl now|va0 sym q ap|plan now r];
    cbn [step].
  - cbn [registers_positive] in Ho.
    unfold RiskManager.register_va. cbn [RiskManager._va RiskManager.set_va].
    rewrite lookup_insert_Some. intros [[<- <-]|[_ H]]; [|exact (Hinv _ _ H)].
    unfold kill_condition. cbn [VaState.virtual_equity
      VaState.peak_virtual_equity VaState.kill_switch].
    intros [Hle|[_ Hdd]]; exfalso.
    + exact (Qlt_not_le _ _ Ho Hle).
    + assert (He : (1 - e / e == 0)%Q).
      { field. intros H0. rewrite H0 in Ho. exact (Qlt_irrefl _ Ho). }
      rewrite He in Hdd. exact (Qlt_not_le _ _ Hmdd Hdd).
  - exact (Hinv va st).
  - destruct (decide (va = va0)) as [->|Hne].
    + destruct (RiskManager._va s !! va0) as [st0|] eqn:Hst0.
      * intros H. eapply record_trade_pnl_kills; [exact H|].
        rewrite Hst0. eauto.
      * unfold RiskManager.record_trade_pnl, RiskManager._require_va.
        rewrite Hst0. cbn [snd]. exact (Hinv va0 st).
    + unfold RiskManager.record_trade_pnl.
      destruct (RiskManager._require_va s va0); cbn [snd];
        [|exact (Hinv va st)].
      cbn [RiskManager._va RiskManager.set_va].
      rewrite lookup_insert_ne by congruence. exact (Hinv va st).
  - assert (Hva : RiskManager._va (RiskManager.record_position s va0 sym q ap)
                  = RiskManager._va s).
    { unfold RiskManager.record_position.
      destruct (Qeqb q 0); [|reflexivity]. now destruct (_ && _). }
    rewrite Hva. exact (Hinv va st).
  - destruct (review_orderplan_effect s plan now r) as (_ & _ & Hva).
    intros H Hkill. destruct (Hva va st H) as (st1 & H1 & Hsame).
    destruct Hsame as (Hve & Hpeak & Hks). rewrite <- Hks.
    apply (Hinv va st1 H1).
    eapply kill_condition_same_risk; [|exact Hkill]. now repeat split.
Qed.

(** C4, as stated, fails: a VA registered with virtual_equity = 0 is
    tracked with virtual_equity <= 0 and kill_switch = false. *)
Lemma kill_switch_not_set_at_registration :
  ~ kill_switch_invariant Scenario.rm_zero_equity.
Proof.
  intros H.
  specialize (H "va1" (VaState.mk 0 0 0 0 None 0 false) eq_refl).
  assert (Hk : kill_condition (RiskManager.config Scenario.rm_zero_equity)
                 (VaState.mk 0 0 0 0 None 0 false)).
  { left. apply Qle_refl. }
  specialize (H Hk). discriminate.
Qed.

(** C4 (amended): under a configuration with max_drawdown_pct > 0, after
    any sequence of register_va, apply_governor_breach, record_trade_pnl,
    record_position and review_orderplan calls in which every register_va
    has virtual_equity > 0, every tracked VA with virtual_equity <= 0, or
    with peak_virtual_equity > 0 and drawdown >= max_drawdown_pct, has
    kill_switch = true. *)
Theorem kill_switch_invariant_holds (config : RiskConfig.t) (real_equity : Q)
    (ops : list op) :
  (0 < RiskConfig.max_drawdown_pct config)%Q ->
  Forall registers_positive ops ->
  kill_switch_invariant (run (RiskManager.__init__ config real_equity) ops).
Proof.
  intros Hmdd Hops.
  assert (Hgen : forall s,
             RiskManager.config s = config ->
             kill_switch_invariant s -> kill_switch_invariant (run s ops)).
  { induction Hops as [|o ops Ho Hops IH]; intros s Hcfg Hinv; [exact Hinv|].
    cbn [run fold_left]. fold (run (step s o) ops).
    apply IH.
    - now rewrite step_config.
    - apply step_kill_switch_invariant; [now rewrite Hcfg | exact Ho | exact Hinv]. }
  apply Hgen; [reflexivity|].
  intros va st H. cbn in H. rewrite lookup_empty in H. discriminate.
Qed.

Lemma kill_switch_invariant_holds_witness :
  (0 < RiskConfig.max_drawdown_pct Scenario.default_config)%Q
  /\ Forall registers_positive
       [op_register_va "va1" 100;
        op_record_trade_pnl "va1" "BTCUSDT" (-40) Scenario.before_midnight]
  /\ kill_switch_invariant
       (run (RiskManager.__init__ Scenario.default_config 10000)
          [op_register_va "va1" 100;
           op_record_trade_pnl "va1" "BTCUSDT" (-40) Scenario.before_midnight]).
Proof.
  split; [reflexivity|].
  split; [repeat constructor|].
  apply kill_switch_invariant_holds; [reflexivity | repeat constructor].
Defined.

(** ** Positions and symbol ownership *)

Lemma step_positions_wf (s : RiskManager.t) (o : op) :
  positions_wf s -> positions_wf (step s o).
Proof.
  intros Hwf.
  destruct o as [va0 e|va0 sym now cd|va0 sym pnl now|va0 sym q ap|plan now r];
    cbn [step].
  - exact Hwf.
  - exact Hwf.
  - unfold RiskManager.record_trade_pnl.
    destruct (RiskManager._require_va s va0); exact Hwf.
  - unfold RiskManager.record_position.
    destruct (Qeqb q 0) eqn:Hq.
    + assert (Hdel : positions_wf
                       (RiskManager.set_positions s
                          (delete (va0, sym) (RiskManager._positions s)))).
      { intros va sy p. cbn [RiskManager._positions RiskManager.set_positions].
        rewrite lookup_delete_Some. intros [_ H]. exact (Hwf va sy p H). }
      destruct (_ && _); exact Hdel.
    + intros va sy p.
      cbn [RiskManager._positions RiskManager.set_positions
           RiskManager.set_symbol_owner].
      rewrite lookup_insert_Some. intros [[Hk <-]|[_ H]].
      * injection Hk as <- <-. cbn. repeat split. now apply Qeqb_neq.
      * exact (Hwf va sy p H).
  - destruct (review_orderplan_effect s plan now r) as (_ & Hpos & _).
    unfold positions_wf. rewrite Hpos. exact Hwf.
Qed.

Lemma run_positions_wf (ops : list op) (s : RiskManager.t) :
  positions_wf s -> positions_wf (run s ops).
Proof.
  revert s. induction ops as [|o ops IH]; intros s Hwf; [exact Hwf|].
  cbn [run fold_left]. fold (run (step s o) ops).
  apply IH. now apply step_positions_wf.
Qed.

Lemma init_positions_wf (config : RiskConfig.t) (real_equity : Q) :
  positions_wf (RiskManager.__init__ config real_equity).
Proof. intros va sy p H. cbn in H. rewrite lookup_empty in H. discriminate. Qed.

(** Over well-formed positions, [_any_position_for_symbol] says whether
    some VA holds a position on the symbol. *)
Lemma any_position_for_symbol_iff (s : RiskManager.t) (symbol : string) :
  positions_wf s ->
  RiskManager._any_position_for_symbol s symbol = true
  <-> exists (va_id : string) (p : Position.t),
        RiskManager._positions s !! (va_id, symbol) = Some p.
Proof.
  intros Hwf. unfold RiskManager._any_position_for_symbol,
    RiskManager.positions_values.
  rewrite existsb_exists. split.
  - intros (p & Hin & Hp).
    apply list_elem_of_In, list_elem_of_fmap in Hin
      as ([[va sy] p'] & -> & Hin).
    apply elem_of_map_to_list in Hin. cbn [snd] in Hp.
    apply andb_true_iff in Hp as [Hsym _]. apply String.eqb_eq in Hsym.
    destruct (Hwf va sy p' Hin) as (_ & Hsy & _).
    exists va, p'. now rewrite <- Hsym, Hsy.
  - intros (va & p & Hin).
    destruct (Hwf va symbol p Hin) as (_ & Hsy & Hq).
    exists p. split.
    + apply list_elem_of_In, list_elem_of_fmap.
      exists ((va, symbol), p). split; [reflexivity|].
      now apply elem_of_map_to_list.
    + apply andb_true_iff. split.
      * now apply String.eqb_eq.
      * apply negb_true_iff. now apply Qeqb_neq.
Qed.

(** C7: in any state reached through the public calls, recording a
    non-zero position for (va, sym) and then recording quantity 0 for it
    removes the position, and releases the ownership of sym exactly when no
    other position on sym remains in the position map (otherwise sym stays
    owned by va). *)
Theorem record_position_round_trip (config : RiskConfig.t) (real_equity : Q)
    (ops : list op) (va_id symbol : string) (q ap ap' : Q) :
  ~ (q == 0)%Q ->
  let s := run (RiskManager.__init__ config real_equity) ops in
  let s1 := RiskManager.record_position s va_id symbol q ap in
  let s2 := RiskManager.record_position s1 va_id symbol 0 ap' in
  let other_remains :=
    exists (va' : string) (p : Position.t),
      RiskManager._positions s2 !! (va', symbol) = Some p in
  RiskManager._positions s1 !! (va_id, symbol)
  = Some (Position.mk va_id symbol q ap)
  /\ RiskManager._symbol_owner s1 !! symbol = Some va_id
  /\ RiskManager._positions s2 = delete (va_id, symbol) (RiskManager._positions s)
  /\ RiskManager._positions s2 !! (va_id, symbol) = None
  /\ (RiskManager._symbol_owner s2 !! symbol = None <-> ~ other_remains)
  /\ (RiskManager._symbol_owner s2 !! symbol = Some va_id <-> other_remains).
Proof.
  intros Hq s s1 s2 other_remains.
  assert (Hwf : positions_wf s).
  { apply run_positions_wf, init_positions_wf. }
  assert (Hwf1 : positions_wf s1).
  { exact (step_positions_wf s (op_record_position va_id symbol q ap) Hwf). }
  assert (Hs1 : s1 = RiskManager.set_symbol_owner
                       (RiskManager.set_positions s
                          (<[(va_id, symbol) := Position.mk va_id symbol q ap]>
                             (RiskManager._positions s)))
                       (<[symbol := va_id]> (RiskManager._symbol_owner s))).
  { unfold s1, RiskManager.record_position.
    apply Qeqb_neq in Hq. now rewrite Hq. }
  set (mid := RiskManager.set_positions s1
                (delete (va_id, symbol) (RiskManager._positions s1))).
  assert (Hmid_wf : positions_wf mid).
  { intros va sy p. unfold mid.
    cbn [RiskManager._positions RiskManager.set_positions].
    rewrite lookup_delete_Some. intros [_ H]. exact (Hwf1 va sy p H). }
  assert (Hown1 : RiskManager._symbol_owner s1 !! symbol = Some va_id).
  { rewrite Hs1. cbn. apply lookup_insert_eq. }
  assert (Hs2 : s2 = if RiskManager._any_position_for_symbol mid symbol
                     then mid
                     else RiskManager.set_symbol_owner mid
                            (delete symbol (RiskManager._symbol_owner mid))).
  { unfold s2, RiskManager.record_position.
    change (Qeqb 0 0) with true. cbv iota. fold mid.
    change (RiskManager._symbol_owner mid) with (RiskManager._symbol_owner s1).
    rewrite Hown1. rewrite bool_decide_eq_true_2 by reflexivity.
    now destruct (RiskManager._any_position_for_symbol mid symbol). }
  assert (Hpos2 : RiskManager._positions s2 = RiskManager._positions mid).
  { rewrite Hs2. now destruct (RiskManager._any_position_for_symbol mid symbol). }
  assert (Hany : RiskManager._any_position_for_symbol mid symbol = true
                 <-> other_remains).
  { unfold other_remains. rewrite Hpos2.
    now apply any_position_for_symbol_iff. }
  split; [rewrite Hs1; cbn; apply lookup_insert_eq|].
  split; [exact Hown1|].
  assert (Hdel : RiskManager._positions mid
                 = delete (va_id, symbol) (RiskManager._positions s)).
  { unfold mid. rewrite Hs1. cbn. now rewrite delete_insert_eq. }
  split; [now rewrite Hpos2|].
  split; [rewrite Hpos2, Hdel; apply lookup_delete_eq|].
  rewrite <- Hany, Hs2.
  destruct (RiskManager._any_position_for_symbol mid symbol).
  - change (RiskManager._symbol_owner mid) with (RiskManager._symbol_owner s1).
    rewrite Hown1. split; split; try discriminate; try tauto; auto.
  - cbn [RiskManager._symbol_owner RiskManager.set_symbol_owner].
    rewrite lookup_delete_eq. split; split; try discriminate; auto.
Qed.

Lemma record_position_round_trip_witness :
  ~ (1 == 0)%Q
  /\ (RiskManager._symbol_owner
        (RiskManager.record_position
           (RiskManager.record_position Scenario.rm_one_position
              "va1" "BTCUSDT" 1 100)
           "va1" "BTCUSDT" 0 0)
      !! "BTCUSDT" = Some "va1"
      <-> exists (va' : string) (p : Position.t),
            RiskManager._positions
              (RiskManager.record_position
                 (RiskManager.record_position Scenario.rm_one_position
                    "va1" "BTCUSDT" 1 100)
                 "va1" "BTCUSDT" 0 0)
            !! (va', "BTCUSDT") = Some p).
Proof.
  split; [discriminate|].
  apply (record_position_round_trip Scenario.default_config 10000
           [op_register_va "va1" 1000;
            op_register_va "va2" 1000;
            op_record_position "va2" "BTCUSDT" 1 100]
           "va1" "BTCUSDT" 1 100 0).
  discriminate.
Defined.

(** ** The position reconciler *)

(** An exchange position without a database row under the VA id
    ["unknown"] is skipped: no adapter call, no incident. *)
Lemma reconcile_position_without_unknown_row {X : Type}
    (self : reconciliation.PositionReconciler.t X)
    (w : reconciliation.world X)
    (xch_pos : reconciliation.ExchangePosition.t) :
  reconciliation.Database.get_position (reconciliation.db w) "unknown"
    (reconciliation.ExchangePosition.symbol xch_pos) = None ->
  reconciliation.PositionReconciler.reconcile_position self w xch_pos = w.
Proof.
  intros H. unfold reconciliation.PositionReconciler.reconcile_position.
  now rewrite H.
Qed.

(** With such a row, a missing stop-loss and no entry order among the open
    orders, the position is panic-closed with its own side and full
    quantity, and a [panic_close] incident names the closing order. *)
Lemma reconcile_position_panic_close {X : Type}
    (self : reconciliation.PositionReconciler.t X)
    (w : reconciliation.world X)
    (xch_pos : reconciliation.ExchangePosition.t)
    (row : reconciliation.PositionRecord.t)
    (orders : list reconciliation.ExchangeOrder.t) (x1 x2 : X)
    (close_order : reconciliation.ExchangeOrder.t) :
  let symbol := reconciliation.ExchangePosition.symbol xch_pos in
  let side := reconciliation.ExchangePosition.side xch_pos in
  let qty := reconciliation.ExchangePosition.qty xch_pos in
  reconciliation.Database.get_position (reconciliation.db w) "unknown" symbol
  = Some row ->
  reconciliation.ExchangePosition.stop_loss_price xch_pos = None ->
  reconciliation.BybitClient.get_open_orders
    (reconciliation.PositionReconciler.client self) (Some symbol)
    (reconciliation.exchange w) = (reconciliation.Returns orders, x1) ->
  List.filter reconciliation.PositionReconciler.is_entry_order orders = [] ->
  reconciliation.BybitClient.panic_close_position
    (reconciliation.PositionReconciler.client self) symbol side qty x1
  = (reconciliation.Returns close_order, x2) ->
  let w' := reconciliation.PositionReconciler.reconcile_position self w xch_pos
  in
  reconciliation.calls w'
  = (reconciliation.calls w
     ++ [reconciliation.call_get_open_orders (Some symbol);
         reconciliation.call_panic_close_position symbol side qty])%list
  /\ exists incident : reconciliation.IncidentRecord.t,
       reconciliation.Database.incidents (reconciliation.db w')
       = (reconciliation.Database.incidents (reconciliation.db w)
          ++ [incident])%list
       /\ reconciliation.IncidentRecord.incident_type incident = "panic_close"
       /\ reconciliation.IncidentRecord.order_id incident
          = Some (reconciliation.ExchangeOrder.order_id close_order).
Proof.
  intros symbol side qty Hrow Hsl Horders Hentry Hclose.
  unfold reconciliation.PositionReconciler.reconcile_position.
  fold symbol. rewrite Hrow, Hsl.
  unfold reconciliation.PositionReconciler._enforce_sl_attachment.
  fold symbol. rewrite Horders. rewrite Hentry.
  unfold reconciliation.PositionReconciler._panic_close.
  fold symbol side qty. cbn [reconciliation.exchange
    reconciliation.PositionReconciler.log]. rewrite Hclose.
  cbn. split.
  - now rewrite <- app_assoc.
  - eexists. split; [reflexivity|]. split; reflexivity.
Qed.

(** C2 (the code against the claim): in scenario 7 the exchange reports
    BTCUSDT Buy 1.0 without a stop-loss and has no open order.  When the
    database holds no position, or holds it for va1, the reconcile pass
    only fetches the positions: panic_close_position is not called and no
    incident is recorded.  Only when the database holds a row under the VA
    id "unknown" is the position panic-closed (side Buy, qty 1.0) and the
    panic_close incident written with the closing order's id. *)
Theorem reconcile_positions_scenario_7 :
  let run_with rows :=
    snd (reconciliation.PositionReconciler.reconcile_positions
           Scenario.reconciler (Scenario.world_with rows)) in
  (reconciliation.calls (run_with []) = [reconciliation.call_get_positions]
   /\ reconciliation.Database.incidents (reconciliation.db (run_with [])) = [])
  /\ (reconciliation.calls (run_with [Scenario.row_of "va1"])
      = [reconciliation.call_get_positions]
      /\ reconciliation.Database.incidents
           (reconciliation.db (run_with [Scenario.row_of "va1"])) = [])
  /\ (reconciliation.calls (run_with [Scenario.row_of "unknown"])
      = [reconciliation.call_get_positions;
         reconciliation.call_get_open_orders (Some "BTCUSDT");
         reconciliation.call_panic_close_position "BTCUSDT" "Buy" 1]
      /\ reconciliation.Database.incidents
           (reconciliation.db (run_with [Scenario.row_of "unknown"]))
         = [reconciliation.IncidentRecord.mk "uuid" "panic_close" None
              (Some "BTCUSDT") (Some "close_order123") "high"
              "Panic-closed position BTCUSDT Buy 1.0"
              (Some [("position_qty", reconciliation.JFloat 1);
                     ("position_side", reconciliation.JStr "Buy");
                     ("close_order_id",
                      reconciliation.JStr "close_order123")])]).
Proof. cbv zeta. repeat split; reflexivity. Qed.

(** Over a whole pass: when no reported position has a row under
    ["unknown"], the pass only fetches the positions; the database and so
    the incidents are untouched. *)
Lemma reconcile_positions_without_unknown_rows {X : Type}
    (self : reconciliation.PositionReconciler.t X)
    (w : reconciliation.world X)
    (positions : list reconciliation.ExchangePosition.t) (x : X) :
  reconciliation.BybitClient.get_positions
    (reconciliation.PositionReconciler.client self) (reconciliation.exchange w)
  = (reconciliation.Returns positions, x) ->
  Forall
    (fun p =>
       reconciliation.Database.get_position (reconciliation.db w) "unknown"
         (reconciliation.ExchangePosition.symbol p) = None) positions ->
  reconciliation.PositionReconciler.reconcile_positions self w
  = (reconciliation.Returns tt,
     reconciliation.mk_world x (reconciliation.db w)
       (reconciliation.calls w ++ [reconciliation.call_get_positions])%list
       (reconciliation.uuids_drawn w)).
Proof.
  intros Hget Hrows.
  assert (Hfold : forall w0 : reconciliation.world X,
             reconciliation.db w0 = reconciliation.db w ->
             fold_left (reconciliation.PositionReconciler.reconcile_position self)
               positions w0 = w0).
  { clear Hget.
    induction Hrows as [|p ps Hp Hps IH]; intros w0 Hdb; [reflexivity|].
    cbn [fold_left].
    rewrite reconcile_position_without_unknown_row by now rewrite Hdb.
    now apply IH. }
  unfold reconciliation.PositionReconciler.reconcile_positions.
  rewrite Hget. f_equal. now apply Hfold.
Qed.

(** * Further properties of the risk manager *)

(** ** What an approval implies *)

Lemma after_cases (self : RiskManager.t) (st : VaState.t) (plan : OrderPlan.t)
    (now : datetime) (reserve : bool) :
  ReviewSpec.after self st plan now reserve = self
  \/ (reserve = true
      /\ ReviewSpec.first_failing (ReviewSpec.risk_checks self st plan now)
         = ReviewSpec.Pass
      /\ ReviewSpec.after self st plan now reserve
         = ReviewSpec.reserved self plan st).
Proof.
  unfold ReviewSpec.after, ReviewSpec.answer.
  destruct (ReviewSpec.first_failing _) eqn:Hfirst; cbn; auto.
  destruct (ReviewSpec.sized self st plan); cbn; auto.
  destruct reserve; auto.
Qed.

Lemma answer_approved (self : RiskManager.t) (st : VaState.t)
    (plan : OrderPlan.t) (now : datetime) (r : ReviewResult.t) :
  ReviewSpec.answer self st plan now = Ok r ->
  ReviewResult.approved r = true ->
  ReviewSpec.first_failing (ReviewSpec.risk_checks self st plan now)
  = ReviewSpec.Pass
  /\ exists size : SizeResult.t,
       ReviewSpec.sized self st plan = Ok size
       /\ r = ReviewResult.mk true None (Some (SizeResult.qty size)).
Proof.
  unfold ReviewSpec.answer.
  destruct (ReviewSpec.first_failing _) eqn:Hfirst.
  - destruct (ReviewSpec.sized self st plan) as [size|]; cbn; [|discriminate].
    intros H _. injection H as <-. eauto.
  - intros H. injection H as <-. discriminate.
  - discriminate.
Qed.

(** All ten checks pass: what each of them then says. *)
Lemma checks_pass (self : RiskManager.t) (st : VaState.t) (plan : OrderPlan.t)
    (now : datetime) :
  ReviewSpec.first_failing (ReviewSpec.risk_checks self st plan now)
  = ReviewSpec.Pass ->
  ReviewSpec.check_kill_switch st = ReviewSpec.Pass
  /\ ReviewSpec.check_stop_loss_required plan = ReviewSpec.Pass
  /\ ReviewSpec.check_take_profit_required_for_fixed plan = ReviewSpec.Pass
  /\ ReviewSpec.check_cooldown_active self plan now = ReviewSpec.Pass
  /\ ReviewSpec.check_max_daily_loss self st = ReviewSpec.Pass
  /\ ReviewSpec.check_max_trades_per_day self st = ReviewSpec.Pass
  /\ ReviewSpec.check_symbol_owned_by_other_va self plan = ReviewSpec.Pass
  /\ ReviewSpec.check_opposing_exposure self plan = ReviewSpec.Pass
  /\ ReviewSpec.check_sizer self st plan = ReviewSpec.Pass
  /\ ReviewSpec.check_net_exposure_cap self st plan = ReviewSpec.Pass.
Proof.
  intros H. apply first_failing_pass in H. unfold ReviewSpec.risk_checks in H.
  repeat match goal with
         | H : Forall _ (_ :: _) |- _ =>
             let Hx := fresh "Hcheck" in
             apply Forall_cons in H as [Hx H]
         end.
  repeat split; assumption.
Qed.

Lemma fail_if_pass (b : bool) (reason : string) :
  ReviewSpec.fail_if b reason = ReviewSpec.Pass -> b = false.
Proof. now destruct b. Qed.

(** What an approved review went through, for a registered VA: the first
    failing check is none, and the answer carries the sizer's quantity. *)
Lemma review_approved (self : RiskManager.t) (plan : OrderPlan.t)
    (now : datetime) (reserve : bool) (st : VaState.t) (r : ReviewResult.t) :
  RiskManager._va self !! OrderPlan.va_id plan = Some st ->
  fst (RiskManager.review_orderplan self plan now reserve) = Ok r ->
  ReviewResult.approved r = true ->
  let st' := RiskManager._roll_day self st now in
  let self' := ReviewSpec.rolled self (OrderPlan.va_id plan) st now in
  ReviewSpec.first_failing (ReviewSpec.risk_checks self' st' plan now)
  = ReviewSpec.Pass
  /\ (exists size : SizeResult.t,
        ReviewSpec.sized self' st' plan = Ok size
        /\ r = ReviewResult.mk true None (Some (SizeResult.qty size)))
  /\ snd (RiskManager.review_orderplan self plan now reserve)
     = if reserve then ReviewSpec.reserved self' plan st' else self'.
Proof.
  intros Hva Hr Happ st' self'.
  rewrite (review_orderplan_answer self plan now reserve st Hva) in *.
  cbn [fst snd] in *. fold st' self' in Hr |- *.
  destruct (answer_approved _ _ _ _ _ Hr Happ) as [Hfirst (size & Hsize & ->)].
  split; [exact Hfirst|]. split; [eauto|].
  unfold ReviewSpec.after. rewrite Hr. cbn. now destruct reserve.
Qed.

(** X1: an approved order keeps the symbol within the exposure cap: the
    cap real_equity * max_symbol_exposure_pct_real_equity is positive, and
    the notional already held on the symbol plus |qty| * entry_price does
    not exceed it.  With a non-positive cap nothing is ever approved. *)
Theorem approved_within_exposure_cap (self : RiskManager.t)
    (plan : OrderPlan.t) (now : datetime) (reserve : bool) (st : VaState.t)
    (r : ReviewResult.t) :
  RiskManager._va self !! OrderPlan.va_id plan = Some st ->
  fst (RiskManager.review_orderplan self plan now reserve) = Ok r ->
  ReviewResult.approved r = true ->
  let pct :=
    RiskConfig.max_symbol_exposure_pct_real_equity (RiskManager.config self) in
  exists q : Q,
    ReviewResult.qty r = Some q
    /\ ~ (q == 0)%Q
    /\ (0 < pct)%Q
    /\ (0 < RiskManager.real_equity self * pct)%Q
    /\ (symbol_notional self (OrderPlan.symbol plan)
        + Qabs q * OrderPlan.entry_price plan
        <= RiskManager.real_equity self * pct)%Q.
Proof.
  intros Hva Hr Happ pct.
  destruct (review_approved self plan now reserve st r Hva Hr Happ)
    as (Hfirst & (size & Hsize & ->) & _).
  apply checks_pass in Hfirst.
  destruct Hfirst as (_ & _ & _ & _ & _ & _ & _ & _ & Hsizer & Hcap).
  unfold ReviewSpec.check_sizer in Hsizer.
  rewrite check_net_exposure_cap_code in Hcap.
  rewrite Hsize in Hsizer, Hcap.
  exists (SizeResult.qty size). split; [reflexivity|].
  split.
  { destruct (Qeqb (SizeResult.qty size) 0) eqn:Hq; [discriminate|].
    now apply Qeqb_neq. }
  apply fail_if_pass in Hcap.
  unfold RiskManager._would_breach_symbol_exposure_cap in Hcap.
  cbn [RiskManager.config RiskManager.real_equity ReviewSpec.rolled
       RiskManager.set_va] in Hcap.
  fold pct in Hcap.
  destruct (Qleb pct 0) eqn:Hpct; [discriminate|].
  destruct (Qleb (RiskManager.real_equity self * pct) 0) eqn:Hcapv;
    [discriminate|].
  apply Qleb_gt in Hpct, Hcapv. apply Qltb_ge in Hcap.
  repeat split; assumption.
Qed.

Lemma approved_within_exposure_cap_witness :
  RiskManager._va Scenario.rm_daily_reset !! "va1"
  = Some (VaState.mk 1000 1000 0 0 None 0 false)
  /\ fst (RiskManager.review_orderplan Scenario.rm_daily_reset
            Scenario.plan_va1 Scenario.before_midnight false)
     = Ok (ReviewResult.mk true None (Some (1000 # 100)%Q))
  /\ exists q : Q,
       Some (1000 # 100)%Q = Some q
       /\ ~ (q == 0)%Q
       /\ (0 < 1)%Q
       /\ (0 < 10000 * 1)%Q
       /\ (symbol_notional Scenario.rm_daily_reset "BTCUSDT" + Qabs q * 100
           <= 10000 * 1)%Q.
Proof.
  split; [reflexivity|]. split; [reflexivity|].
  apply (approved_within_exposure_cap Scenario.rm_daily_reset
           Scenario.plan_va1 Scenario.before_midnight false
           (VaState.mk 1000 1000 0 0 None 0 false)
           (ReviewResult.mk true None (Some (1000 # 100)%Q)));
    reflexivity.
Defined.

(** X2: an approved review found the symbol unowned or owned by the plan's
    VA, and no recorded position of that VA on the other side; with
    reserve=true it leaves the symbol owned by the plan's VA and the VA's
    daily_trades one higher than after the day roll, still within
    max_trades_per_day. *)
Theorem approved_reservation (self : RiskManager.t) (plan : OrderPlan.t)
    (now : datetime) (st : VaState.t) (r : ReviewResult.t) :
  RiskManager._va self !! OrderPlan.va_id plan = Some st ->
  fst (RiskManager.review_orderplan self plan now true) = Ok r ->
  ReviewResult.approved r = true ->
  let va_id := OrderPlan.va_id plan in
  let symbol := OrderPlan.symbol plan in
  let self2 := snd (RiskManager.review_orderplan self plan now true) in
  (RiskManager._symbol_owner self !! symbol = None
   \/ RiskManager._symbol_owner self !! symbol = Some va_id)
  /\ (forall p : Position.t,
        RiskManager._positions self !! (va_id, symbol) = Some p ->
        Position.side p = None \/ Position.side p = Some (OrderPlan.side plan))
  /\ RiskManager._symbol_owner self2 !! symbol = Some va_id
  /\ exists st2 : VaState.t,
       RiskManager._va self2 !! va_id = Some st2
       /\ VaState.daily_trades st2
          = VaState.daily_trades (RiskManager._roll_day self st now) + 1
       /\ VaState.daily_trades st2
          <= RiskConfig.max_trades_per_day (RiskManager.config self).
Proof.
  intros Hva Hr Happ va_id symbol self2.
  destruct (review_approved self plan now true st r Hva Hr Happ)
    as (Hfirst & _ & Hsnd).
  apply checks_pass in Hfirst.
  destruct Hfirst as (_ & _ & _ & _ & _ & Htrades & Howner & Hside & _ & _).
  rewrite check_opposing_exposure_code in Hside.
  apply fail_if_pass in Htrades, Howner, Hside.
  cbn [RiskManager._symbol_owner RiskManager._positions ReviewSpec.rolled
       RiskManager.set_va RiskManager.config] in Howner, Hside, Htrades.
  fold va_id symbol in Howner, Hside.
  assert (Hown : RiskManager._symbol_owner self !! symbol = None
                 \/ RiskManager._symbol_owner self !! symbol = Some va_id).
  { destruct (RiskManager._symbol_owner self !! symbol) as [o|]; [|now left].
    right. apply bool_decide_eq_false in Howner.
    destruct (decide (o = va_id)) as [->|Hne]; [reflexivity|].
    exfalso. now apply Howner. }
  split; [exact Hown|].
  split.
  { intros p Hp. rewrite Hp in Hside.
    destruct (Position.side p) as [sd|]; [|now left].
    right. apply bool_decide_eq_false in Hside.
    destruct (decide (sd = OrderPlan.side plan)) as [->|Hne]; [reflexivity|].
    exfalso. now apply Hside. }
  unfold self2. rewrite Hsnd. unfold ReviewSpec.reserved.
  cbn [RiskManager._symbol_owner ReviewSpec.rolled RiskManager.set_va].
  fold va_id symbol.
  apply bool_decide_eq_false in Htrades.
  split.
  - destruct Hown as [Hnone|Hsome].
    + rewrite Hnone. cbn. apply lookup_insert_eq.
    + rewrite Hsome. cbn. exact Hsome.
  - eexists. split.
    + destruct (RiskManager._symbol_owner self !! symbol); cbn;
        apply lookup_insert_eq.
    + cbn [VaState.daily_trades]. split; [reflexivity | lia].
Qed.

Lemma approved_reservation_witness :
  RiskManager._va Scenario.rm_daily_reset !! "va1"
  = Some (VaState.mk 1000 1000 0 0 None 0 false)
  /\ fst (RiskManager.review_orderplan Scenario.rm_daily_reset
            Scenario.plan_va1 Scenario.before_midnight true)
     = Ok (ReviewResult.mk true None (Some (1000 # 100)%Q))
  /\ RiskManager._symbol_owner
       (snd (RiskManager.review_orderplan Scenario.rm_daily_reset
               Scenario.plan_va1 Scenario.before_midnight true))
     !! "BTCUSDT" = Some "va1".
Proof.
  split; [reflexivity|]. split; [reflexivity|].
  destruct (approved_reservation Scenario.rm_daily_reset Scenario.plan_va1
              Scenario.before_midnight
              (VaState.mk 1000 1000 0 0 None 0 false)
              (ReviewResult.mk true None (Some (1000 # 100)%Q))
              eq_refl eq_refl eq_refl) as (_ & _ & Howner & _).
  exact Howner.
Defined.

(** ** How the calls move a VA's state *)

(** After a review every VA state is the old one, the old one rolled to
    [now], or, for an approved reservation, the rolled one with one more
    daily trade, which was below the daily maximum. *)
Lemma review_orderplan_va (s : RiskManager.t) (plan : OrderPlan.t)
    (now : datetime) (reserve : bool) (va_id : string) (st2 : VaState.t) :
  RiskManager._va (snd (RiskManager.review_orderplan s plan now reserve))
  !! va_id = Some st2 ->
  exists st1 : VaState.t,
    RiskManager._va s !! va_id = Some st1
    /\ (st2 = st1
        \/ st2 = RiskManager._roll_day s st1 now
        \/ (st2 = bump_trades (RiskManager._roll_day s st1 now)
            /\ VaState.daily_trades (RiskManager._roll_day s st1 now)
               < RiskConfig.max_trades_per_day (RiskManager.config s))).
Proof.
  destruct (RiskManager._va s !! OrderPlan.va_id plan) as [st|] eqn:Hva.
  2:{ unfold RiskManager.review_orderplan, RiskManager._require_va.
      rewrite Hva. cbn [snd]. eauto. }
  rewrite (review_orderplan_answer s plan now reserve st Hva). cbn [snd].
  set (st' := RiskManager._roll_day s st now).
  set (s' := ReviewSpec.rolled s (OrderPlan.va_id plan) st now).
  assert (Hrolled : forall v x,
             RiskManager._va s' !! v = Some x ->
             exists st1, RiskManager._va s !! v = Some st1
                         /\ (x = st1 \/ x = RiskManager._roll_day s st1 now)).
  { intros v x. unfold s', ReviewSpec.rolled.
    cbn [RiskManager._va RiskManager.set_va].
    rewrite lookup_insert_Some. intros [[<- <-]|[_ H]]; eauto. }
  destruct (after_cases s' st' plan now reserve) as [->|(_ & Hfirst & ->)].
  - intros H. destruct (Hrolled _ _ H) as (st1 & H1 & [->| ->]); eauto.
  - unfold ReviewSpec.reserved.
    assert (Hva2 :
      RiskManager._va
        (match RiskManager._symbol_owner s' !! OrderPlan.symbol plan with
         | Some _ =>
             RiskManager.set_va s'
               (<[OrderPlan.va_id plan := bump_trades st']>
                  (RiskManager._va s'))
         | None =>
             RiskManager.set_symbol_owner
               (RiskManager.set_va s'
                  (<[OrderPlan.va_id plan := bump_trades st']>
                     (RiskManager._va s')))
               (<[OrderPlan.symbol plan := OrderPlan.va_id plan]>
                  (RiskManager._symbol_owner s'))
         end)
      = <[OrderPlan.va_id plan := bump_trades st']> (RiskManager._va s')).
    { now destruct (RiskManager._symbol_owner s' !! OrderPlan.symbol plan). }
    unfold bump_trades in Hva2 at 1 2. rewrite Hva2.
    rewrite lookup_insert_Some. intros [[<- <-]|[_ H]].
    + exists st. split; [exact Hva|]. right. right. split; [reflexivity|].
      apply checks_pass in Hfirst.
      destruct Hfirst as (_ & _ & _ & _ & _ & Htrades & _).
      apply fail_if_pass, bool_decide_eq_false in Htrades.
      unfold s' in Htrades.
      cbn [RiskManager.config ReviewSpec.rolled RiskManager.set_va] in Htrades.
      fold st'. lia.
    + destruct (Hrolled _ _ H) as (st1 & H1 & [->| ->]); eauto.
Qed.

(** After [record_trade_pnl] every VA state is the old one, except the
    named VA's, which carries the new equity, peak and loss streak, keeps
    the daily trades of the rolled state, and keeps a set kill switch. *)
Lemma record_trade_pnl_va (s : RiskManager.t) (va_id symbol : string)
    (pnl : Q) (now : datetime) (v : string) (st2 : VaState.t) :
  RiskManager._va (snd (RiskManager.record_trade_pnl s va_id symbol pnl now))
  !! v = Some st2 ->
  exists st1 : VaState.t,
    RiskManager._va s !! v = Some st1
    /\ (st2 = st1
        \/ (v = va_id
            /\ VaState.virtual_equity st2
               = (VaState.virtual_equity st1 + pnl)%Q
            /\ VaState.peak_virtual_equity st2
               = py_max (VaState.peak_virtual_equity st1)
                   (VaState.virtual_equity st1 + pnl)%Q
            /\ VaState.daily_trades st2
               = VaState.daily_trades (RiskManager._roll_day s st1 now)
            /\ VaState.consecutive_losses st2
               = (if Qltb pnl 0 then VaState.consecutive_losses st1 + 1
                  else 0)
            /\ (VaState.kill_switch st1 = true ->
                VaState.kill_switch st2 = true))).
Proof.
  unfold RiskManager.record_trade_pnl, RiskManager._require_va.
  destruct (RiskManager._va s !! va_id) as [st|] eqn:Hva; cbn [snd]; [|eauto].
  cbn [RiskManager._va RiskManager.set_va].
  rewrite lookup_insert_Some. intros [[<- <-]|[_ H]]; [|eauto].
  exists st. split; [exact Hva|]. right.
  destruct (roll_day_same_risk s st now) as (Hve & Hpeak & Hkill).
  assert (Hcl : VaState.consecutive_losses (RiskManager._roll_day s st now)
                = VaState.consecutive_losses st).
  { unfold RiskManager._roll_day.
    destruct (VaState.day_id st); [|reflexivity]. now destruct (negb _). }
  cbn [VaState.virtual_equity VaState.peak_virtual_equity
       VaState.daily_trades VaState.consecutive_losses VaState.kill_switch].
  rewrite <- Hve, <- Hpeak, Hcl, <- Hkill.
  repeat split.
  intros ->. destruct (Qleb _ 0); [reflexivity|].
  destruct (Qltb 0 _); [|reflexivity]. now destruct (Qleb _ _).
Qed.

Lemma roll_day_daily_trades (s : RiskManager.t) (st : VaState.t)
    (now : datetime) :
  VaState.daily_trades (RiskManager._roll_day s st now)
  = VaState.daily_trades st
  \/ VaState.daily_trades (RiskManager._roll_day s st now) = 0.
Proof.
  unfold RiskManager._roll_day.
  destruct (VaState.day_id st); [|now left].
  destruct (negb _); [now right | now left].
Qed.

(** What any call does to the VA states: a state met afterwards is a fresh
    registration or comes from a state met before, whose set kill switch,
    daily-trade bound and peak it keeps. *)
Lemma step_va (s : RiskManager.t) (o : op) (v : string) (st2 : VaState.t) :
  RiskManager._va (step s o) !! v = Some st2 ->
  (exists e : Q,
     o = op_register_va v e /\ st2 = VaState.mk e e 0 0 None 0 false)
  \/ exists st1 : VaState.t,
       RiskManager._va s !! v = Some st1
       /\ (VaState.kill_switch st1 = true -> VaState.kill_switch st2 = true)
       /\ (0 <= RiskConfig.max_trades_per_day (RiskManager.config s) ->
           0 <= VaState.daily_trades st1
           <= RiskConfig.max_trades_per_day (RiskManager.config s) ->
           0 <= VaState.daily_trades st2
           <= RiskConfig.max_trades_per_day (RiskManager.config s))
       /\ (((VaState.virtual_equity st1 <= VaState.peak_virtual_equity st1)%Q
            /\ 0 <= VaState.consecutive_losses st1) ->
           (VaState.virtual_equity st2 <= VaState.peak_virtual_equity st2)%Q
           /\ 0 <= VaState.consecutive_losses st2).
Proof.
  destruct o as [va0 e|va0 sym now cd|va0 sym pnl now|va0 sym q ap|plan now r];
    cbn [step].
  - unfold RiskManager.register_va. cbn [RiskManager._va RiskManager.set_va].
    rewrite lookup_insert_Some. intros [[<- <-]|[_ H]]; [left; eauto|].
    right. exists st2. repeat split; auto; tauto.
  - intros H. right. exists st2. repeat split; auto; tauto.
  - intros H. right.
    destruct (record_trade_pnl_va _ _ _ _ _ _ _ H)
      as (st1 & H1 & [->|(_ & Hve & Hpeak & Hdt & Hcl & Hk)]).
    + exists st1. repeat split; auto; tauto.
    + exists st1. split; [exact H1|]. split; [exact Hk|]. split.
      * rewrite Hdt. destruct (roll_day_daily_trades s st1 now) as [-> | ->];
          lia.
      * intros [_ Hcl0]. rewrite Hve, Hpeak, Hcl. split.
        -- unfold py_max.
           destruct (Qltb (VaState.peak_virtual_equity st1)
                       (VaState.virtual_equity st1 + pnl)) eqn:Hlt.
           ++ apply Qle_refl.
           ++ now apply Qltb_ge in Hlt.
        -- destruct (Qltb pnl 0); lia.
  - assert (Hva : RiskManager._va (RiskManager.record_position s va0 sym q ap)
                  = RiskManager._va s).
    { unfold RiskManager.record_position.
      destruct (Qeqb q 0); [|reflexivity]. now destruct (_ && _). }
    rewrite Hva. intros H. right. exists st2. repeat split; auto; tauto.
  - intros H. right.
    destruct (review_orderplan_va _ _ _ _ _ _ H)
      as (st1 & H1 & Hcases).
    exists st1. split; [exact H1|].
    destruct (roll_day_same_risk s st1 now) as (Hve & Hpeak & Hkill).
    assert (Hcl : VaState.consecutive_losses (RiskManager._roll_day s st1 now)
                  = VaState.consecutive_losses st1).
    { unfold RiskManager._roll_day.
      destruct (VaState.day_id st1); [|reflexivity]. now destruct (negb _). }
    destruct Hcases as [->|[->|[-> Hlt]]].
    + repeat split; auto; tauto.
    + split; [now rewrite <- Hkill|]. split.
      * destruct (roll_day_daily_trades s st1 now) as [-> | ->]; lia.
      * now rewrite <- Hve, <- Hpeak, Hcl.
    + cbn [bump_trades VaState.kill_switch VaState.daily_trades
           VaState.virtual_equity VaState.peak_virtual_equity
           VaState.consecutive_losses].
      split; [now rewrite <- Hkill|]. split.
      * destruct (roll_day_daily_trades s st1 now) as [Heq|Heq];
          rewrite Heq in *; lia.
      * now rewrite <- Hve, <- Hpeak, Hcl.
Qed.

(** ** Invariants of every history *)

(** X3: with max_trades_per_day >= 0, after any sequence of calls every
    VA's daily_trades lies between 0 and max_trades_per_day: reviews never
    reserve more trades in a day than the configuration allows. *)
Theorem daily_trades_within_limit (config : RiskConfig.t) (real_equity : Q)
    (ops : list op) :
  0 <= RiskConfig.max_trades_per_day config ->
  daily_trades_bounded (run (RiskManager.__init__ config real_equity) ops).
Proof.
  intros Hmax.
  assert (Hgen : forall s,
             RiskManager.config s = config ->
             daily_trades_bounded s -> daily_trades_bounded (run s ops)).
  { induction ops as [|o ops IH]; intros s Hcfg Hinv; [exact Hinv|].
    cbn [run fold_left]. fold (run (step s o) ops).
    apply IH; [now rewrite step_config|].
    intros v st2 H2. rewrite step_config.
    destruct (step_va s o v st2 H2) as [(e & _ & ->)|(st1 & H1 & _ & Hdt & _)].
    - cbn. rewrite Hcfg. lia.
    - apply Hdt; [rewrite Hcfg; lia|]. exact (Hinv v st1 H1). }
  apply Hgen; [reflexivity|].
  intros v st H. cbn in H. rewrite lookup_empty in H. discriminate.
Qed.

Lemma daily_trades_within_limit_witness :
  0 <= RiskConfig.max_trades_per_day Scenario.config_daily_reset
  /\ daily_trades_bounded
       (run (RiskManager.__init__ Scenario.config_daily_reset 10000)
          [op_register_va "va1" 1000;
           op_review_orderplan Scenario.plan_va1 Scenario.before_midnight true;
           op_review_orderplan Scenario.plan_va1 Scenario.before_midnight true]).
Proof.
  split; [discriminate|].
  apply daily_trades_within_limit. discriminate.
Defined.

(** X4: after any sequence of calls, every VA's virtual_equity is at most
    its peak_virtual_equity (the drawdown is never negative) and its
    consecutive_losses count is not negative. *)
Theorem equity_never_above_peak (config : RiskConfig.t) (real_equity : Q)
    (ops : list op) :
  peak_above_equity (run (RiskManager.__init__ config real_equity) ops).
Proof.
  assert (Hgen : forall s, peak_above_equity s -> peak_above_equity (run s ops)).
  { induction ops as [|o ops IH]; intros s Hinv; [exact Hinv|].
    cbn [run fold_left]. fold (run (step s o) ops).
    apply IH. intros v st2 H2.
    destruct (step_va s o v st2 H2) as [(e & _ & ->)|(st1 & H1 & _ & _ & Hpk)].
    - cbn. split; [apply Qle_refl | lia].
    - apply Hpk. exact (Hinv v st1 H1). }
  apply Hgen. intros v st H. cbn in H. rewrite lookup_empty in H. discriminate.
Qed.

Lemma run_kill_switch_latched (ops : list op) (s : RiskManager.t)
    (va_id : string) (st : VaState.t) :
  RiskManager._va s !! va_id = Some st ->
  VaState.kill_switch st = true ->
  Forall (fun o => ~ registers va_id o) ops ->
  exists st' : VaState.t,
    RiskManager._va (run s ops) !! va_id = Some st'
    /\ VaState.kill_switch st' = true.
Proof.
  revert s st. induction ops as [|o ops IH]; intros s st Hva Hkill Hops.
  - cbn. eauto.
  - apply Forall_cons in Hops as [Ho Hops].
    cbn [run fold_left]. fold (run (step s o) ops).
    assert (Hstep : exists st1, RiskManager._va (step s o) !! va_id = Some st1).
    { destruct o as [v e|v sy now cd|v sy pnl now|v sy q ap|plan now r];
        cbn [step].
      - cbn in Ho. unfold RiskManager.register_va. cbn.
        rewrite lookup_insert_ne by exact Ho. eauto.
      - eauto.
      - unfold RiskManager.record_trade_pnl.
        destruct (RiskManager._require_va s v); cbn; [|eauto].
        destruct (decide (v = va_id)) as [->|Hne].
        + rewrite lookup_insert_eq. eauto.
        + rewrite lookup_insert_ne by exact Hne. eauto.
      - unfold RiskManager.record_position.
        destruct (Qeqb q 0); [|cbn; eauto]. destruct (_ && _); cbn; eauto.
      - destruct (RiskManager._va s !! OrderPlan.va_id plan) as [stp|] eqn:Hp.
        + rewrite (review_orderplan_answer s plan now r stp Hp). cbn [snd].
          assert (Hr : exists x,
                     RiskManager._va
                       (ReviewSpec.rolled s (OrderPlan.va_id plan) stp now)
                     !! va_id = Some x).
          { unfold ReviewSpec.rolled. cbn.
            destruct (decide (OrderPlan.va_id plan = va_id)) as [->|Hne].
            - rewrite lookup_insert_eq. eauto.
            - rewrite lookup_insert_ne by exact Hne. eauto. }
          destruct (after_cases
                      (ReviewSpec.rolled s (OrderPlan.va_id plan) stp now)
                      (RiskManager._roll_day s stp now) plan now r)
            as [->|(_ & _ & ->)]; [exact Hr|].
          unfold ReviewSpec.reserved.
          destruct (RiskManager._symbol_owner _ !! _); cbn;
            (destruct (decide (OrderPlan.va_id plan = va_id)) as [->|Hne];
             [rewrite lookup_insert_eq; eauto
             |rewrite lookup_insert_ne by exact Hne; exact Hr]).
        + unfold RiskManager.review_orderplan, RiskManager._require_va.
          rewrite Hp. cbn. eauto. }
    destruct Hstep as [st1 Hst1].
    destruct (step_va s o va_id st1 Hst1)
      as [(e & -> & _)|(st0 & H0 & Hk & _)].
    + exfalso. apply Ho. reflexivity.
    + rewrite Hva in H0. injection H0 as <-.
      apply (IH (step s o) st1 Hst1 (Hk Hkill) Hops).
Qed.

(** X5: the kill switch is latched.  Once a VA's kill switch is set, then
    after any further calls that do not register that VA again, every
    review of any plan of that VA, at any time and with any reserve flag,
    is rejected with reason kill_switch. *)
Theorem killed_va_always_rejected (s : RiskManager.t) (ops : list op)
    (st : VaState.t) (plan : OrderPlan.t) (now : datetime) (reserve : bool) :
  RiskManager._va s !! OrderPlan.va_id plan = Some st ->
  VaState.kill_switch st = true ->
  Forall (fun o => ~ registers (OrderPlan.va_id plan) o) ops ->
  fst (RiskManager.review_orderplan (run s ops) plan now reserve)
  = Ok (ReviewResult.mk false (Some "kill_switch") None).
Proof.
  intros Hva Hkill Hops.
  destruct (run_kill_switch_latched ops s _ st Hva Hkill Hops)
    as (st' & Hva' & Hkill').
  rewrite (review_orderplan_answer _ plan now reserve st' Hva'). cbn [fst].
  unfold ReviewSpec.answer, ReviewSpec.risk_checks,
    ReviewSpec.check_kill_switch, ReviewSpec.fail_if.
  destruct (roll_day_same_risk (run s ops) st' now) as (_ & _ & Hk).
  rewrite <- Hk, Hkill'. reflexivity.
Qed.

Lemma killed_va_always_rejected_witness :
  fst (RiskManager.review_orderplan
         (run (run (RiskManager.__init__ Scenario.default_config 10000)
                 [op_register_va "va1" 100;
                  op_record_trade_pnl "va1" "BTCUSDT" (-40)
                    Scenario.before_midnight])
            [op_record_trade_pnl "va1" "BTCUSDT" 500 Scenario.after_midnight])
         Scenario.plan_va1 Scenario.after_midnight true)
  = Ok (ReviewResult.mk false (Some "kill_switch") None).
Proof.
  apply (killed_va_always_rejected
           (run (RiskManager.__init__ Scenario.default_config 10000)
              [op_register_va "va1" 100;
               op_record_trade_pnl "va1" "BTCUSDT" (-40)
                 Scenario.before_midnight])
           [op_record_trade_pnl "va1" "BTCUSDT" 500 Scenario.after_midnight]
           (VaState.mk 60 100 (-40) 0 (Some 20089) 1 true)).
  - reflexivity.
  - reflexivity.
  - repeat constructor. intros H. exact H.
Defined.

(** ** Cooldowns *)

Lemma review_orderplan_blocked_until (s : RiskManager.t) (plan : OrderPlan.t)
    (now : datetime) (reserve : bool) :
  RiskManager._blocked_until
    (snd (RiskManager.review_orderplan s plan now reserve))
  = RiskManager._blocked_until s.
Proof.
  destruct (RiskManager._va s !! OrderPlan.va_id plan) as [st|] eqn:Hva.
  - rewrite (review_orderplan_answer s plan now reserve st Hva). cbn [snd].
    destruct (after_cases (ReviewSpec.rolled s (OrderPlan.va_id plan) st now)
                (RiskManager._roll_day s st now) plan now reserve)
      as [->|(_ & _ & ->)]; [reflexivity|].
    unfold ReviewSpec.reserved.
    now destruct (RiskManager._symbol_owner _ !! _).
  - unfold RiskManager.review_orderplan, RiskManager._require_va.
    now rewrite Hva.
Qed.

Lemma step_blocked_until (s : RiskManager.t) (o : op) (va_id symbol : string) :
  ~ breaches va_id symbol o ->
  RiskManager._blocked_until (step s o) !! (va_id, symbol)
  = RiskManager._blocked_until s !! (va_id, symbol).
Proof.
  intros Ho.
  destruct o as [v e|v sy now cd|v sy pnl now|v sy q ap|plan now r];
    cbn [step].
  - reflexivity.
  - cbn in Ho. unfold RiskManager.apply_governor_breach. cbn.
    apply lookup_insert_ne. intros H. injection H as -> ->. tauto.
  - unfold RiskManager.record_trade_pnl.
    now destruct (RiskManager._require_va s v).
  - unfold RiskManager.record_position.
    destruct (Qeqb q 0); [|reflexivity]. now destruct (_ && _).
  - now rewrite review_orderplan_blocked_until.
Qed.

(** Only a registration creates a VA state, and no call removes one. *)
Lemma step_registered (s : RiskManager.t) (o : op) (va_id : string) :
  is_Some (RiskManager._va s !! va_id) ->
  is_Some (RiskManager._va (step s o) !! va_id).
Proof.
  intros [st Hva].
  destruct o as [v e|v sy now cd|v sy pnl now|v sy q ap|plan now r];
    cbn [step].
  - unfold RiskManager.register_va. cbn. rewrite lookup_insert_is_Some.
    destruct (decide (v = va_id)); [now left | right; eauto].
  - eauto.
  - unfold RiskManager.record_trade_pnl.
    destruct (RiskManager._require_va s v); cbn; [|eauto].
    rewrite lookup_insert_is_Some.
    destruct (decide (v = va_id)); [now left | right; eauto].
  - unfold RiskManager.record_position.
    destruct (Qeqb q 0); [|cbn; eauto]. destruct (_ && _); cbn; eauto.
  - destruct (RiskManager._va s !! OrderPlan.va_id plan) as [stp|] eqn:Hp.
    + rewrite (review_orderplan_answer s plan now r stp Hp). cbn [snd].
      assert (Hr : is_Some
                     (RiskManager._va
                        (ReviewSpec.rolled s (OrderPlan.va_id plan) stp now)
                      !! va_id)).
      { unfold ReviewSpec.rolled. cbn. rewrite lookup_insert_is_Some.
        destruct (decide (OrderPlan.va_id plan = va_id));
          [now left | right; eauto]. }
      destruct (after_cases
                  (ReviewSpec.rolled s (OrderPlan.va_id plan) stp now)
                  (RiskManager._roll_day s stp now) plan now r)
        as [->|(_ & _ & ->)]; [exact Hr|].
      unfold ReviewSpec.reserved.
      destruct (RiskManager._symbol_owner _ !! _); cbn;
        rewrite lookup_insert_is_Some;
        (destruct (decide (OrderPlan.va_id plan = va_id));
         [now left | right; split; [assumption | exact Hr]]).
    + unfold RiskManager.review_orderplan, RiskManager._require_va.
      rewrite Hp. cbn. eauto.
Qed.

Lemma run_registered (ops : list op) (s : RiskManager.t) (va_id : string) :
  is_Some (RiskManager._va s !! va_id) ->
  is_Some (RiskManager._va (run s ops) !! va_id).
Proof.
  revert s. induction ops as [|o ops IH]; intros s H; [exact H|].
  cbn [run fold_left]. fold (run (step s o) ops).
  apply IH. now apply step_registered.
Qed.

Lemma run_blocked_until (ops : list op) (s : RiskManager.t)
    (va_id symbol : string) :
  Forall (fun o => ~ breaches va_id symbol o) ops ->
  RiskManager._blocked_until (run s ops) !! (va_id, symbol)
  = RiskManager._blocked_until s !! (va_id, symbol).
Proof.
  revert s. induction ops as [|o ops IH]; intros s Hops; [reflexivity|].
  apply Forall_cons in Hops as [Ho Hops].
  cbn [run fold_left]. fold (run (step s o) ops).
  rewrite IH by exact Hops. now apply step_blocked_until.
Qed.

(** The reasons the sizer can give. *)
Lemma calculate_qty_reason (self : SizeCalculator.t) (plan : OrderPlan.t)
    (ve : Q) (c : Z) (leverage : option Q) (size : SizeResult.t) :
  SizeCalculator.calculate_qty self plan ve c leverage = Ok size ->
  SizeResult.reason size = None
  \/ (SizeResult.qty size = 0%Q
      /\ In (SizeResult.reason size)
           [Some "virtual_equity_non_positive"; Some "leverage_non_positive";
            Some "stop_loss_distance_zero"; Some "below_min_qty";
            Some "below_min_notional"]).
Proof.
  unfold SizeCalculator.calculate_qty.
  destruct (Qleb ve 0).
  { intros H. injection H as <-. right. cbn. auto. }
  destruct (Qleb (py_min _ _) 0).
  { intros H. injection H as <-. right. cbn. auto. }
  destruct (OrderPlan.stop_loss plan) as [spec|]; cbn [mbind result_bind];
    [|discriminate].
  destruct (StopLossSpec.resolved_stop_price spec _ _) as [sl|];
    cbn [mbind result_bind]; [|discriminate].
  destruct (Qleb (Qabs _) 0).
  { intros H. injection H as <-. right. cbn. auto. }
  destruct (py_div _ (Qabs _)) as [raw|]; cbn [mbind result_bind];
    [|discriminate].
  destruct (py_div _ (OrderPlan.entry_price plan)) as [cap|];
    cbn [mbind result_bind]; [|discriminate].
  destruct (Qltb _ _).
  { intros H. injection H as <-. right. cbn. auto 10. }
  destruct (Qltb _ _).
  { intros H. injection H as <-. right. cbn. auto 10. }
  intros H. injection H as <-. now left.
Qed.

Lemma first_failing_in (l : list ReviewSpec.verdict) (v : ReviewSpec.verdict) :
  ReviewSpec.first_failing l = v -> v <> ReviewSpec.Pass -> In v l.
Proof.
  induction l as [|x l IH]; cbn; intros H Hv; [congruence|].
  destruct x; cbn in H; auto.
Qed.

(** X6: after apply_governor_breach(va, symbol, t, cooldown) on a registered
    VA, and any further calls that set no other cooldown for the pair, a
    review of a plan for (va, symbol) at a time before t + cooldown is never
    approved: it is rejected with cooldown_active, or by one of the three
    earlier checks.  From t + cooldown on (the bound itself included) the
    cooldown no longer rejects. *)
Theorem cooldown_blocks_until_expiry (s : RiskManager.t) (ops : list op)
    (plan : OrderPlan.t) (t : datetime) (cooldown : timedelta)
    (now : datetime) (reserve : bool) :
  is_Some (RiskManager._va s !! OrderPlan.va_id plan) ->
  Forall (fun o => ~ breaches (OrderPlan.va_id plan) (OrderPlan.symbol plan) o)
    ops ->
  let s' :=
    run (RiskManager.apply_governor_breach s (OrderPlan.va_id plan)
           (OrderPlan.symbol plan) t cooldown) ops in
  let outcome := fst (RiskManager.review_orderplan s' plan now reserve) in
  (now < t + cooldown ->
   exists reason : string,
     outcome = Ok (ReviewResult.mk false (Some reason) None)
     /\ (reason = "kill_switch" \/ reason = "stop_loss_required"
         \/ reason = "take_profit_required_for_fixed"
         \/ reason = "cooldown_active"))
  /\ (t + cooldown <= now ->
      outcome <> Ok (ReviewResult.mk false (Some "cooldown_active") None)).
Proof.
  intros Hreg Hops s' outcome.
  assert (Hreg' : is_Some (RiskManager._va s' !! OrderPlan.va_id plan)).
  { apply run_registered. exact Hreg. }
  destruct Hreg' as [st Hva].
  assert (Hblocked : RiskManager._blocked_until s'
                     !! (OrderPlan.va_id plan, OrderPlan.symbol plan)
                     = Some (t + cooldown)).
  { unfold s'. rewrite run_blocked_until by exact Hops.
    unfold RiskManager.apply_governor_breach. cbn. apply lookup_insert_eq. }
  unfold outcome.
  rewrite (review_orderplan_answer s' plan now reserve st Hva). cbn [fst].
  unfold ReviewSpec.answer, ReviewSpec.risk_checks,
    ReviewSpec.check_kill_switch, ReviewSpec.check_stop_loss_required,
    ReviewSpec.check_take_profit_required_for_fixed,
    ReviewSpec.check_cooldown_active, ReviewSpec.fail_if.
  cbn [RiskManager._blocked_until ReviewSpec.rolled RiskManager.set_va].
  rewrite Hblocked. cbn [ReviewSpec.first_failing].
  split; intros Hnow.
  - rewrite (bool_decide_eq_true_2 (t + cooldown > now)) by lia.
    destruct (VaState.kill_switch _); cbn [ReviewSpec.is_pass]; [eauto 10|].
    destruct (bool_decide (OrderPlan.stop_loss plan = None));
      cbn [ReviewSpec.is_pass]; [eauto 10|].
    destruct (match OrderPlan.stop_loss plan with
              | Some sl => _
              | None => false
              end); cbn [ReviewSpec.is_pass]; eauto 10.
  - rewrite (bool_decide_eq_false_2 (t + cooldown > now)) by lia.
    match goal with
    | |- context [match ?ff with
                  | ReviewSpec.Pass => _
                  | ReviewSpec.Fail _ => _
                  | ReviewSpec.Crash _ => _
                  end] => destruct ff as [|reason|e] eqn:Hff
    end.
    + destruct (ReviewSpec.sized _ _ plan); cbn; discriminate.
    + intros H. injection H as ->.
      assert (Hin : In (ReviewSpec.Fail (Some "cooldown_active"))
                      [ (if VaState.kill_switch
                              (RiskManager._roll_day s' st now)
                         then ReviewSpec.Fail (Some "kill_switch")
                         else ReviewSpec.Pass);
                        (if bool_decide (OrderPlan.stop_loss plan = None)
                         then ReviewSpec.Fail (Some "stop_loss_required")
                         else ReviewSpec.Pass);
                        ReviewSpec.check_take_profit_required_for_fixed plan;
                        ReviewSpec.Pass;
                        ReviewSpec.check_max_daily_loss
                          (ReviewSpec.rolled s' (OrderPlan.va_id plan) st now)
                          (RiskManager._roll_day s' st now);
                        ReviewSpec.check_max_trades_per_day
                          (ReviewSpec.rolled s' (OrderPlan.va_id plan) st now)
                          (RiskManager._roll_day s' st now);
                        ReviewSpec.check_symbol_owned_by_other_va
                          (ReviewSpec.rolled s' (OrderPlan.va_id plan) st now)
                          plan;
                        ReviewSpec.check_opposing_exposure
                          (ReviewSpec.rolled s' (OrderPlan.va_id plan) st now)
                          plan;
                        ReviewSpec.check_sizer
                          (ReviewSpec.rolled s' (OrderPlan.va_id plan) st now)
                          (RiskManager._roll_day s' st now) plan;
                        ReviewSpec.check_net_exposure_cap
                          (ReviewSpec.rolled s' (OrderPlan.va_id plan) st now)
                          (RiskManager._roll_day s' st now) plan ]).
      { apply first_failing_in; [|discriminate].
        rewrite <- Hff. reflexivity. }
      rewrite check_opposing_exposure_code, check_net_exposure_cap_code
        in Hin.
      unfold ReviewSpec.check_take_profit_required_for_fixed,
        ReviewSpec.check_max_daily_loss, ReviewSpec.check_max_trades_per_day,
        ReviewSpec.check_symbol_owned_by_other_va,
        ReviewSpec.check_sizer, ReviewSpec.fail_if in Hin.
      cbn [In] in Hin.
      repeat match type of Hin with
             | _ \/ _ => destruct Hin as [Hin|Hin]
             end;
        try (repeat match type of Hin with
                    | context [if ?b then _ else _] => destruct b
                    end; discriminate Hin);
        try contradiction.
      * (* the sizer's own reasons *)
        destruct (ReviewSpec.sized _ _ plan) as [size|] eqn:Hsized;
          [|discriminate].
        destruct (Qeqb _ 0); [|discriminate]. injection Hin as Hreason.
        destruct (calculate_qty_reason _ _ _ _ _ _ Hsized) as [Hn|[_ Hr]].
        -- congruence.
        -- rewrite Hreason in Hr. cbn in Hr.
           repeat (destruct Hr as [Hr|Hr]; [discriminate|]). exact Hr.
      * destruct (ReviewSpec.sized _ _ plan) as [size|]; [|discriminate].
        destruct (RiskManager._would_breach_symbol_exposure_cap _ _ _);
          discriminate.
    + discriminate.
Qed.

Lemma cooldown_blocks_until_expiry_witness :
  is_Some (RiskManager._va Scenario.rm_daily_reset !! "va1")
  /\ Scenario.before_midnight < Scenario.before_midnight + Scenario.minutes 5
  /\ exists reason : string,
       fst (RiskManager.review_orderplan
              (run (RiskManager.apply_governor_breach Scenario.rm_daily_reset
                      "va1" "BTCUSDT" Scenario.before_midnight
                      (Scenario.minutes 5)) [])
              Scenario.plan_va1 Scenario.before_midnight true)
       = Ok (ReviewResult.mk false (Some reason) None)
       /\ (reason = "kill_switch" \/ reason = "stop_loss_required"
           \/ reason = "take_profit_required_for_fixed"
           \/ reason = "cooldown_active").
Proof.
  split; [eexists; reflexivity|]. split; [reflexivity|].
  destruct (cooldown_blocks_until_expiry Scenario.rm_daily_reset []
              Scenario.plan_va1 Scenario.before_midnight (Scenario.minutes 5)
              Scenario.before_midnight true) as [Hbefore _].
  - eexists; reflexivity.
  - constructor.
  - apply Hbefore. reflexivity.
Defined.

(** ** Ownership of held symbols *)

Lemma review_orderplan_owner (s : RiskManager.t) (plan : OrderPlan.t)
    (now : datetime) (reserve : bool) (symbol : string) :
  is_Some (RiskManager._symbol_owner s !! symbol) ->
  is_Some (RiskManager._symbol_owner
             (snd (RiskManager.review_orderplan s plan now reserve))
           !! symbol).
Proof.
  intros Hown.
  destruct (RiskManager._va s !! OrderPlan.va_id plan) as [st|] eqn:Hva.
  - rewrite (review_orderplan_answer s plan now reserve st Hva). cbn [snd].
    destruct (after_cases (ReviewSpec.rolled s (OrderPlan.va_id plan) st now)
                (RiskManager._roll_day s st now) plan now reserve)
      as [->|(_ & _ & ->)]; [exact Hown|].
    unfold ReviewSpec.reserved.
    destruct (RiskManager._symbol_owner _ !! OrderPlan.symbol plan) eqn:Ho;
      cbn; [exact Hown|].
    rewrite lookup_insert_is_Some.
    destruct (decide (OrderPlan.symbol plan = symbol)); [now left|].
    right. split; [assumption | exact Hown].
  - unfold RiskManager.review_orderplan, RiskManager._require_va.
    now rewrite Hva.
Qed.

Lemma step_positions_owned (s : RiskManager.t) (o : op) :
  positions_wf s -> positions_owned s -> positions_owned (step s o).
Proof.
  intros Hwf Hown.
  destruct o as [v e|v sy now cd|v sy pnl now|v sy q ap|plan now r];
    cbn [step].
  - exact Hown.
  - exact Hown.
  - unfold RiskManager.record_trade_pnl.
    destruct (RiskManager._require_va s v); exact Hown.
  - unfold RiskManager.record_position.
    destruct (Qeqb q 0) eqn:Hq.
    + set (mid := RiskManager.set_positions s
                    (delete (v, sy) (RiskManager._positions s))).
      assert (Hmid_wf : positions_wf mid).
      { intros a b p. unfold mid. cbn. rewrite lookup_delete_Some.
        intros [_ H]. exact (Hwf a b p H). }
      assert (Hmid : positions_owned mid).
      { intros a b p. unfold mid. cbn. rewrite lookup_delete_Some.
        intros [_ H]. exact (Hown a b p H). }
      destruct (bool_decide _ && negb (RiskManager._any_position_for_symbol mid sy))
        eqn:Hrel; [|exact Hmid].
      apply andb_true_iff in Hrel as [_ Hany].
      apply negb_true_iff in Hany.
      intros a b p Hp. cbn in Hp |- *.
      destruct (decide (sy = b)) as [->|Hne].
      * exfalso.
        assert (Hex : RiskManager._any_position_for_symbol mid b = true).
        { apply any_position_for_symbol_iff; [exact Hmid_wf|]. eauto. }
        congruence.
      * rewrite lookup_delete_ne by exact Hne. exact (Hmid a b p Hp).
    + intros a b p. cbn. rewrite lookup_insert_Some.
      intros [[Hk _]|[_ H]].
      * injection Hk as <- <-. rewrite lookup_insert_eq. eauto.
      * rewrite lookup_insert_is_Some.
        destruct (decide (sy = b)); [now left|].
        right. split; [assumption | exact (Hown a b p H)].
  - destruct (review_orderplan_effect s plan now r) as (_ & Hpos & _).
    intros a b p. rewrite Hpos. intros H.
    apply review_orderplan_owner. exact (Hown a b p H).
Qed.

(** X7: after any sequence of calls, every symbol on which some VA has a
    recorded position has an owner in the symbol-owner map, so the
    one-VA-per-symbol check applies to every held symbol. *)
Theorem held_symbols_are_owned (config : RiskConfig.t) (real_equity : Q)
    (ops : list op) :
  positions_owned (run (RiskManager.__init__ config real_equity) ops).
Proof.
  assert (Hgen : forall s,
             positions_wf s -> positions_owned s ->
             positions_owned (run s ops)).
  { induction ops as [|o ops IH]; intros s Hwf Hown; [exact Hown|].
    cbn [run fold_left]. fold (run (step s o) ops).
    apply IH; [now apply step_positions_wf | now apply step_positions_owned]. }
  apply Hgen; [apply init_positions_wf|].
  intros a b p H. cbn in H. rewrite lookup_empty in H. discriminate.
Qed.

(** ** Unregistered VAs *)

Lemma run_unregistered (ops : list op) (s : RiskManager.t) (va_id : string) :
  RiskManager._va s !! va_id = None ->
  Forall (fun o => ~ registers va_id o) ops ->
  RiskManager._va (run s ops) !! va_id = None.
Proof.
  revert s. induction ops as [|o ops IH]; intros s Hnone Hops; [exact Hnone|].
  apply Forall_cons in Hops as [Ho Hops].
  cbn [run fold_left]. fold (run (step s o) ops).
  apply IH; [|exact Hops].
  destruct (RiskManager._va (step s o) !! va_id) as [st2|] eqn:H2;
    [|reflexivity].
  exfalso.
  destruct (step_va s o va_id st2 H2) as [(e & -> & _)|(st1 & H1 & _)].
  - apply Ho. reflexivity.
  - congruence.
Qed.

(** X8: only register_va creates a VA.  After any sequence of calls that
    never registers a VA, review_orderplan for a plan of that VA and
    record_trade_pnl for it raise KeyError and leave the risk manager as it
    was. *)
Theorem unregistered_va_raises_key_error (config : RiskConfig.t)
    (real_equity : Q) (ops : list op) (plan : OrderPlan.t) (symbol : string)
    (pnl : Q) (now : datetime) (reserve : bool) :
  Forall (fun o => ~ registers (OrderPlan.va_id plan) o) ops ->
  let s := run (RiskManager.__init__ config real_equity) ops in
  RiskManager.review_orderplan s plan now reserve = (Raise KeyError, s)
  /\ RiskManager.record_trade_pnl s (OrderPlan.va_id plan) symbol pnl now
     = (Raise KeyError, s).
Proof.
  intros Hops s.
  assert (Hnone : RiskManager._va s !! OrderPlan.va_id plan = None).
  { apply run_unregistered; [apply lookup_empty | exact Hops]. }
  unfold RiskManager.review_orderplan, RiskManager.record_trade_pnl,
    RiskManager._require_va.
  now rewrite Hnone.
Qed.

Lemma unregistered_va_raises_key_error_witness :
  Forall (fun o => ~ registers "va1" o)
    [op_register_va "va2" 1000; op_record_position "va1" "BTCUSDT" 1 100]
  /\ RiskManager.review_orderplan
       (run (RiskManager.__init__ Scenario.default_config 10000)
          [op_register_va "va2" 1000; op_record_position "va1" "BTCUSDT" 1 100])
       Scenario.plan_va1 Scenario.before_midnight true
     = (Raise KeyError,
        run (RiskManager.__init__ Scenario.default_config 10000)
          [op_register_va "va2" 1000;
           op_record_position "va1" "BTCUSDT" 1 100]).
Proof.
  assert (H : Forall (fun o => ~ registers "va1" o)
                [op_register_va "va2" 1000;
                 op_record_position "va1" "BTCUSDT" 1 100]).
  { repeat constructor; cbn; [discriminate | tauto]. }
  split; [exact H|].
  exact (proj1 (unregistered_va_raises_key_error Scenario.default_config 10000
                  [op_register_va "va2" 1000;
                   op_record_position "va1" "BTCUSDT" 1 100]
                  Scenario.plan_va1 "BTCUSDT" 0 Scenario.before_midnight true
                  H)).
Defined.

(** ** Equity bookkeeping *)

Lemma step_equity (s : RiskManager.t) (o : op) (va_id : string)
    (st : VaState.t) :
  RiskManager._va s !! va_id = Some st ->
  ~ registers va_id o ->
  exists st' : VaState.t,
    RiskManager._va (step s o) !! va_id = Some st'
    /\ VaState.virtual_equity st'
       = match recorded_pnl va_id o with
         | Some pnl => (VaState.virtual_equity st + pnl)%Q
         | None => VaState.virtual_equity st
         end.
Proof.
  intros Hva Ho.
  destruct (step_registered s o va_id) as [st' Hst']; [eauto|].
  exists st'. split; [exact Hst'|].
  destruct o as [v e|v sy now cd|v sy pnl now|v sy q ap|plan now r];
    cbn [step recorded_pnl] in *.
  - unfold RiskManager.register_va in Hst'. cbn in Hst'.
    rewrite lookup_insert_ne in Hst' by exact Ho.
    rewrite Hva in Hst'. now injection Hst' as <-.
  - unfold RiskManager.apply_governor_breach in Hst'. cbn in Hst'.
    rewrite Hva in Hst'. now injection Hst' as <-.
  - unfold RiskManager.record_trade_pnl, RiskManager._require_va in Hst'.
    destruct (String.eqb_spec v va_id) as [->|Hne].
    + rewrite Hva in Hst'. cbn in Hst'. rewrite lookup_insert_eq in Hst'.
      injection Hst' as <-. cbn.
      destruct (roll_day_same_risk s st now) as (Hve & _).
      now rewrite <- Hve.
    + destruct (RiskManager._va s !! v); cbn in Hst'.
      * rewrite lookup_insert_ne in Hst' by exact Hne.
        rewrite Hva in Hst'. now injection Hst' as <-.
      * rewrite Hva in Hst'. now injection Hst' as <-.
  - assert (Hsame : RiskManager._va (RiskManager.record_position s v sy q ap)
                    = RiskManager._va s).
    { unfold RiskManager.record_position.
      destruct (Qeqb q 0); [|reflexivity]. now destruct (_ && _). }
    rewrite Hsame, Hva in Hst'. now injection Hst' as <-.
  - destruct (review_orderplan_va _ _ _ _ _ _ Hst') as (st1 & H1 & Hcases).
    rewrite Hva in H1. injection H1 as <-.
    destruct (roll_day_same_risk s st now) as (Hve & _).
    destruct Hcases as [->|[->|[-> _]]]; cbn; now rewrite <- ?Hve.
Qed.

(** X9: virtual equity moves only through record_trade_pnl.  After any
    sequence of calls that does not register the VA again, its
    virtual_equity is the equity it had with the P&L recorded for it added
    one after the other, in the order of the calls (the running sum the
    program keeps), whatever reviews, day rolls and other calls came
    between. *)
Theorem equity_is_initial_plus_recorded_pnl (s : RiskManager.t)
    (ops : list op) (va_id : string) (st : VaState.t) :
  RiskManager._va s !! va_id = Some st ->
  Forall (fun o => ~ registers va_id o) ops ->
  exists st' : VaState.t,
    RiskManager._va (run s ops) !! va_id = Some st'
    /\ VaState.virtual_equity st'
       = fold_left Qplus (recorded_pnls va_id ops)
           (VaState.virtual_equity st).
Proof.
  revert s st. induction ops as [|o ops IH]; intros s st Hva Hops.
  - exists st. split; [exact Hva | reflexivity].
  - apply Forall_cons in Hops as [Ho Hops].
    destruct (step_equity s o va_id st Hva Ho) as (st1 & H1 & Hve1).
    destruct (IH (step s o) st1 H1 Hops) as (st' & H' & Hve').
    exists st'. split; [exact H'|].
    rewrite Hve', Hve1. unfold recorded_pnls. cbn [omap list_omap].
    now destruct (recorded_pnl va_id o).
Qed.

Lemma equity_is_initial_plus_recorded_pnl_witness :
  RiskManager._va Scenario.rm_daily_reset !! "va1"
  = Some (VaState.mk 1000 1000 0 0 None 0 false)
  /\ exists st' : VaState.t,
       RiskManager._va
         (run Scenario.rm_daily_reset
            [op_record_trade_pnl "va1" "BTCUSDT" (-1) Scenario.before_midnight;
             op_review_orderplan Scenario.plan_va1 Scenario.after_midnight true;
             op_record_trade_pnl "va1" "BTCUSDT" 3 Scenario.after_midnight])
       !! "va1" = Some st'
       /\ VaState.virtual_equity st' = ((1000 + -1) + 3)%Q.
Proof.
  split; [reflexivity|].
  apply (equity_is_initial_plus_recorded_pnl Scenario.rm_daily_reset
           [op_record_trade_pnl "va1" "BTCUSDT" (-1) Scenario.before_midnight;
            op_review_orderplan Scenario.plan_va1 Scenario.after_midnight true;
            op_record_trade_pnl "va1" "BTCUSDT" 3 Scenario.after_midnight]
           "va1" (VaState.mk 1000 1000 0 0 None 0 false)).
  - reflexivity.
  - repeat constructor; cbn; tauto.
Defined.

(** * Further properties of the sizer *)

(** A result without a reason comes from the last branch of
    [calculate_qty]: every guard was passed. *)
Lemma calculate_qty_accepted (self : SizeCalculator.t) (plan : OrderPlan.t)
    (ve : Q) (c : Z) (leverage : option Q) (size : SizeResult.t) :
  SizeCalculator.calculate_qty self plan ve c leverage = Ok size ->
  SizeResult.reason size = None ->
  exists (spec : StopLossSpec.t) (sl : Q),
    (0 < ve)%Q
    /\ (0 < SizerSpec.effective_leverage self leverage)%Q
    /\ OrderPlan.stop_loss plan = Some spec
    /\ StopLossSpec.resolved_stop_price spec (OrderPlan.entry_price plan)
         (OrderPlan.side plan) = Ok sl
    /\ (0 < Qabs (OrderPlan.entry_price plan - sl))%Q
    /\ ~ (OrderPlan.entry_price plan == 0)%Q
    /\ let entry := OrderPlan.entry_price plan in
       let raw :=
         (ve * SizeCalculator.risk_per_trade_pct self / Qabs (entry - sl))%Q in
       let cap :=
         (ve * SizerSpec.effective_leverage self leverage / entry)%Q in
       let base := (py_min raw cap * SizeCalculator.decay_of c)%Q in
       (MarketConstraints.min_qty (SizeCalculator.market_constraints self)
        <= base)%Q
       /\ (MarketConstraints.min_notional
             (SizeCalculator.market_constraints self) <= base * entry)%Q
       /\ SizeResult.qty size
          = match OrderPlan.side plan with
            | BUY => base
            | SELL => (- base)%Q
            end.
Proof.
  unfold SizeCalculator.calculate_qty.
  destruct (Qleb ve 0) eqn:Hve; [intros H; injection H as <-; discriminate|].
  fold (SizerSpec.effective_leverage self leverage).
  replace (py_min match leverage with
                  | Some l => l
                  | None => SizeCalculator.default_leverage self
                  end (SizeCalculator.max_leverage self))
    with (SizerSpec.effective_leverage self leverage)
    by (unfold SizerSpec.effective_leverage; now destruct leverage).
  destruct (Qleb (SizerSpec.effective_leverage self leverage) 0) eqn:Hlev;
    [intros H; injection H as <-; discriminate|].
  destruct (OrderPlan.stop_loss plan) as [spec|]; cbn [mbind result_bind];
    [|discriminate].
  destruct (StopLossSpec.resolved_stop_price spec _ _) as [sl|] eqn:Hsl;
    cbn [mbind result_bind]; [|discriminate].
  destruct (Qleb (Qabs (OrderPlan.entry_price plan - sl)) 0) eqn:HR;
    [intros H; injection H as <-; discriminate|].
  apply Qleb_gt in Hve, Hlev, HR.
  rewrite (py_div_ok _ (Qabs (OrderPlan.entry_price plan - sl))).
  2:{ intros H. rewrite H in HR. exact (Qlt_irrefl _ HR). }
  cbn [mbind result_bind].
  unfold py_div at 1.
  destruct (Qeqb (OrderPlan.entry_price plan) 0) eqn:Hentry;
    cbn [mbind result_bind]; [discriminate|].
  apply Qeqb_neq in Hentry.
  destruct (Qltb _ _) eqn:Hmq; [intros H; injection H as <-; discriminate|].
  destruct (Qltb (_ * OrderPlan.entry_price plan) _) eqn:Hmn;
    [intros H; injection H as <-; discriminate|].
  apply Qltb_ge in Hmq, Hmn.
  intros H _. injection H as <-.
  exists spec, sl. cbv zeta. cbn [SizeResult.qty].
  repeat split; assumption.
Qed.

Lemma decay_of_range (c : Z) :
  (0 < SizeCalculator.decay_of c)%Q /\ (SizeCalculator.decay_of c <= 1)%Q.
Proof.
  unfold SizeCalculator.decay_of.
  destruct (4 <=? c); [split; reflexivity || discriminate|].
  destruct (2 <=? c); split; reflexivity || discriminate.
Qed.

Lemma decay_of_antitone (c1 c2 : Z) :
  c1 <= c2 -> (SizeCalculator.decay_of c2 <= SizeCalculator.decay_of c1)%Q.
Proof.
  intros H. unfold SizeCalculator.decay_of.
  destruct (Z.leb_spec 4 c2), (Z.leb_spec 4 c1), (Z.leb_spec 2 c2),
    (Z.leb_spec 2 c1); try lia; discriminate.
Qed.

Lemma py_min_le (a b : Q) : (py_min a b <= a)%Q /\ (py_min a b <= b)%Q.
Proof.
  unfold py_min. destruct (Qltb b a) eqn:H.
  - apply Qltb_lt in H. split; [now apply Qlt_le_weak | apply Qle_refl].
  - apply Qltb_ge in H. split; [apply Qle_refl | exact H].
Qed.

(** The unsigned quantity before the sign is applied: it is not negative
    once it passed a non-negative min_qty, and the decay only shrinks it. *)
Lemma decayed_quantity_bounds (m d minq : Q) :
  (0 < d)%Q -> (d <= 1)%Q -> (0 <= minq)%Q -> (minq <= m * d)%Q ->
  (0 <= m)%Q /\ (0 <= m * d)%Q /\ (m * d <= m)%Q.
Proof.
  intros Hd Hd1 Hmin Hbase.
  assert (Hm : (0 <= m)%Q).
  { destruct (Qlt_le_dec m 0) as [Hneg|Hpos]; [|exact Hpos].
    exfalso. assert (m * d < 0)%Q by nra. lra. }
  repeat split; [exact Hm | lra | nra].
Qed.

Lemma Qabs_signed (side : Side) (base : Q) :
  (0 <= base)%Q ->
  (Qabs match side with BUY => base | SELL => (- base)%Q end == base)%Q.
Proof.
  intros H. destruct side.
  - now apply Qabs_pos.
  - rewrite Qabs_opp. now apply Qabs_pos.
Qed.

(** X10: with min_qty >= 0, a quantity the sizer returns without a reason
    has the sign of the side (not negative for BUY, not positive for SELL)
    and its absolute value is at most the quantity cap the sizer computed,
    virtual_equity * min(leverage, max_leverage) / entry_price; the entry
    price of such a plan is above zero. *)
Theorem sizer_sign_and_leverage_bound (self : SizeCalculator.t)
    (plan : OrderPlan.t) (ve : Q) (c : Z) (leverage : option Q)
    (size : SizeResult.t) :
  SizeCalculator.calculate_qty self plan ve c leverage = Ok size ->
  SizeResult.reason size = None ->
  (0 <= MarketConstraints.min_qty (SizeCalculator.market_constraints self))%Q ->
  match OrderPlan.side plan with
  | BUY => (0 <= SizeResult.qty size)%Q
  | SELL => (SizeResult.qty size <= 0)%Q
  end
  /\ (Qabs (SizeResult.qty size)
      <= ve * py_min match leverage with
                     | None => SizeCalculator.default_leverage self
                     | Some l => l
                     end (SizeCalculator.max_leverage self)
         / OrderPlan.entry_price plan)%Q
  /\ (0 < OrderPlan.entry_price plan)%Q.
Proof.
  intros Hcalc Hreason Hmin.
  destruct (calculate_qty_accepted self plan ve c leverage size Hcalc Hreason)
    as (spec & sl & Hve & Hlev & _ & _ & HR & Hentry & Hmq & _ & Hqty).
  cbv zeta in Hmq, Hqty.
  replace (py_min match leverage with
                  | None => SizeCalculator.default_leverage self
                  | Some l => l
                  end (SizeCalculator.max_leverage self))
    with (SizerSpec.effective_leverage self leverage)
    by (unfold SizerSpec.effective_leverage; now destruct leverage).
  set (entry := OrderPlan.entry_price plan) in *.
  set (lev := SizerSpec.effective_leverage self leverage) in *.
  set (m := py_min (ve * SizeCalculator.risk_per_trade_pct self
                    / Qabs (entry - sl)) (ve * lev / entry)) in *.
  set (d := SizeCalculator.decay_of c) in *.
  destruct (decay_of_range c) as [Hd Hd1]. fold d in Hd, Hd1.
  destruct (decayed_quantity_bounds m d _ Hd Hd1 Hmin Hmq)
    as (Hm & Hbase & Hshrink).
  assert (Hcap : (m <= ve * lev / entry)%Q) by apply py_min_le.
  split; [|split].
  - rewrite Hqty. destruct (OrderPlan.side plan); [exact Hbase|].
    apply (Qopp_le_compat 0) in Hbase. exact Hbase.
  - rewrite Hqty, (Qabs_signed _ _ Hbase). lra.
  - (* the cap is not negative, and it is a positive amount over entry *)
    assert (Hnum : (0 < ve * lev)%Q) by now apply Qmult_lt_0_compat.
    destruct (Qlt_le_dec 0 entry) as [Hpos|Hneg]; [exact Hpos|].
    exfalso.
    assert (Hlt : (entry < 0)%Q).
    { apply Qnot_le_lt. intros H0. apply Hentry. lra. }
    assert (Hinv : (/ entry < 0)%Q).
    { apply Qnot_le_lt. intros Hge.
      assert (Hone : (entry * / entry == 1)%Q) by (apply Qmult_inv_r; exact Hentry).
      assert (entry * / entry <= 0)%Q by nra. lra. }
    assert (Hneg' : (ve * lev / entry < 0)%Q).
    { unfold Qdiv. nra. }
    lra.
Qed.

Lemma sizer_sign_and_leverage_bound_witness :
  SizeCalculator.calculate_qty Scenario.sizer Scenario.plan_va1 998 2 None
  = Ok (SizeResult.mk (998 # 200) None)
  /\ (0 <= 0)%Q
  /\ (0 <= 998 # 200)%Q
  /\ (Qabs (998 # 200) <= 998 * py_min 3 5 / 100)%Q
  /\ (0 < 100)%Q.
Proof.
  split; [reflexivity|]. split; [discriminate|].
  apply (sizer_sign_and_leverage_bound Scenario.sizer Scenario.plan_va1 998 2
           None (SizeResult.mk (998 # 200) None));
    [reflexivity | reflexivity | discriminate].
Defined.

(** X11: with min_qty >= 0, a quantity the sizer returns without a reason
    is in absolute value at most the raw quantity the sizer computed from
    the risk budget: virtual_equity * risk_per_trade_pct divided by the
    distance from the entry to the resolved stop. *)
Theorem sizer_risk_within_budget (self : SizeCalculator.t)
    (plan : OrderPlan.t) (ve : Q) (c : Z) (leverage : option Q)
    (size : SizeResult.t) :
  SizeCalculator.calculate_qty self plan ve c leverage = Ok size ->
  SizeResult.reason size = None ->
  (0 <= MarketConstraints.min_qty (SizeCalculator.market_constraints self))%Q ->
  exists (spec : StopLossSpec.t) (sl : Q),
    OrderPlan.stop_loss plan = Some spec
    /\ StopLossSpec.resolved_stop_price spec (OrderPlan.entry_price plan)
         (OrderPlan.side plan) = Ok sl
    /\ (0 < Qabs (OrderPlan.entry_price plan - sl))%Q
    /\ (Qabs (SizeResult.qty size)
        <= ve * SizeCalculator.risk_per_trade_pct self
           / Qabs (OrderPlan.entry_price plan - sl))%Q.
Proof.
  intros Hcalc Hreason Hmin.
  destruct (calculate_qty_accepted self plan ve c leverage size Hcalc Hreason)
    as (spec & sl & Hve & Hlev & Hspec & Hsl & HR & Hentry & Hmq & _ & Hqty).
  cbv zeta in Hmq, Hqty.
  exists spec, sl. split; [exact Hspec|]. split; [exact Hsl|].
  split; [exact HR|].
  set (R := Qabs (OrderPlan.entry_price plan - sl)) in *.
  set (budget := (ve * SizeCalculator.risk_per_trade_pct self)%Q) in *.
  set (m := py_min (budget / R)
              (ve * SizerSpec.effective_leverage self leverage
               / OrderPlan.entry_price plan)) in *.
  set (d := SizeCalculator.decay_of c) in *.
  destruct (decay_of_range c) as [Hd Hd1]. fold d in Hd, Hd1.
  destruct (decayed_quantity_bounds m d _ Hd Hd1 Hmin Hmq)
    as (Hm & Hbase & Hshrink).
  assert (Hraw : (m <= budget / R)%Q) by apply py_min_le.
  rewrite Hqty, (Qabs_signed _ _ Hbase). lra.
Qed.

Lemma sizer_risk_within_budget_witness :
  exists (spec : StopLossSpec.t) (sl : Q),
    OrderPlan.stop_loss Scenario.plan_va1 = Some spec
    /\ StopLossSpec.resolved_stop_price spec 100 BUY = Ok sl
    /\ (0 < Qabs (100 - sl))%Q
    /\ (Qabs (998 # 200) <= 998 * (1 # 100) / Qabs (100 - sl))%Q.
Proof.
  apply (sizer_risk_within_budget Scenario.sizer Scenario.plan_va1 998 2
           None (SizeResult.mk (998 # 200) None));
    [reflexivity | reflexivity | discriminate].
Defined.

(** X12: more consecutive losses never size a trade larger.  With
    min_qty >= 0 and a positive entry price, if the sizer accepts a plan
    after c2 consecutive losses, it accepts it after any smaller count c1
    as well, with a quantity at least as large in absolute value. *)
Theorem sizer_decay_never_grows (self : SizeCalculator.t)
    (plan : OrderPlan.t) (ve : Q) (c1 c2 : Z) (leverage : option Q)
    (size2 : SizeResult.t) :
  c1 <= c2 ->
  SizeCalculator.calculate_qty self plan ve c2 leverage = Ok size2 ->
  SizeResult.reason size2 = None ->
  (0 <= MarketConstraints.min_qty (SizeCalculator.market_constraints self))%Q ->
  (0 < OrderPlan.entry_price plan)%Q ->
  exists size1 : SizeResult.t,
    SizeCalculator.calculate_qty self plan ve c1 leverage = Ok size1
    /\ SizeResult.reason size1 = None
    /\ (Qabs (SizeResult.qty size2) <= Qabs (SizeResult.qty size1))%Q.
Proof.
  intros Hc Hcalc Hreason Hmin Hpos.
  destruct (calculate_qty_accepted self plan ve c2 leverage size2 Hcalc Hreason)
    as (spec & sl & Hve & Hlev & Hspec & Hsl & HR & Hentry & Hmq & Hmn & Hqty).
  cbv zeta in Hmq, Hmn, Hqty.
  set (entry := OrderPlan.entry_price plan) in *.
  set (m := py_min (ve * SizeCalculator.risk_per_trade_pct self
                    / Qabs (entry - sl))
              (ve * SizerSpec.effective_leverage self leverage / entry)) in *.
  destruct (decay_of_range c2) as [Hd2 Hd21].
  destruct (decay_of_range c1) as [Hd1 Hd11].
  pose proof (decay_of_antitone c1 c2 Hc) as Hanti.
  destruct (decayed_quantity_bounds m _ _ Hd2 Hd21 Hmin Hmq)
    as (Hm & Hbase2 & _).
  assert (Hbase : (m * SizeCalculator.decay_of c2
                   <= m * SizeCalculator.decay_of c1)%Q) by nra.
  assert (Hbase1 : (0 <= m * SizeCalculator.decay_of c1)%Q) by lra.
  rewrite (calculate_qty_reaches_decay self plan ve c1 leverage spec sl);
    try assumption.
  2:{ intros H. unfold entry in HR. rewrite H in HR.
      exact (Qlt_irrefl _ HR). }
  cbv zeta. fold entry m.
  assert (H1 : Qltb (m * SizeCalculator.decay_of c1)
                 (MarketConstraints.min_qty
                    (SizeCalculator.market_constraints self)) = false).
  { apply Qltb_ge. lra. }
  assert (H2 : Qltb (m * SizeCalculator.decay_of c1 * entry)
                 (MarketConstraints.min_notional
                    (SizeCalculator.market_constraints self)) = false).
  { apply Qltb_ge. nra. }
  rewrite H1, H2. eexists. split; [reflexivity|]. split; [reflexivity|].
  cbn [SizeResult.qty]. rewrite Hqty.
  rewrite (Qabs_signed _ _ Hbase2), (Qabs_signed _ _ Hbase1). exact Hbase.
Qed.

Lemma sizer_decay_never_grows_witness :
  2 <= 4
  /\ SizeCalculator.calculate_qty Scenario.sizer Scenario.plan_va1 996 4 None
     = Ok (SizeResult.mk (996 # 400) None)
  /\ exists size1 : SizeResult.t,
       SizeCalculator.calculate_qty Scenario.sizer Scenario.plan_va1 996 2 None
       = Ok size1
       /\ SizeResult.reason size1 = None
       /\ (Qabs (996 # 400) <= Qabs (SizeResult.qty size1))%Q.
Proof.
  split; [lia|]. split; [reflexivity|].
  apply (sizer_decay_never_grows Scenario.sizer Scenario.plan_va1 996 2 4
           None (SizeResult.mk (996 # 400) None));
    [lia | reflexivity | reflexivity | discriminate | reflexivity].
Defined.

(** * Further properties of the strategy evaluator *)

Lemma py_slice_from_suffix {A : Type} (older recent : list A) (n : Z) :
  0 < n -> Z.of_nat (length recent) = n ->
  py_slice_from (- n) (older ++ recent)%list = recent.
Proof.
  intros Hn Hlen. unfold py_slice_from.
  assert (Hneg : (- n <? 0) = true) by (apply Z.ltb_lt; lia).
  rewrite Hneg, length_app.
  replace (Z.to_nat (Z.max 0 (Z.of_nat (length older + length recent) + - n)))
    with (length older) by lia.
  rewrite skipn_app, skipn_all, Nat.sub_diag. reflexivity.
Qed.

Lemma filter_app_eligible (f : Candle.t -> bool) (l a b : list Candle.t) :
  List.filter f l = (a ++ b)%list ->
  List.filter f (a ++ b)%list = (a ++ b)%list /\ List.filter f b = b.
Proof.
  intros H.
  assert (Hall : List.Forall (fun c => f c = true) (a ++ b)%list).
  { rewrite <- H. apply List.Forall_forall. intros c Hc.
    now apply List.filter_In in Hc. }
  split.
  - rewrite <- H. apply filter_filter_same.
  - apply List.Forall_app in Hall as [_ Hb].
    clear H. induction Hb as [|c b Hc Hb IH]; cbn; [reflexivity|].
    now rewrite Hc, IH.
Qed.

(** X13: the evaluator looks at the last N+1 eligible bars and nothing
    else.  For a lookback N >= 0, when the eligible bars (requested symbol,
    closed by as_of) end with the N+1 bars [recent], evaluating any candle
    sequence with those eligible bars gives what evaluating [recent] alone
    gives: older bars, bars of other symbols and bars still open have no
    influence. *)
Theorem evaluate_depends_on_last_window (self : VolatilityBreakoutStrategy.t)
    (va_id symbol : string) (as_of : datetime)
    (candles older recent : list Candle.t) :
  0 <= StrategyConfig.lookback_candles (VolatilityBreakoutStrategy.config self) ->
  List.filter (VolatilityBreakoutStrategy.eligible symbol as_of) candles
  = (older ++ recent)%list ->
  Z.of_nat (length recent)
  = StrategyConfig.lookback_candles (VolatilityBreakoutStrategy.config self) + 1 ->
  VolatilityBreakoutStrategy.evaluate self va_id symbol as_of candles
  = VolatilityBreakoutStrategy.evaluate self va_id symbol as_of recent.
Proof.
  intros HN Hclosed Hlen.
  destruct (filter_app_eligible _ _ _ _ Hclosed) as [Hall Hrecent].
  unfold VolatilityBreakoutStrategy.evaluate.
  rewrite Hclosed, Hrecent.
  set (N1 := StrategyConfig.lookback_candles
               (VolatilityBreakoutStrategy.config self) + 1) in *.
  rewrite (py_slice_from_suffix older recent N1) by lia.
  pose proof (py_slice_from_suffix [] recent N1) as Hall_recent.
  cbn [app] in Hall_recent. rewrite Hall_recent by lia.
  assert (H1 : (Z.of_nat (length (older ++ recent)%list) <? N1) = false).
  { apply Z.ltb_ge. rewrite length_app. lia. }
  assert (H2 : (Z.of_nat (length recent) <? N1) = false).
  { apply Z.ltb_ge. lia. }
  now rewrite H1, H2.
Qed.

Lemma evaluate_depends_on_last_window_witness :
  VolatilityBreakoutStrategy.evaluate Scenario.strategy "va1" "BTCUSDT"
    (Scenario.jan_1_2025 + Scenario.minutes 25)
    (Scenario.candles_scenario_1 Scenario.jan_1_2025
     ++ [Scenario.future_candle Scenario.jan_1_2025 103 110 102])%list
  = VolatilityBreakoutStrategy.evaluate Scenario.strategy "va1" "BTCUSDT"
      (Scenario.jan_1_2025 + Scenario.minutes 25)
      (tl (Scenario.candles_scenario_1 Scenario.jan_1_2025)
       ++ [Scenario.future_candle Scenario.jan_1_2025 103 110 102])%list.
Proof.
  apply (evaluate_depends_on_last_window Scenario.strategy "va1" "BTCUSDT"
           (Scenario.jan_1_2025 + Scenario.minutes 25) _
           [Scenario._candle "BTCUSDT"
              (Scenario.jan_1_2025 + Scenario.minutes 0) 100 101 99 100]
           (tl (Scenario.candles_scenario_1 Scenario.jan_1_2025)
            ++ [Scenario.future_candle Scenario.jan_1_2025 103 110 102])%list).
  - discriminate.
  - apply eligible_at_future_close.
  - reflexivity.
Defined.

(** What an emitted plan is made of. *)
Lemma evaluate_emitted (self : VolatilityBreakoutStrategy.t)
    (va_id symbol : string) (as_of : datetime) (candles : list Candle.t)
    (plan : OrderPlan.t) :
  VolatilityBreakoutStrategy.evaluate self va_id symbol as_of candles
  = Ok (Some plan) ->
  let cfg := VolatilityBreakoutStrategy.config self in
  let closed :=
    List.filter (VolatilityBreakoutStrategy.eligible symbol as_of) candles in
  let window :=
    py_slice_from (- (StrategyConfig.lookback_candles cfg + 1)) closed in
  let reference := py_init window in
  exists (trigger : Candle.t) (prev_high prev_low avg_range : Q),
    py_last window = Ok trigger
    /\ py_max_seq (map Candle.high reference) = Ok prev_high
    /\ py_min_seq (map Candle.low reference) = Ok prev_low
    /\ match OrderPlan.side plan with
       | BUY => (prev_high < Candle.close trigger)%Q
       | SELL => (Candle.close trigger < prev_low)%Q
       end
    /\ let sd :=
         py_max (StrategyConfig.min_stop_distance cfg)
           (avg_range * StrategyConfig.sl_range_mult cfg)%Q in
       let entry := Candle.close trigger in
       OrderPlan.va_id plan = va_id
       /\ OrderPlan.symbol plan = symbol
       /\ OrderPlan.entry_type plan = MARKET
       /\ OrderPlan.entry_price plan = entry
       /\ OrderPlan.risk_tag plan = StrategyConfig.risk_tag cfg
       /\ ((StrategyConfig.tp_mode cfg = "fixed"
            /\ OrderPlan.stop_loss plan
               = Some (StopLossSpec.mk "fixed"
                         (Some match OrderPlan.side plan with
                               | BUY => (entry - sd)%Q
                               | SELL => (entry + sd)%Q
                               end) None)
            /\ OrderPlan.take_profit plan
               = Some (TakeProfitSpec.mk
                         match OrderPlan.side plan with
                         | BUY =>
                             (entry + StrategyConfig.fixed_tp_r cfg * sd)%Q
                         | SELL =>
                             (entry - StrategyConfig.fixed_tp_r cfg * sd)%Q
                         end))
           \/ (StrategyConfig.tp_mode cfg <> "fixed"
               /\ OrderPlan.stop_loss plan
                  = Some (StopLossSpec.mk "trailing" None (Some sd))
               /\ OrderPlan.take_profit plan = None)).
Proof.
  unfold VolatilityBreakoutStrategy.evaluate. cbv zeta.
  destruct (_ <? _); [discriminate|].
  destruct (py_last _) as [trigger|]; cbn [mbind result_bind]; [|discriminate].
  destruct (py_max_seq _) as [prev_high|]; cbn [mbind result_bind];
    [|discriminate].
  destruct (py_min_seq _) as [prev_low|]; cbn [mbind result_bind];
    [|discriminate].
  intros H. exists trigger, prev_high, prev_low.
  destruct (Qltb prev_high (Candle.close trigger)) eqn:Hbuy.
  - destruct (py_div _ _) as [avg_range|]; cbn [mbind result_bind] in H;
      [|discriminate].
    exists avg_range. do 3 (split; [reflexivity|]).
    apply Qltb_lt in Hbuy.
    destruct (String.eqb_spec
                (StrategyConfig.tp_mode (VolatilityBreakoutStrategy.config self))
                "fixed") as [Hmode|Hmode];
      injection H as <-; cbn; (split; [exact Hbuy|]);
      repeat (split; [reflexivity|]); [left | right]; now repeat split.
  - destruct (Qltb (Candle.close trigger) prev_low) eqn:Hsell; [|discriminate].
    destruct (py_div _ _) as [avg_range|]; cbn [mbind result_bind] in H;
      [|discriminate].
    exists avg_range. do 3 (split; [reflexivity|]).
    apply Qltb_lt in Hsell.
    destruct (String.eqb_spec
                (StrategyConfig.tp_mode (VolatilityBreakoutStrategy.config self))
                "fixed") as [Hmode|Hmode];
      injection H as <-; cbn; (split; [exact Hsell|]);
      repeat (split; [reflexivity|]); [left | right]; now repeat split.
Qed.

(** * What a rejection reason says *)

Lemma fail_if_fail (b : bool) (s reason : string) :
  ReviewSpec.fail_if b s = ReviewSpec.Fail (Some reason) ->
  b = true /\ s = reason.
Proof. destruct b; cbn; [|discriminate]. intros H. now injection H. Qed.

(** The cases of a rejection: which condition held for which reason. *)
Lemma rejection_reason_cases (self : RiskManager.t) (plan : OrderPlan.t)
    (now : datetime) (reserve : bool) (st : VaState.t) (reason : string) :
  RiskManager._va self !! OrderPlan.va_id plan = Some st ->
  fst (RiskManager.review_orderplan self plan now reserve)
  = Ok (ReviewResult.mk false (Some reason) None) ->
  let st' := RiskManager._roll_day self st now in
  let cfg := RiskManager.config self in
  let key := (OrderPlan.va_id plan, OrderPlan.symbol plan) in
  (reason = "kill_switch" /\ VaState.kill_switch st' = true)
  \/ (reason = "stop_loss_required" /\ OrderPlan.stop_loss plan = None)
  \/ (reason = "take_profit_required_for_fixed"
      /\ OrderPlan.take_profit plan = None
      /\ exists spec : StopLossSpec.t,
           OrderPlan.stop_loss plan = Some spec
           /\ StopLossSpec.kind spec = "fixed")
  \/ (reason = "cooldown_active"
      /\ exists until : datetime,
           RiskManager._blocked_until self !! key = Some until /\ now < until)
  \/ (reason = "max_daily_loss"
      /\ (0 < RiskConfig.max_daily_loss cfg)%Q
      /\ (RiskConfig.max_daily_loss cfg <= - VaState.daily_pnl st')%Q)
  \/ (reason = "max_trades_per_day"
      /\ RiskConfig.max_trades_per_day cfg <= VaState.daily_trades st')
  \/ (reason = "symbol_owned_by_other_va"
      /\ exists owner : string,
           RiskManager._symbol_owner self !! OrderPlan.symbol plan = Some owner
           /\ owner <> OrderPlan.va_id plan)
  \/ (reason = "opposing_exposure_not_allowed"
      /\ exists (p : Position.t) (sd : Side),
           RiskManager._positions self !! key = Some p
           /\ Position.side p = Some sd /\ sd <> OrderPlan.side plan)
  \/ (reason = "net_exposure_cap"
      /\ exists size : SizeResult.t,
           SizeCalculator.calculate_qty (RiskManager._sizer self) plan
             (VaState.virtual_equity st') (VaState.consecutive_losses st') None
           = Ok size
           /\ RiskManager._would_breach_symbol_exposure_cap self
                (OrderPlan.symbol plan)
                (Qabs (SizeResult.qty size) * OrderPlan.entry_price plan)
              = true)
  \/ (exists size : SizeResult.t,
        SizeCalculator.calculate_qty (RiskManager._sizer self) plan
          (VaState.virtual_equity st') (VaState.consecutive_losses st') None
        = Ok size
        /\ (SizeResult.qty size == 0)%Q
        /\ SizeResult.reason size = Some reason).
Proof.
  intros Hva Hr st' cfg key.
  rewrite (review_orderplan_answer self plan now reserve st Hva) in Hr.
  cbn [fst] in Hr. fold st' in Hr. unfold ReviewSpec.answer in Hr.
  set (self' := ReviewSpec.rolled self (OrderPlan.va_id plan) st now) in *.
  destruct (ReviewSpec.first_failing _) as [|r|e] eqn:Hff.
  { destruct (ReviewSpec.sized self' st' plan); cbn in Hr; discriminate. }
  2:{ discriminate. }
  injection Hr as ->.
  apply first_failing_in in Hff; [|discriminate].
  unfold ReviewSpec.risk_checks in Hff.
  rewrite check_opposing_exposure_code, check_net_exposure_cap_code in Hff.
  cbn [In] in Hff.
  destruct Hff as [H|[H|[H|[H|[H|[H|[H|[H|[H|[H|[]]]]]]]]]]].
  - apply fail_if_fail in H as [Hb <-]. left. now split.
  - apply fail_if_fail in H as [Hb <-]. right. left. split; [reflexivity|].
    now apply bool_decide_eq_true in Hb.
  - apply fail_if_fail in H as [Hb <-]. do 2 right. left.
    split; [reflexivity|].
    destruct (OrderPlan.stop_loss plan) as [spec|]; [|discriminate].
    apply andb_true_iff in Hb as [Hk Ht].
    apply bool_decide_eq_true in Hk, Ht. eauto.
  - apply fail_if_fail in H as [Hb <-]. do 3 right. left.
    split; [reflexivity|].
    change (RiskManager._blocked_until self') with
      (RiskManager._blocked_until self) in Hb.
    fold key in Hb. fold key.
    destruct (RiskManager._blocked_until self !! key) as [until|];
      [|discriminate].
    apply bool_decide_eq_true in Hb. exists until. split; [reflexivity | lia].
  - apply fail_if_fail in H as [Hb <-]. do 4 right. left.
    split; [reflexivity|].
    apply andb_true_iff in Hb as [H1 H2].
    apply Qltb_lt in H1. apply Qleb_le in H2. now split.
  - apply fail_if_fail in H as [Hb <-]. do 5 right. left.
    split; [reflexivity|].
    apply bool_decide_eq_true in Hb.
    change (RiskManager.config self') with cfg in Hb. lia.
  - apply fail_if_fail in H as [Hb <-]. do 6 right. left.
    split; [reflexivity|].
    change (RiskManager._symbol_owner self') with
      (RiskManager._symbol_owner self) in Hb.
    destruct (RiskManager._symbol_owner self !! OrderPlan.symbol plan)
      as [owner|]; [|discriminate].
    apply bool_decide_eq_true in Hb. eauto.
  - apply fail_if_fail in H as [Hb <-]. do 7 right. left.
    split; [reflexivity|].
    change (RiskManager._positions self') with
      (RiskManager._positions self) in Hb.
    fold key in Hb. fold key.
    destruct (RiskManager._positions self !! key) as [p|]; [|discriminate].
    destruct (Position.side p) as [sd|] eqn:Hsd; [|discriminate].
    apply bool_decide_eq_true in Hb. eauto.
  - do 9 right. unfold ReviewSpec.check_sizer, ReviewSpec.sized in H.
    change (RiskManager._sizer self') with (RiskManager._sizer self) in H.
    destruct (SizeCalculator.calculate_qty _ _ _ _ _) as [size|];
      [|discriminate].
    destruct (Qeqb (SizeResult.qty size) 0) eqn:Hq; [|discriminate].
    injection H as H. exists size. split; [reflexivity|].
    split; [now apply Qeqb_eq | exact H].
  - do 8 right. left.
    unfold ReviewSpec.sized in H.
    change (RiskManager._sizer self') with (RiskManager._sizer self) in H.
    destruct (SizeCalculator.calculate_qty _ _ _ _ _) as [size|];
      [|discriminate].
    apply fail_if_fail in H as [Hb <-]. split; [reflexivity|].
    exists size. split; [reflexivity|]. exact Hb.
Qed.

(** X14: the reason of a rejection identifies the check that failed.  For
    a registered VA, a review rejected with one of the nine fixed reasons
    of the risk manager found that check's condition true on the rolled
    state; any other reason is the reason the sizer gave with a zero
    quantity. *)
Theorem rejection_reason_is_sound (self : RiskManager.t) (plan : OrderPlan.t)
    (now : datetime) (reserve : bool) (st : VaState.t) (reason : string) :
  RiskManager._va self !! OrderPlan.va_id plan = Some st ->
  fst (RiskManager.review_orderplan self plan now reserve)
  = Ok (ReviewResult.mk false (Some reason) None) ->
  let st' := RiskManager._roll_day self st now in
  let cfg := RiskManager.config self in
  let key := (OrderPlan.va_id plan, OrderPlan.symbol plan) in
  (reason = "kill_switch" /\ VaState.kill_switch st' = true)
  \/ (reason = "stop_loss_required" /\ OrderPlan.stop_loss plan = None)
  \/ (reason = "take_profit_required_for_fixed"
      /\ OrderPlan.take_profit plan = None
      /\ exists spec : StopLossSpec.t,
           OrderPlan.stop_loss plan = Some spec
           /\ StopLossSpec.kind spec = "fixed")
  \/ (reason = "cooldown_active"
      /\ exists until : datetime,
           RiskManager._blocked_until self !! key = Some until /\ now < until)
  \/ (reason = "max_daily_loss"
      /\ (0 < RiskConfig.max_daily_loss cfg)%Q
      /\ (RiskConfig.max_daily_loss cfg <= - VaState.daily_pnl st')%Q)
  \/ (reason = "max_trades_per_day"
      /\ RiskConfig.max_trades_per_day cfg <= VaState.daily_trades st')
  \/ (reason = "symbol_owned_by_other_va"
      /\ exists owner : string,
           RiskManager._symbol_owner self !! OrderPlan.symbol plan = Some owner
           /\ owner <> OrderPlan.va_id plan)
  \/ (reason = "opposing_exposure_not_allowed"
      /\ exists (p : Position.t) (sd : Side),
           RiskManager._positions self !! key = Some p
           /\ Position.side p = Some sd /\ sd <> OrderPlan.side plan)
  \/ (reason = "net_exposure_cap"
      /\ exists size : SizeResult.t,
           SizeCalculator.calculate_qty (RiskManager._sizer self) plan
             (VaState.virtual_equity st') (VaState.consecutive_losses st') None
           = Ok size
           /\ RiskManager._would_breach_symbol_exposure_cap self
                (OrderPlan.symbol plan)
                (Qabs (SizeResult.qty size) * OrderPlan.entry_price plan)
              = true)
  \/ (exists size : SizeResult.t,
        SizeCalculator.calculate_qty (RiskManager._sizer self) plan
          (VaState.virtual_equity st') (VaState.consecutive_losses st') None
        = Ok size
        /\ (SizeResult.qty size == 0)%Q
        /\ SizeResult.reason size = Some reason).
Proof.
  intros Hva Hr.
  exact (rejection_reason_cases self plan now reserve st reason Hva Hr).
Qed.

Lemma rejection_reason_is_sound_witness :
  RiskManager._va Scenario.rm_one_position !! "va1"
  = Some (VaState.mk 1000 1000 0 0 None 0 false)
  /\ fst (RiskManager.review_orderplan Scenario.rm_one_position
            Scenario.plan_va1 Scenario.before_midnight false)
     = Ok (ReviewResult.mk false (Some "symbol_owned_by_other_va") None)
  /\ exists owner : string,
       RiskManager._symbol_owner Scenario.rm_one_position !! "BTCUSDT"
       = Some owner
       /\ owner <> "va1".
Proof.
  split; [reflexivity|]. split; [reflexivity|].
  destruct (rejection_reason_is_sound Scenario.rm_one_position
              Scenario.plan_va1 Scenario.before_midnight false
              (VaState.mk 1000 1000 0 0 None 0 false)
              "symbol_owned_by_other_va" eq_refl eq_refl)
    as [[H _]|[[H _]|[[H _]|[[H _]|[[H _]|[[H _]|[[_ H]|[[H _]|[[H _]|H]]]]]]]]];
    try discriminate H.
  - exact H.
  - destruct H as (size & Hcalc & _ & Hreason).
    vm_compute in Hcalc. injection Hcalc as <-. discriminate Hreason.
Defined.

(** * What the strategy emits *)

Lemma py_max_ge (a b : Q) : (a <= py_max a b)%Q /\ (b <= py_max a b)%Q.
Proof.
  unfold py_max. destruct (Qltb a b) eqn:H.
  - apply Qltb_lt in H. split; lra.
  - apply Qltb_ge in H. split; lra.
Qed.

Lemma fold_py_max_ge (l : list Q) (x : Q) :
  (x <= fold_left py_max l x)%Q
  /\ Forall (fun y => (y <= fold_left py_max l x)%Q) l.
Proof.
  revert x. induction l as [|a l IH]; intros x; cbn [fold_left].
  - split; [lra | constructor].
  - destruct (IH (py_max x a)) as [H1 H2].
    destruct (py_max_ge x a) as [Hx Ha].
    split; [lra|]. constructor; [lra | exact H2].
Qed.

Lemma fold_py_min_le (l : list Q) (x : Q) :
  (fold_left py_min l x <= x)%Q
  /\ Forall (fun y => (fold_left py_min l x <= y)%Q) l.
Proof.
  revert x. induction l as [|a l IH]; intros x; cbn [fold_left].
  - split; [lra | constructor].
  - destruct (IH (py_min x a)) as [H1 H2].
    destruct (py_min_le x a) as [Hx Ha].
    split; [lra|]. constructor; [lra | exact H2].
Qed.

Lemma py_max_seq_ge (l : list Q) (m : Q) :
  py_max_seq l = Ok m -> Forall (fun y => (y <= m)%Q) l.
Proof.
  destruct l as [|x l]; cbn; [discriminate|]. intros H. injection H as <-.
  destruct (fold_py_max_ge l x). now constructor.
Qed.

Lemma py_min_seq_le (l : list Q) (m : Q) :
  py_min_seq l = Ok m -> Forall (fun y => (m <= y)%Q) l.
Proof.
  destruct l as [|x l]; cbn; [discriminate|]. intros H. injection H as <-.
  destruct (fold_py_min_le l x). now constructor.
Qed.

(** X15: a plan the strategy emits is a breakout with its stop on the
    losing side.  With min_stop_distance >= 0 and fixed_tp_r >= 0, the
    entry price of an emitted BUY plan is above the high of every
    reference bar (the eligible bars of the window but the last), that of a
    SELL plan below every reference low; the plan carries a stop-loss that
    resolves to a price not above the entry for BUY and not below it for
    SELL, and a take-profit, when there is one, lies on the other side. *)
Theorem emitted_plan_breakout_and_stop_side
    (self : VolatilityBreakoutStrategy.t) (va_id symbol : string)
    (as_of : datetime) (candles : list Candle.t) (plan : OrderPlan.t) :
  let cfg := VolatilityBreakoutStrategy.config self in
  let reference :=
    py_init
      (py_slice_from (- (StrategyConfig.lookback_candles cfg + 1))
         (List.filter (VolatilityBreakoutStrategy.eligible symbol as_of)
            candles)) in
  (0 <= StrategyConfig.min_stop_distance cfg)%Q ->
  (0 <= StrategyConfig.fixed_tp_r cfg)%Q ->
  VolatilityBreakoutStrategy.evaluate self va_id symbol as_of candles
  = Ok (Some plan) ->
  let entry := OrderPlan.entry_price plan in
  (exists (spec : StopLossSpec.t) (sl : Q),
     OrderPlan.stop_loss plan = Some spec
     /\ StopLossSpec.resolved_stop_price spec entry (OrderPlan.side plan)
        = Ok sl
     /\ match OrderPlan.side plan with
        | BUY => (sl <= entry)%Q
        | SELL => (entry <= sl)%Q
        end)
  /\ (forall tp : TakeProfitSpec.t,
        OrderPlan.take_profit plan = Some tp ->
        match OrderPlan.side plan with
        | BUY => (entry <= TakeProfitSpec.price tp)%Q
        | SELL => (TakeProfitSpec.price tp <= entry)%Q
        end)
  /\ match OrderPlan.side plan with
     | BUY => Forall (fun c => (Candle.high c < entry)%Q) reference
     | SELL => Forall (fun c => (entry < Candle.low c)%Q) reference
     end.
Proof.
  intros cfg reference Hmin Htp Hev entry.
  destruct (evaluate_emitted self va_id symbol as_of candles plan Hev)
    as (trigger & prev_high & prev_low & avg_range & _ & Hhigh & Hlow
        & Hside & _ & _ & _ & Hentry & _ & Hshape).
  fold cfg in Hshape, Hhigh, Hlow. fold reference in Hhigh, Hlow.
  unfold entry. rewrite Hentry.
  set (sd := py_max (StrategyConfig.min_stop_distance cfg)
               (avg_range * StrategyConfig.sl_range_mult cfg)%Q) in *.
  assert (Hsd : (0 <= sd)%Q).
  { destruct (py_max_ge (StrategyConfig.min_stop_distance cfg)
                (avg_range * StrategyConfig.sl_range_mult cfg)%Q) as [H _].
    unfold sd. lra. }
  assert (Hr : (0 <= StrategyConfig.fixed_tp_r cfg * sd)%Q)
    by (apply Qmult_le_0_compat; assumption).
  split; [|split].
  - destruct Hshape as [(_ & Hsl & _)|(_ & Hsl & _)]; rewrite Hsl.
    + eexists _, _. split; [reflexivity|]. split; [reflexivity|].
      destruct (OrderPlan.side plan); lra.
    + destruct (OrderPlan.side plan); eexists _, _;
        (split; [reflexivity|]); (split; [reflexivity|]); lra.
  - intros tp Htake.
    destruct Hshape as [(_ & _ & Ht)|(_ & _ & Ht)]; rewrite Ht in Htake;
      [|discriminate].
    injection Htake as <-. cbn [TakeProfitSpec.price].
    destruct (OrderPlan.side plan); lra.
  - destruct (OrderPlan.side plan).
    + apply py_max_seq_ge in Hhigh. rewrite Forall_fmap in Hhigh.
      eapply Forall_impl; [exact Hhigh|]. cbn. intros c Hc. lra.
    + apply py_min_seq_le in Hlow. rewrite Forall_fmap in Hlow.
      eapply Forall_impl; [exact Hlow|]. cbn. intros c Hc. lra.
Qed.

Lemma emitted_plan_breakout_and_stop_side_witness :
  let plan :=
    OrderPlan.mk "va1" "BTCUSDT" BUY MARKET 105 "vol_breakout_5m_closed"
      (Some (StopLossSpec.mk "fixed" (Some (307 # 3)%Q) None))
      (Some (TakeProfitSpec.mk (3286 # 30))) in
  VolatilityBreakoutStrategy.evaluate Scenario.strategy "va1" "BTCUSDT"
    (Scenario.jan_1_2025 + Scenario.minutes 20)
    (Scenario.candles_scenario_1 Scenario.jan_1_2025)
  = Ok (Some plan)
  /\ (exists (spec : StopLossSpec.t) (sl : Q),
        OrderPlan.stop_loss plan = Some spec
        /\ StopLossSpec.resolved_stop_price spec 105 BUY = Ok sl
        /\ (sl <= 105)%Q)
  /\ (forall tp : TakeProfitSpec.t,
        OrderPlan.take_profit plan = Some tp ->
        (105 <= TakeProfitSpec.price tp)%Q)
  /\ Forall (fun c => (Candle.high c < 105)%Q)
       (firstn 3 (Scenario.candles_scenario_1 Scenario.jan_1_2025)).
Proof.
  intros plan.
  assert (Hev : VolatilityBreakoutStrategy.evaluate Scenario.strategy "va1"
                  "BTCUSDT" (Scenario.jan_1_2025 + Scenario.minutes 20)
                  (Scenario.candles_scenario_1 Scenario.jan_1_2025)
                = Ok (Some plan)) by (vm_compute; reflexivity).
  split; [exact Hev|].
  assert (Hmin : (0 <= StrategyConfig.min_stop_distance
                        (VolatilityBreakoutStrategy.config Scenario.strategy))%Q)
    by (vm_compute; discriminate).
  assert (Htp : (0 <= StrategyConfig.fixed_tp_r
                       (VolatilityBreakoutStrategy.config Scenario.strategy))%Q)
    by (vm_compute; discriminate).
  exact (emitted_plan_breakout_and_stop_side Scenario.strategy "va1" "BTCUSDT"
           (Scenario.jan_1_2025 + Scenario.minutes 20)
           (Scenario.candles_scenario_1 Scenario.jan_1_2025) plan
           Hmin Htp Hev).
Defined.

(** X16: what the strategy emits, the risk manager can review.  An emitted
    plan with a non-zero entry price, reviewed for a registered VA, gets a
    ReviewResult (no exception), and is never rejected for a missing
    stop-loss or a missing take-profit. *)
Theorem emitted_plan_is_reviewable
    (strategy : VolatilityBreakoutStrategy.t) (va_id symbol : string)
    (as_of : datetime) (candles : list Candle.t) (plan : OrderPlan.t)
    (self : RiskManager.t) (st : VaState.t) (now : datetime)
    (reserve : bool) :
  VolatilityBreakoutStrategy.evaluate strategy va_id symbol as_of candles
  = Ok (Some plan) ->
  ~ (OrderPlan.entry_price plan == 0)%Q ->
  RiskManager._va self !! va_id = Some st ->
  exists r : ReviewResult.t,
    fst (RiskManager.review_orderplan self plan now reserve) = Ok r
    /\ ReviewResult.reason r <> Some "stop_loss_required"
    /\ ReviewResult.reason r <> Some "take_profit_required_for_fixed".
Proof.
  intros Hev Hentry Hva.
  destruct (evaluate_emitted strategy va_id symbol as_of candles plan Hev)
    as (trigger & prev_high & prev_low & avg_range & _ & _ & _
        & _ & Hid & _ & _ & _ & _ & Hshape).
  rewrite <- Hid in Hva.
  assert (Hsizable : sizable plan).
  { split; [exact Hentry|]. intros spec Hspec.
    destruct Hshape as [(_ & Hsl & _)|(_ & Hsl & _)];
      rewrite Hsl in Hspec; injection Hspec as <-.
    - eexists. reflexivity.
    - destruct (OrderPlan.side plan); eexists; reflexivity. }
  destruct (review_orderplan_returns self plan now reserve st Hva Hsizable)
    as [r Hr].
  exists r. split; [exact Hr|].
  destruct r as [approved reason size].
  destruct reason as [reason|]; [|split; discriminate].
  destruct approved.
  { (* an approval carries no reason *)
    exfalso.
    rewrite (review_orderplan_answer self plan now reserve st Hva) in Hr.
    cbn [fst] in Hr. unfold ReviewSpec.answer in Hr.
    destruct (ReviewSpec.first_failing _); [|discriminate..].
    destruct (ReviewSpec.sized _ _ plan); cbn in Hr; discriminate. }
  destruct size as [size|].
  { exfalso.
    rewrite (review_orderplan_answer self plan now reserve st Hva) in Hr.
    cbn [fst] in Hr. unfold ReviewSpec.answer in Hr.
    destruct (ReviewSpec.first_failing _); [|discriminate..].
    destruct (ReviewSpec.sized _ _ plan); cbn in Hr; discriminate. }
  cbn [ReviewResult.reason].
  pose proof (rejection_reason_cases self plan now reserve st reason Hva Hr)
    as Hsound.
  cbv zeta in Hsound.
  split; intros Heq; injection Heq as ->.
  - destruct Hsound
      as [[H _]|[[_ H]|[[H _]|[[H _]|[[H _]|[[H _]|[[H _]|[[H _]|[[H _]|H]]]]]]]]];
      try discriminate H.
    + destruct Hshape as [(_ & Hsl & _)|(_ & Hsl & _)]; congruence.
    + destruct H as (sz & Hcalc & _ & Hreason).
      destruct (calculate_qty_reason _ _ _ _ _ _ Hcalc) as [Hn|[_ Hn]];
        rewrite Hreason in Hn; [discriminate|].
      cbn in Hn. intuition discriminate.
  - destruct Hsound
      as [[H _]|[[H _]|[[_ H]|[[H _]|[[H _]|[[H _]|[[H _]|[[H _]|[[H _]|H]]]]]]]]];
      try discriminate H.
    + destruct H as (Htake & spec & Hsl & Hkind).
      destruct Hshape as [(_ & _ & Ht)|(_ & Hsl' & _)]; [congruence|].
      rewrite Hsl' in Hsl. injection Hsl as <-. discriminate Hkind.
    + destruct H as (sz & Hcalc & _ & Hreason).
      destruct (calculate_qty_reason _ _ _ _ _ _ Hcalc) as [Hn|[_ Hn]];
        rewrite Hreason in Hn; [discriminate|].
      cbn in Hn. intuition discriminate.
Qed.

Lemma emitted_plan_is_reviewable_witness :
  exists r : ReviewResult.t,
    fst (RiskManager.review_orderplan Scenario.rm_daily_reset
           (OrderPlan.mk "va1" "BTCUSDT" BUY MARKET 105
              "vol_breakout_5m_closed"
              (Some (StopLossSpec.mk "fixed" (Some (307 # 3)%Q) None))
              (Some (TakeProfitSpec.mk (3286 # 30))))
           (Scenario.jan_1_2025 + Scenario.minutes 20) true)
    = Ok r
    /\ ReviewResult.reason r <> Some "stop_loss_required"
    /\ ReviewResult.reason r <> Some "take_profit_required_for_fixed".
Proof.
  refine (emitted_plan_is_reviewable Scenario.strategy "va1" "BTCUSDT"
            (Scenario.jan_1_2025 + Scenario.minutes 20)
            (Scenario.candles_scenario_1 Scenario.jan_1_2025) _
            Scenario.rm_daily_reset (VaState.mk 1000 1000 0 0 None 0 false)
            (Scenario.jan_1_2025 + Scenario.minutes 20) true _ _ _).
  - vm_compute. reflexivity.
  - vm_compute. discriminate.
  - reflexivity.
Defined.

(** X17: a lookback of zero bars breaks the evaluator.  With
    lookback_candles = 0, as soon as one candle of the symbol has closed
    by as_of the reference window is empty and evaluate raises ValueError
    (max of an empty sequence); with no such candle it returns None. *)
Theorem evaluate_zero_lookback_raises
    (self : VolatilityBreakoutStrategy.t) (va_id symbol : string)
    (as_of : datetime) (candles : list Candle.t) :
  StrategyConfig.lookback_candles (VolatilityBreakoutStrategy.config self)
  = 0 ->
  VolatilityBreakoutStrategy.evaluate self va_id symbol as_of candles
  = if existsb (VolatilityBreakoutStrategy.eligible symbol as_of) candles
    then Raise ValueError
    else Ok None.
Proof.
  intros H0. unfold VolatilityBreakoutStrategy.evaluate. cbv zeta.
  rewrite H0. change (0 + 1) with 1.
  set (closed := List.filter _ candles).
  assert (Hex : existsb (VolatilityBreakoutStrategy.eligible symbol as_of)
                  candles
                = negb (Z.of_nat (length closed) <? 1)).
  { unfold closed. clear H0.
    induction candles as [|c candles IH]; [reflexivity|].
    cbn [existsb List.filter].
    destruct (VolatilityBreakoutStrategy.eligible symbol as_of c).
    - cbn [orb length]. symmetry. apply negb_true_iff, Z.ltb_ge. lia.
    - cbn [orb]. exact IH. }
  rewrite Hex.
  destruct (Z.of_nat (length closed) <? 1) eqn:Hlen; [reflexivity|].
  cbn [negb]. apply Z.ltb_ge in Hlen.
  assert (Hwin : exists x, py_slice_from (Z.opp 1) closed = [x]).
  { unfold py_slice_from. change (Z.opp 1 <? 0) with true. cbv iota zeta.
    destruct (@exists_last _ closed) as (l' & x & Hl).
    { intros ->. cbn in Hlen. lia. }
    exists x. rewrite Hl, length_app. cbn [length].
    match goal with
    | |- drop ?n _ = _ => replace n with (length l') by lia
    end.
    rewrite drop_app_length. reflexivity. }
  destruct Hwin as [x ->]. reflexivity.
Qed.

Lemma evaluate_zero_lookback_raises_witness :
  VolatilityBreakoutStrategy.evaluate
    (VolatilityBreakoutStrategy.mk
       (StrategyConfig.mk 0 "fixed" (17 # 10) 1 0 "vol_breakout_5m_closed"))
    "va1" "BTCUSDT" (Scenario.jan_1_2025 + Scenario.minutes 20)
    (Scenario.candles_scenario_1 Scenario.jan_1_2025)
  = Raise ValueError.
Proof.
  exact (evaluate_zero_lookback_raises
           (VolatilityBreakoutStrategy.mk
              (StrategyConfig.mk 0 "fixed" (17 # 10) 1 0
                 "vol_breakout_5m_closed"))
           "va1" "BTCUSDT" (Scenario.jan_1_2025 + Scenario.minutes 20)
           (Scenario.candles_scenario_1 Scenario.jan_1_2025) eq_refl).
Defined.

(** * Panic-close calls and incidents of the reconciler *)

Section ReconcilerTraces.
Import reconciliation.
Context {X : Type} (self : PositionReconciler.t X).








End ReconcilerTraces.

(** X19: a position found without a stop-loss is protected or closed.
    _enforce_sl_attachment ends in one of two ways: attach_stop_loss, called
    for the first open entry order of the symbol with a stop 2% off that
    order's price, returned True, and nothing was recorded; or
    panic_close_position was called, last and once, for the position's
    symbol, side and full quantity, and one incident naming the symbol was
    filed.  This holds whatever the adapter returns or raises. *)
Theorem enforce_sl_attachment_attached_or_closed {X : Type}
    (self : reconciliation.PositionReconciler.t X)
    (position : reconciliation.ExchangePosition.t)
    (w : reconciliation.world X) :
  let client := reconciliation.PositionReconciler.client self in
  let symbol := reconciliation.ExchangePosition.symbol position in
  let side := reconciliation.ExchangePosition.side position in
  let qty := reconciliation.ExchangePosition.qty position in
  let w' :=
    reconciliation.PositionReconciler._enforce_sl_attachment self position w
  in
  (exists (orders : list reconciliation.ExchangeOrder.t) (x1 : X)
          (entry_order : reconciliation.ExchangeOrder.t),
     reconciliation.BybitClient.get_open_orders client (Some symbol)
       (reconciliation.exchange w)
     = (reconciliation.Returns orders, x1)
     /\ head (List.filter reconciliation.PositionReconciler.is_entry_order
                orders)
        = Some entry_order
     /\ let sl_price :=
          if String.eqb side "Buy"
          then (reconciliation.ExchangeOrder.price entry_order
                * (98 # 100))%Q
          else (reconciliation.ExchangeOrder.price entry_order
                * (102 # 100))%Q in
        fst (reconciliation.BybitClient.attach_stop_loss client symbol
               (reconciliation.ExchangeOrder.order_id entry_order)
               sl_price x1)
        = reconciliation.Returns true
        /\ reconciliation.calls w'
           = (reconciliation.calls w
              ++ [reconciliation.call_get_open_orders (Some symbol);
                  reconciliation.call_attach_stop_loss symbol
                    (reconciliation.ExchangeOrder.order_id entry_order)
                    sl_price])%list
        /\ reconciliation.db w' = reconciliation.db w)
  \/ (exists (before : list reconciliation.Call)
             (incident : reconciliation.IncidentRecord.t),
        reconciliation.calls w'
        = (reconciliation.calls w ++ before
           ++ [reconciliation.call_panic_close_position symbol side qty])%list
        /\ panic_close_symbols before = []
        /\ reconciliation.Database.incidents (reconciliation.db w')
           = (reconciliation.Database.incidents (reconciliation.db w)
              ++ [incident])%list
        /\ reconciliation.IncidentRecord.symbol incident = Some symbol).
Proof.
  intros client symbol side qty w'. subst w'.
  assert (Hclose : forall (before : list reconciliation.Call)
                     (w1 : reconciliation.world X),
             reconciliation.calls w1
             = (reconciliation.calls w ++ before)%list ->
             reconciliation.db w1 = reconciliation.db w ->
             panic_close_symbols before = [] ->
             exists (before : list reconciliation.Call)
                    (incident : reconciliation.IncidentRecord.t),
               reconciliation.calls
                 (reconciliation.PositionReconciler._panic_close
                    self position w1)
               = (reconciliation.calls w ++ before
                  ++ [reconciliation.call_panic_close_position
                        symbol side qty])%list
               /\ panic_close_symbols before = []
               /\ reconciliation.Database.incidents
                    (reconciliation.db
                       (reconciliation.PositionReconciler._panic_close
                          self position w1))
                  = (reconciliation.Database.incidents (reconciliation.db w)
                     ++ [incident])%list
               /\ reconciliation.IncidentRecord.symbol incident
                  = Some symbol).
  { intros before w1 Hcalls Hdb Hbefore.
    unfold reconciliation.PositionReconciler._panic_close.
    destruct (reconciliation.BybitClient.panic_close_position _ _ _ _ _)
      as [r x].
    exists before.
    destruct r as [close_order|e]; eexists; cbn;
      rewrite Hcalls, Hdb, <- app_assoc; repeat split; exact Hbefore. }
  unfold reconciliation.PositionReconciler._enforce_sl_attachment.
  fold client symbol side.
  destruct (reconciliation.BybitClient.get_open_orders client (Some symbol)
              (reconciliation.exchange w)) as [r x1] eqn:Hopen.
  destruct r as [orders|e].
  2:{ right. eapply Hclose; [cbn; reflexivity | reflexivity..]. }
  destruct (List.filter _ orders) as [|entry_order rest] eqn:Hentry.
  { right. eapply Hclose; [cbn; reflexivity | reflexivity..]. }
  destruct (reconciliation.BybitClient.attach_stop_loss client symbol _ _ _)
    as [r2 x2] eqn:Hattach.
  destruct r2 as [[|]|e].
  - left. exists orders, x1, entry_order.
    split; [reflexivity|]. rewrite Hentry. split; [reflexivity|].
    cbv zeta. cbn [reconciliation.PositionReconciler.log
                   reconciliation.exchange] in Hattach.
    rewrite Hattach. split; [reflexivity|].
    cbn. rewrite <- app_assoc. split; reflexivity.
  - right. eapply Hclose;
      [cbn; rewrite <- app_assoc; reflexivity | reflexivity..].
  - right. eapply Hclose;
      [cbn; rewrite <- app_assoc; reflexivity | reflexivity..].
Qed.

(** * The signal router: one symbol per VA *)

(** After any call the VA is bound, and the answer says whether it is
    bound to the symbol asked for. *)
Lemma can_trade_symbol_binds (self : SignalRouter.t)
    (positions : list execution.Position.t) (va_id symbol : string) :
  exists bound : string,
    SignalRouter.get_active_symbol
      (snd (SignalRouter.can_trade_symbol self positions va_id symbol)) va_id
    = Some bound
    /\ fst (fst (SignalRouter.can_trade_symbol self positions va_id symbol))
       = String.eqb bound symbol.
Proof.
  unfold SignalRouter.can_trade_symbol, SignalRouter.get_active_symbol.
  destruct (SignalRouter._va_symbol_map self !! va_id) as [s|] eqn:Hmap.
  - exists s. destruct (String.eqb s symbol); cbn; auto.
  - destruct positions as [|p ps].
    + exists symbol. cbn. rewrite lookup_insert_eq, String.eqb_refl. auto.
    + exists (execution.Position.symbol p).
      destruct (String.eqb _ symbol); cbn; rewrite lookup_insert_eq; auto.
Qed.

Lemma can_trade_symbol_bound (self : SignalRouter.t)
    (positions : list execution.Position.t) (va_id symbol bound : string) :
  SignalRouter._va_symbol_map self !! va_id = Some bound ->
  SignalRouter.can_trade_symbol self positions va_id symbol
  = ((String.eqb bound symbol,
      if String.eqb bound symbol then "OK"
      else "VA already trading " ++ bound ++ ", cannot trade " ++ symbol),
     self).
Proof.
  intros Hmap. unfold SignalRouter.can_trade_symbol. rewrite Hmap.
  destruct (String.eqb bound symbol); reflexivity.
Qed.

Lemma router_step_keeps_binding (self : SignalRouter.t) (c : router_call)
    (va_id bound : string) :
  SignalRouter._va_symbol_map self !! va_id = Some bound ->
  releases va_id c = false ->
  SignalRouter._va_symbol_map (router_step self c) !! va_id = Some bound.
Proof.
  intros Hmap Hc. destruct c as [positions v symbol|v]; cbn in *.
  - destruct (decide (v = va_id)) as [->|Hne].
    + now rewrite (can_trade_symbol_bound _ _ _ _ _ Hmap).
    + unfold SignalRouter.can_trade_symbol.
      destruct (SignalRouter._va_symbol_map self !! v) as [s|].
      * destruct (String.eqb s symbol); exact Hmap.
      * destruct positions as [|p ps]; cbn.
        -- now rewrite lookup_insert_ne.
        -- destruct (String.eqb _ symbol); cbn;
             now rewrite lookup_insert_ne.
  - apply String.eqb_neq in Hc. now rewrite lookup_delete_ne.
Qed.

(** X20: one symbol per VA until it is released.  Once can_trade_symbol
    has answered True for a VA and a symbol, then after any further calls
    of the router that do not release that VA, whatever the database
    holds, can_trade_symbol answers True for that VA exactly for the same
    symbol. *)
Theorem one_symbol_per_va_until_release (self : SignalRouter.t)
    (positions positions' : list execution.Position.t)
    (va_id symbol symbol' : string) (calls : list router_call) :
  fst (fst (SignalRouter.can_trade_symbol self positions va_id symbol))
  = true ->
  Forall (fun c => releases va_id c = false) calls ->
  let self' :=
    router_run
      (snd (SignalRouter.can_trade_symbol self positions va_id symbol))
      calls in
  SignalRouter.get_active_symbol self' va_id = Some symbol
  /\ (fst (fst (SignalRouter.can_trade_symbol self' positions' va_id
                  symbol'))
      = true
      <-> symbol' = symbol).
Proof.
  intros Hok Hcalls self'.
  destruct (can_trade_symbol_binds self positions va_id symbol)
    as (bound & Hbound & Hans).
  rewrite Hok in Hans. symmetry in Hans. apply String.eqb_eq in Hans.
  subst bound.
  assert (Hmap : SignalRouter._va_symbol_map self' !! va_id = Some symbol).
  { unfold self', router_run. revert Hbound.
    generalize (snd (SignalRouter.can_trade_symbol self positions va_id
                       symbol)).
    induction Hcalls as [|c calls Hc _ IH]; intros r Hr; [exact Hr|].
    cbn [fold_left]. apply IH.
    now apply router_step_keeps_binding. }
  split; [exact Hmap|].
  rewrite (can_trade_symbol_bound _ _ _ _ _ Hmap). cbn [fst].
  rewrite String.eqb_eq. split; congruence.
Qed.

Lemma one_symbol_per_va_until_release_witness :
  SignalRouter.get_active_symbol
    (router_run
       (snd (SignalRouter.can_trade_symbol (SignalRouter.mk ∅) [] "va1"
               "BTCUSDT"))
       [call_can_trade_symbol [] "va2" "ETHUSDT";
        call_release_symbol "va2";
        call_can_trade_symbol [] "va1" "ETHUSDT"]) "va1"
  = Some "BTCUSDT"
  /\ (fst (fst (SignalRouter.can_trade_symbol
                  (router_run
                     (snd (SignalRouter.can_trade_symbol
                             (SignalRouter.mk ∅) [] "va1" "BTCUSDT"))
                     [call_can_trade_symbol [] "va2" "ETHUSDT";
                      call_release_symbol "va2";
                      call_can_trade_symbol [] "va1" "ETHUSDT"])
                  [] "va1" "ETHUSDT"))
      = true
      <-> "ETHUSDT" = "BTCUSDT").
Proof.
  apply (one_symbol_per_va_until_release (SignalRouter.mk ∅) [] []
           "va1" "BTCUSDT" "ETHUSDT").
  - reflexivity.
  - repeat constructor.
Defined.

(** * The governor's books *)

Section GovernorBooks.
Import storage.
Variable utcnow : nat -> datetime.











End GovernorBooks.





(** * The governor's cooldown *)

(** X23: the cooldown of the governor, from start to end.  With
    max_loss_cooldown > 0, when can_trade finds a VA outside cooldown with
    at least max_loss_cooldown consecutive losses it answers False and
    puts the VA in cooldown until cooldown_duration_seconds after the
    clock reading, keeping the loss count.  From then on, as long as the
    row is as can_trade left it: a can_trade that reads the clock before
    that instant answers False and writes nothing; one that reads it at or
    after that instant answers True, and leaves the VA out of cooldown
    with a loss count of zero. *)
Theorem cooldown_from_start_to_end (self : engine.Governor.t)
    (w : engine.world) (va_id : string) (a : storage.VirtualAccount.t) :
  accounts_keyed (engine.db w) ->
  storage.SQLiteManager.virtual_accounts (engine.db w) !! va_id = Some a ->
  storage.VirtualAccount.in_cooldown a = false ->
  0 < Settings.max_loss_cooldown (engine.Governor.settings self) ->
  Settings.max_loss_cooldown (engine.Governor.settings self)
  <= storage.VirtualAccount.consecutive_losses a ->
  let until :=
    engine.Governor.utcnow self (engine.clock_reads w)
    + Settings.cooldown_duration_seconds (engine.Governor.settings self)
      * 1000000 in
  let w1 := snd (engine.Governor.can_trade self w va_id) in
  fst (fst (engine.Governor.can_trade self w va_id)) = false
  /\ (exists a1 : storage.VirtualAccount.t,
        storage.SQLiteManager.virtual_accounts (engine.db w1) !! va_id
        = Some a1
        /\ storage.VirtualAccount.in_cooldown a1 = true
        /\ storage.VirtualAccount.cooldown_until a1 = Some until
        /\ storage.VirtualAccount.consecutive_losses a1
           = storage.VirtualAccount.consecutive_losses a)
  /\ forall w2 : engine.world,
       engine.db w2 = engine.db w1 ->
       let now := engine.Governor.utcnow self (engine.clock_reads w2) in
       let w3 := snd (engine.Governor.can_trade self w2 va_id) in
       (now < until ->
        fst (fst (engine.Governor.can_trade self w2 va_id)) = false
        /\ engine.db w3 = engine.db w2)
       /\ (until <= now ->
           fst (fst (engine.Governor.can_trade self w2 va_id)) = true
           /\ exists a3 : storage.VirtualAccount.t,
                storage.SQLiteManager.virtual_accounts (engine.db w3)
                !! va_id = Some a3
                /\ storage.VirtualAccount.in_cooldown a3 = false
                /\ storage.VirtualAccount.cooldown_until a3 = None
                /\ storage.VirtualAccount.consecutive_losses a3 = 0).
Proof.
  intros Hk Ha Hcool Hpos Hlosses until w1.
  pose proof (Hk _ _ Ha) as Hid.
  assert (Hfirst : engine.Governor.can_trade self w va_id
                   = engine.Governor.check_losses self w a).
  { unfold engine.Governor.can_trade,
      storage.SQLiteManager.get_virtual_account.
    rewrite Ha, Hcool. reflexivity. }
  assert (Hleb : (Settings.max_loss_cooldown (engine.Governor.settings self)
                  <=? storage.VirtualAccount.consecutive_losses a) = true)
    by now apply Z.leb_le.
  assert (Hw1 : exists a1 : storage.VirtualAccount.t,
             storage.SQLiteManager.virtual_accounts (engine.db w1) !! va_id
             = Some a1
             /\ storage.VirtualAccount.in_cooldown a1 = true
             /\ storage.VirtualAccount.cooldown_until a1 = Some until
             /\ storage.VirtualAccount.consecutive_losses a1
                = storage.VirtualAccount.consecutive_losses a
             /\ storage.VirtualAccount.va_id a1 = va_id).
  { unfold w1. rewrite Hfirst. unfold engine.Governor.check_losses.
    rewrite Hleb. cbn [snd].
    unfold engine.Governor._activate_cooldown,
      engine.update_virtual_account,
      storage.SQLiteManager.update_virtual_account.
    cbn. rewrite Hid, Ha. cbn. rewrite lookup_insert_eq.
    eexists. split; [reflexivity|]. cbn. auto. }
  split.
  { rewrite Hfirst. unfold engine.Governor.check_losses.
    now rewrite Hleb. }
  destruct Hw1 as (a1 & Ha1 & Hin1 & Huntil1 & Hlosses1 & Hid1).
  split.
  { exists a1. auto. }
  intros w2 Hdb now w3.
  assert (Hz : (Settings.max_loss_cooldown (engine.Governor.settings self)
                <=? 0) = false) by (apply Z.leb_gt; lia).
  unfold w3, engine.Governor.can_trade,
    storage.SQLiteManager.get_virtual_account.
  rewrite Hdb, Ha1, Hin1, Huntil1. fold now.
  split.
  - intros Hbefore. apply Z.ltb_lt in Hbefore. rewrite Hbefore.
    cbn [fst snd engine.db]. split; reflexivity.
  - intros Hafter. apply Z.ltb_ge in Hafter. rewrite Hafter.
    unfold engine.Governor.check_losses.
    cbn [storage.VirtualAccount.consecutive_losses]. rewrite Hz.
    cbn [fst snd]. split; [reflexivity|].
    unfold engine.update_virtual_account,
      storage.SQLiteManager.update_virtual_account.
    cbn [engine.db storage.VirtualAccount.va_id].
    rewrite Hid1, Ha1.
    cbn [storage.SQLiteManager.virtual_accounts].
    rewrite lookup_insert_eq. eexists. split; [reflexivity|]. cbn. auto.
Qed.

Lemma cooldown_from_start_to_end_witness :
  fst (fst (engine.Governor.can_trade EngineScenario.governor
              EngineScenario.world_after_losses "va1"))
  = false
  /\ exists a1 : storage.VirtualAccount.t,
       storage.SQLiteManager.virtual_accounts
         (engine.db
            (snd (engine.Governor.can_trade EngineScenario.governor
                    EngineScenario.world_after_losses "va1")))
       !! "va1" = Some a1
       /\ storage.VirtualAccount.in_cooldown a1 = true
       /\ storage.VirtualAccount.cooldown_until a1
          = Some (Scenario.jan_1_2025 + 300 * 1000000)
       /\ storage.VirtualAccount.consecutive_losses a1 = 3.
Proof.
  assert (Hk : accounts_keyed (engine.db EngineScenario.world_after_losses)).
  { intros k a H. unfold EngineScenario.world_after_losses in H.
    cbn [engine.db storage.SQLiteManager.virtual_accounts] in H.
    apply lookup_singleton_Some in H as [<- <-]. reflexivity. }
  destruct (cooldown_from_start_to_end EngineScenario.governor
              EngineScenario.world_after_losses "va1"
              EngineScenario.account_after_losses Hk eq_refl eq_refl)
    as (Hanswer & Hrow & _).
  - reflexivity.
  - discriminate.
  - split; [exact Hanswer | exact Hrow].
Defined.

(** * Fills and the rows of [positions] *)

Lemma rows_follow_refl (db : storage.SQLiteManager.t) :
  position_ids_bounded db -> rows_follow db db.
Proof.
  intros Hb. split; [lia|]. intros k p Hp. split; [exact (Hb _ _ Hp)|].
  left. exists p. repeat split. exact Hp.
Qed.

Lemma rows_follow_trans (db1 db2 db3 : storage.SQLiteManager.t) :
  rows_follow db1 db2 -> rows_follow db2 db3 -> rows_follow db1 db3.
Proof.
  intros [Hs1 H1] [Hs2 H2]. split; [lia|].
  intros k p3 Hp3. destruct (H2 _ _ Hp3) as [Hb [(p2 & Hp2 & Hsame)|Hnew]].
  - split; [exact Hb|].
    destruct (H1 _ _ Hp2) as [_ [(p1 & Hp1 & Hsame1)|(i & Hi & Hlt)]].
    + left. exists p1. split; [exact Hp1|].
      destruct Hsame as (? & ? & ?), Hsame1 as (? & ? & ?).
      repeat split; congruence.
    + right. exists i. destruct Hsame as (Hid & _). split; congruence.
  - split; [exact Hb|]. right. destruct Hnew as (i & Hi & Hlt).
    exists i. split; [exact Hi | lia].
Qed.

Lemma rows_follow_bounded (db db' : storage.SQLiteManager.t) :
  rows_follow db db' -> position_ids_bounded db'.
Proof. intros [_ H] k p Hp. exact (proj1 (H _ _ Hp)). Qed.

(** Statements that leave [positions] alone. *)
Lemma rows_follow_same (db db' : storage.SQLiteManager.t) :
  position_ids_bounded db ->
  storage.SQLiteManager.positions db' = storage.SQLiteManager.positions db ->
  storage.SQLiteManager.positions_seq db'
  = storage.SQLiteManager.positions_seq db ->
  rows_follow db db'.
Proof.
  intros Hb Hp Hs. split; [lia|]. intros k p. rewrite Hp, Hs. intros Hk.
  split; [exact (Hb _ _ Hk)|]. left. exists p. repeat split. exact Hk.
Qed.

Lemma update_position_follows (db : storage.SQLiteManager.t)
    (position : execution.Position.t) (now : datetime) :
  position_ids_bounded db ->
  rows_follow db (storage.SQLiteManager.update_position db position now).
Proof.
  intros Hb. unfold storage.SQLiteManager.update_position.
  destruct (storage.SQLiteManager.positions db !! _) as [row|] eqn:Hrow;
    [|now apply rows_follow_refl].
  split; [cbn; lia|]. intros k p'. cbn. rewrite lookup_insert_Some.
  intros [[<- <-]|[_ Hk]].
  - cbn. split; [exact (Hb _ _ Hrow)|]. left. exists row.
    repeat split. exact Hrow.
  - split; [exact (Hb _ _ Hk)|]. left. exists p'. repeat split. exact Hk.
Qed.

Lemma delete_position_follows (db : storage.SQLiteManager.t)
    (va_id symbol : string) :
  position_ids_bounded db ->
  rows_follow db (storage.SQLiteManager.delete_position db va_id symbol).
Proof.
  intros Hb. split; [cbn; lia|]. intros k p'. cbn.
  rewrite lookup_delete_Some. intros [_ Hk].
  split; [exact (Hb _ _ Hk)|]. left. exists p'. repeat split. exact Hk.
Qed.

Lemma create_position_follows (db : storage.SQLiteManager.t)
    (position : execution.Position.t) :
  position_ids_bounded db ->
  rows_follow db (storage.SQLiteManager.create_position db position).
Proof.
  intros Hb. split; [cbn; lia|]. intros k p'. cbn.
  rewrite lookup_insert_Some. intros [[<- <-]|[_ Hk]].
  - cbn. split; [eexists; split; [reflexivity | lia]|].
    right. eexists. split; [reflexivity | lia].
  - destruct (Hb _ _ Hk) as (i & Hi & Hle).
    split; [exists i; split; [exact Hi | lia]|].
    left. exists p'. repeat split. exact Hk.
Qed.

Lemma record_trade_result_positions (utcnow : nat -> datetime)
    (w : engine.world) (va_id : string) (pnl : float) :
  storage.SQLiteManager.positions
    (engine.db (engine.Governor.record_trade_result utcnow w va_id pnl))
  = storage.SQLiteManager.positions (engine.db w)
  /\ storage.SQLiteManager.positions_seq
       (engine.db (engine.Governor.record_trade_result utcnow w va_id pnl))
     = storage.SQLiteManager.positions_seq (engine.db w)
  /\ storage.SQLiteManager.trades
       (engine.db (engine.Governor.record_trade_result utcnow w va_id pnl))
     = storage.SQLiteManager.trades (engine.db w).
Proof.
  unfold engine.Governor.record_trade_result.
  destruct (storage.SQLiteManager.get_virtual_account _ _); [|auto].
  destruct (Qltb 0 pnl); cbn;
    unfold storage.SQLiteManager.update_virtual_account;
    destruct (_ !! _); cbn; auto.
Qed.

Lemma fill_step_follows (self : engine.OrderManager.t) (w : engine.world)
    (order : storage.Order.t) :
  position_ids_bounded (engine.db w) ->
  rows_follow (engine.db w) (engine.db (fill_step self w order)).
Proof.
  intros Hb. unfold fill_step, engine.OrderManager._process_fill.
  destruct (_ || _).
  - unfold engine.OrderManager._close_position.
    destruct (storage.SQLiteManager.get_position _ _ _) as [position|];
      [|now apply rows_follow_refl].
    destruct (storage.Order.price order) as [price|];
      [|now apply rows_follow_refl].
    cbv zeta.
    set (pnl := if Qltb 0 (execution.Position.quantity position)
                then _ else _).
    set (w1 := engine.OrderManager.log_trade self w order _ _ _).
    set (position' := execution.Position.mk _ _ _ _ _ _ _ _ _ _ _).
    set (w2 := if Qltb _ _ then _ else _).
    assert (H1 : rows_follow (engine.db w) (engine.db w1))
      by (apply rows_follow_same; [exact Hb | reflexivity..]).
    pose proof (rows_follow_bounded _ _ H1) as Hb1.
    assert (H2 : rows_follow (engine.db w1) (engine.db w2)).
    { unfold w2.
      destruct (Qltb (Qabs (execution.Position.quantity position')) _).
      - now apply delete_position_follows.
      - now apply update_position_follows. }
    eapply rows_follow_trans; [exact H1|].
    eapply rows_follow_trans; [exact H2|].
    destruct (record_trade_result_positions
                (engine.OrderManager.utcnow self) w2
                (storage.Order.va_id order) pnl) as (Hp & Hs & _).
    apply rows_follow_same;
      [exact (rows_follow_bounded _ _ H2) | exact Hp | exact Hs].
  - unfold engine.OrderManager._open_or_add_position.
    destruct (storage.SQLiteManager.get_position _ _ _) as [position|].
    + destruct (storage.Order.price order) as [price|];
        [|now apply rows_follow_refl].
      destruct (Qeqb _ 0); [now apply rows_follow_refl|].
      cbv zeta.
      set (position' := execution.Position.mk _ _ _ _ _ _ _ _ _ _ _).
      pose proof (update_position_follows (engine.db w) position'
                    (engine.OrderManager.utcnow self (engine.clock_reads w))
                    Hb) as H1.
      eapply rows_follow_trans; [exact H1|].
      apply rows_follow_same; [|reflexivity..].
      exact (rows_follow_bounded _ _ H1).
    + destruct (storage.Order.price order) as [price|].
      2:{ destruct (engine.OrderManager.truthy _);
            now apply rows_follow_refl. }
      cbv zeta.
      set (position' := execution.Position.mk _ _ _ _ _ _ _ _ _ _ _).
      pose proof (create_position_follows (engine.db w) position' Hb) as H1.
      eapply rows_follow_trans; [exact H1|].
      apply rows_follow_same; [|reflexivity..].
      exact (rows_follow_bounded _ _ H1).
Qed.

Lemma run_fills_follows (self : engine.OrderManager.t) (w : engine.world)
    (fills : list storage.Order.t) :
  position_ids_bounded (engine.db w) ->
  rows_follow (engine.db w) (engine.db (run_fills self w fills)).
Proof.
  intros Hb. induction fills as [|order fills IH] using rev_ind.
  - now apply rows_follow_refl.
  - unfold run_fills in *. rewrite fold_left_app. cbn [fold_left].
    eapply rows_follow_trans; [exact IH|].
    apply fill_step_follows. exact (rows_follow_bounded _ _ IH).
Qed.

(** X24: the entry price of a position is the price it was opened at.
    _open_or_add_position averages the entry price when a fill adds to a
    position, but update_position does not write that column: after any
    fills, a row of positions that is still the row it was (same id) has
    the entry_price and opened_at it had. *)
Theorem entry_price_never_rewritten (self : engine.OrderManager.t)
    (w : engine.world) (fills : list storage.Order.t)
    (k : string * string) (p p' : execution.Position.t) :
  position_ids_bounded (engine.db w) ->
  storage.SQLiteManager.positions (engine.db w) !! k = Some p ->
  storage.SQLiteManager.positions (engine.db (run_fills self w fills)) !! k
  = Some p' ->
  execution.Position.id p' = execution.Position.id p ->
  execution.Position.entry_price p' = execution.Position.entry_price p
  /\ execution.Position.opened_at p' = execution.Position.opened_at p.
Proof.
  intros Hb Hp Hp' Hid.
  destruct (run_fills_follows self w fills Hb) as [_ Hrows].
  destruct (Hrows _ _ Hp') as [_ [(p0 & Hp0 & _ & He & Ho)|(i & Hi & Hlt)]].
  - rewrite Hp in Hp0. injection Hp0 as <-. now split.
  - destruct (Hb _ _ Hp) as (j & Hj & Hle). rewrite Hid, Hj in Hi.
    injection Hi as ->. lia.
Qed.

Lemma scenario_long_position :
  storage.SQLiteManager.positions (engine.db EngineScenario.world_long)
  = {[("va1", "BTCUSDT") :=
        execution.Position.mk (Some 1) "va1" "BTCUSDT" 5 100 100 0 0
          (Some (100 * (1 - 2 / 100))%Q)
          (EngineScenario.utcnow 0) (EngineScenario.utcnow 1)]}.
Proof. reflexivity. Qed.

Lemma scenario_long_ids_bounded :
  position_ids_bounded (engine.db EngineScenario.world_long).
Proof.
  intros k p. rewrite scenario_long_position.
  intros H. apply lookup_singleton_Some in H as [<- <-].
  exists 1. split; [reflexivity|]. vm_compute. discriminate.
Qed.

Lemma scenario_long_positions_keyed :
  positions_keyed (engine.db EngineScenario.world_long).
Proof.
  intros k p. rewrite scenario_long_position.
  intros H. apply lookup_singleton_Some in H as [<- <-]. reflexivity.
Qed.

Lemma entry_price_never_rewritten_witness :
  exists p' : execution.Position.t,
    storage.SQLiteManager.positions
      (engine.db
         (run_fills EngineScenario.manager EngineScenario.world_long
            [EngineScenario.order_at 110 storage.BUY 5 false]))
    !! ("va1", "BTCUSDT") = Some p'
    /\ execution.Position.quantity p' = 10%Q
    /\ execution.Position.entry_price p' = 100%Q
    /\ execution.Position.opened_at p' = EngineScenario.utcnow 0.
Proof.
  eexists. split; [vm_compute; reflexivity|]. split; [reflexivity|].
  refine (entry_price_never_rewritten EngineScenario.manager
            EngineScenario.world_long
            [EngineScenario.order_at 110 storage.BUY 5 false]
            ("va1", "BTCUSDT")
            (execution.Position.mk (Some 1) "va1" "BTCUSDT" 5 100 100 0 0
               (Some (100 * (1 - 2 / 100))%Q)
               (EngineScenario.utcnow 0) (EngineScenario.utcnow 1))
            _ scenario_long_ids_bounded _ _ _).
  - rewrite scenario_long_position. apply lookup_singleton_eq.
  - vm_compute. reflexivity.
  - reflexivity.
Defined.

(** * Closing fills *)

Lemma py_min_ge (a b c : Q) :
  (c <= a)%Q -> (c <= b)%Q -> (c <= py_min a b)%Q.
Proof. intros Ha Hb. unfold py_min. now destruct (Qltb b a). Qed.

(** X25: a closing fill shrinks the position and never flips it.  A fill
    of at least zero on the side opposite to the position (SELL on a long,
    BUY on a short) closes min(filled, |quantity|): the trade logged has
    that quantity and the pnl of the closed part against the entry price;
    what is filled beyond the position is dropped.  Afterwards the row is
    gone when less than 0.0001 is left, and otherwise holds what is left,
    on the same side, with the pnl added to realized_pnl. *)
Theorem closing_fill_never_flips (self : engine.OrderManager.t)
    (w : engine.world) (order : storage.Order.t)
    (p : execution.Position.t) (price : float) :
  positions_keyed (engine.db w) ->
  storage.SQLiteManager.get_position (engine.db w)
    (storage.Order.va_id order) (storage.Order.symbol order) = Some p ->
  engine.OrderManager._is_closing_order order p = true ->
  storage.Order.price order = Some price ->
  (0 <= storage.Order.filled_quantity order)%Q ->
  let q := execution.Position.quantity p in
  let close_quantity :=
    py_min (storage.Order.filled_quantity order) (Qabs q) in
  let pnl :=
    if Qltb 0 q
    then ((price - execution.Position.entry_price p) * close_quantity)%Q
    else ((execution.Position.entry_price p - price) * close_quantity)%Q in
  exists w' : engine.world,
    engine.OrderManager._process_fill self w order = engine.Done w'
    /\ (exists t : storage.Trade.t,
          storage.SQLiteManager.trades (engine.db w')
          = (storage.SQLiteManager.trades (engine.db w) ++ [t])%list
          /\ storage.Trade.va_id t = storage.Order.va_id order
          /\ storage.Trade.quantity t = close_quantity
          /\ storage.Trade.price t = price
          /\ storage.Trade.pnl t = pnl)
    /\ (0 <= close_quantity <= Qabs q)%Q
    /\ match storage.SQLiteManager.positions (engine.db w')
             !! (storage.Order.va_id order, storage.Order.symbol order)
       with
       | None => (Qabs q - close_quantity < 1 # 10000)%Q
       | Some p' =>
           (Qabs (execution.Position.quantity p')
            == Qabs q - close_quantity)%Q
           /\ (1 # 10000 <= Qabs (execution.Position.quantity p'))%Q
           /\ ((0 < q)%Q <-> (0 < execution.Position.quantity p')%Q)
           /\ execution.Position.realized_pnl p'
              = (execution.Position.realized_pnl p + pnl)%Q
           /\ execution.Position.entry_price p'
              = execution.Position.entry_price p
       end.
Proof.
  intros Hk Hget Hclosing Hprice Hfilled q close_quantity pnl.
  assert (Hcq : (0 <= close_quantity <= Qabs q)%Q).
  { split.
    - apply py_min_ge; [exact Hfilled | apply Qabs_nonneg].
    - apply py_min_le. }
  unfold engine.OrderManager._process_fill.
  rewrite Hget, Hclosing, orb_true_r.
  unfold engine.OrderManager._close_position. rewrite Hprice. cbv zeta.
  fold q. fold close_quantity. fold pnl.
  set (w1 := engine.OrderManager.log_trade self w order close_quantity
               price pnl).
  set (position' := execution.Position.mk _ _ _ _ _ _ _ _ _ _ _).
  set (w2 := if Qltb _ _ then _ else _).
  eexists. split; [reflexivity|].
  destruct (record_trade_result_positions (engine.OrderManager.utcnow self)
              w2 (storage.Order.va_id order) pnl) as (Hp & _ & Ht).
  rewrite Hp, Ht.
  (* what is left, and on which side *)
  assert (Hleft : (Qabs (execution.Position.quantity position')
                   == Qabs q - close_quantity)%Q
                  /\ ((0 < q)%Q
                      -> (0 <= execution.Position.quantity position')%Q)
                  /\ (~ (0 < q)%Q
                      -> (execution.Position.quantity position' <= 0)%Q)).
  { unfold position'. cbn [execution.Position.quantity]. fold q.
    unfold engine.OrderManager._is_closing_order in Hclosing.
    destruct (storage.Order.side order).
    - (* BUY on a short *)
      apply Qltb_lt in Hclosing. fold q in Hclosing.
      assert (Habs : (Qabs q == - q)%Q) by (apply Qabs_neg; lra).
      assert (Hle : (q + close_quantity <= 0)%Q) by lra.
      split; [rewrite (Qabs_neg _ Hle); lra|]. split; intros; lra.
    - (* SELL on a long *)
      apply Qltb_lt in Hclosing. fold q in Hclosing.
      assert (Habs : (Qabs q == q)%Q) by (apply Qabs_pos; lra).
      assert (Hge : (0 <= q + - close_quantity)%Q) by lra.
      split; [rewrite (Qabs_pos _ Hge); lra|]. split; intros; lra. }
  destruct Hleft as (Habs' & Hlong & Hshort).
  assert (Htrades : storage.SQLiteManager.trades (engine.db w2)
                    = storage.SQLiteManager.trades (engine.db w1)).
  { unfold w2. destruct (Qltb (Qabs _) _); [reflexivity|].
    unfold engine.update_position, storage.SQLiteManager.update_position.
    cbn. destruct (_ !! _); reflexivity. }
  split.
  { rewrite Htrades. eexists. split; [reflexivity|]. cbn. auto. }
  split; [exact Hcq|].
  pose proof (Hk _ _ Hget) as Hkey.
  unfold w2.
  destruct (Qltb (Qabs (execution.Position.quantity position')) (1 # 10000))
    eqn:Hsmall.
  - apply Qltb_lt in Hsmall. cbn. rewrite lookup_delete_eq. lra.
  - apply Qltb_ge in Hsmall.
    unfold engine.update_position, storage.SQLiteManager.update_position.
    cbn [engine.db execution.Position.va_id execution.Position.symbol
         position'].
    unfold position' at 1 2. cbn [execution.Position.va_id
                                  execution.Position.symbol].
    rewrite Hkey.
    change (storage.SQLiteManager.positions (engine.db w1))
      with (storage.SQLiteManager.positions (engine.db w)).
    unfold storage.SQLiteManager.get_position in Hget. rewrite Hget.
    cbn [storage.SQLiteManager.positions]. rewrite lookup_insert_eq.
    cbn [execution.Position.quantity execution.Position.realized_pnl
         execution.Position.entry_price].
    split; [exact Habs'|]. split; [exact Hsmall|].
    split; [|split; reflexivity].
    assert (Hnz : ~ (execution.Position.quantity position' == 0)%Q).
    { intros Hz. rewrite Hz in Hsmall. vm_compute in Hsmall.
      now apply Hsmall. }
    split.
    + intros Hq. specialize (Hlong Hq).
      change (0 < execution.Position.quantity position')%Q. lra.
    + intros Hq'. change (0 < execution.Position.quantity position')%Q in Hq'.
      apply Qnot_le_lt. intros Hle.
      assert (Hnq : ~ (0 < q)%Q) by lra. specialize (Hshort Hnq). lra.
Qed.

Lemma closing_fill_never_flips_witness :
  exists w' : engine.world,
    engine.OrderManager._process_fill EngineScenario.manager
      EngineScenario.world_long
      (EngineScenario.order_at 110 storage.SELL 8 false)
    = engine.Done w'
    /\ exists t : storage.Trade.t,
         storage.SQLiteManager.trades (engine.db w')
         = (storage.SQLiteManager.trades
              (engine.db EngineScenario.world_long) ++ [t])%list
         /\ storage.Trade.va_id t = "va1"
         /\ storage.Trade.quantity t = py_min 8 (Qabs 5)
         /\ storage.Trade.price t = 110%Q
         /\ storage.Trade.pnl t = ((110 - 100) * py_min 8 (Qabs 5))%Q.
Proof.
  destruct (closing_fill_never_flips EngineScenario.manager
              EngineScenario.world_long
              (EngineScenario.order_at 110 storage.SELL 8 false)
              (execution.Position.mk (Some 1) "va1" "BTCUSDT" 5 100 100 0 0
                 (Some (100 * (1 - 2 / 100))%Q)
                 (EngineScenario.utcnow 0) (EngineScenario.utcnow 1))
              110 scenario_long_positions_keyed)
    as (w' & Hdone & Htrade & _).
  - unfold storage.SQLiteManager.get_position.
    rewrite scenario_long_position. apply lookup_singleton_eq.
  - reflexivity.
  - reflexivity.
  - vm_compute. discriminate.
  - exists w'. split; [exact Hdone | exact Htrade].
Defined.

(** X26: a reduce-only fill is not checked against the side of the
    position.  A reduce-only BUY filled for more than zero on a long
    position of at least 0.0001 goes through _close_position: it logs a
    trade with the pnl of a close of min(filled, quantity) at the fill
    price, and leaves the position larger by that quantity. *)
Theorem reduce_only_same_side_grows (self : engine.OrderManager.t)
    (w : engine.world) (order : storage.Order.t)
    (p : execution.Position.t) (price : float) :
  positions_keyed (engine.db w) ->
  storage.SQLiteManager.get_position (engine.db w)
    (storage.Order.va_id order) (storage.Order.symbol order) = Some p ->
  storage.Order.reduce_only order = true ->
  storage.Order.side order = storage.BUY ->
  storage.Order.price order = Some price ->
  (0 < storage.Order.filled_quantity order)%Q ->
  (1 # 10000 <= execution.Position.quantity p)%Q ->
  let q := execution.Position.quantity p in
  let close_quantity := py_min (storage.Order.filled_quantity order) q in
  exists (w' : engine.world) (p' : execution.Position.t)
         (t : storage.Trade.t),
    engine.OrderManager._process_fill self w order = engine.Done w'
    /\ storage.SQLiteManager.positions (engine.db w')
       !! (storage.Order.va_id order, storage.Order.symbol order) = Some p'
    /\ (execution.Position.quantity p' == q + close_quantity)%Q
    /\ (q < execution.Position.quantity p')%Q
    /\ storage.SQLiteManager.trades (engine.db w')
       = (storage.SQLiteManager.trades (engine.db w) ++ [t])%list
    /\ (storage.Trade.pnl t
        == (price - execution.Position.entry_price p) * close_quantity)%Q.
Proof.
  intros Hk Hget Hreduce Hside Hprice Hfilled Hq q close_quantity.
  fold q in Hq.
  assert (Habs : (Qabs q == q)%Q) by (apply Qabs_pos; lra).
  assert (Hlong : Qltb 0 q = true) by (apply Qltb_lt; lra).
  assert (Hcq : (0 < py_min (storage.Order.filled_quantity order) (Qabs q))%Q
                /\ (py_min (storage.Order.filled_quantity order) (Qabs q)
                    == close_quantity)%Q).
  { unfold close_quantity, py_min.
    destruct (Qltb (Qabs q) _) eqn:H1; destruct (Qltb q _) eqn:H2;
      try apply Qltb_lt in H1; try apply Qltb_ge in H1;
      try apply Qltb_lt in H2; try apply Qltb_ge in H2; split; lra. }
  destruct Hcq as [Hcq_pos Hcq_eq].
  unfold engine.OrderManager._process_fill.
  rewrite Hget, Hreduce. cbn [orb].
  unfold engine.OrderManager._close_position. rewrite Hprice. cbv zeta.
  fold q. rewrite Hlong, Hside.
  set (cq := py_min (storage.Order.filled_quantity order) (Qabs q)) in *.
  set (pnl := ((price - execution.Position.entry_price p) * cq)%Q).
  set (w1 := engine.OrderManager.log_trade self w order cq price pnl).
  set (position' := execution.Position.mk _ _ _ _ _ _ _ _ _ _ _).
  assert (Hbig : Qltb (Qabs (execution.Position.quantity position'))
                   (1 # 10000) = false).
  { apply Qltb_ge. unfold position'. cbn [execution.Position.quantity].
    rewrite Qabs_pos; lra. }
  rewrite Hbig.
  set (w2 := engine.update_position _ w1 position').
  destruct (record_trade_result_positions (engine.OrderManager.utcnow self)
              w2 (storage.Order.va_id order) pnl) as (Hp & _ & Ht).
  pose proof (Hk _ _ Hget) as Hkey.
  unfold storage.SQLiteManager.get_position in Hget.
  assert (Hw2 : storage.SQLiteManager.positions (engine.db w2)
                !! (storage.Order.va_id order, storage.Order.symbol order)
                = Some (execution.Position.mk (execution.Position.id p)
                          (execution.Position.va_id p)
                          (execution.Position.symbol p)
                          (q + cq)%Q
                          (execution.Position.entry_price p)
                          (execution.Position.current_price p)
                          (execution.Position.unrealized_pnl p)
                          (execution.Position.realized_pnl p + pnl)%Q
                          (execution.Position.stop_loss_price p)
                          (execution.Position.opened_at p)
                          (engine.OrderManager.utcnow self
                             (engine.clock_reads w1)))
                /\ storage.SQLiteManager.trades (engine.db w2)
                   = storage.SQLiteManager.trades (engine.db w1)).
  { unfold w2, engine.update_position,
      storage.SQLiteManager.update_position.
    cbn [engine.db execution.Position.va_id execution.Position.symbol
         position'].
    unfold position' at 1 2 3. cbn [execution.Position.va_id
                                    execution.Position.symbol].
    rewrite Hkey.
    change (storage.SQLiteManager.positions (engine.db w1))
      with (storage.SQLiteManager.positions (engine.db w)).
    rewrite Hget. cbn [storage.SQLiteManager.positions
                       storage.SQLiteManager.trades].
    rewrite lookup_insert_eq. split; reflexivity. }
  destruct Hw2 as [Hrow Htrades].
  eexists _, _, _. split; [reflexivity|].
  rewrite Hp, Ht, Htrades. split; [exact Hrow|].
  cbn [execution.Position.quantity].
  split; [lra|]. split; [lra|]. split; [reflexivity|].
  cbn [storage.Trade.pnl]. unfold pnl. now rewrite Hcq_eq.
Qed.

Lemma reduce_only_same_side_grows_witness :
  exists (w' : engine.world) (p' : execution.Position.t)
         (t : storage.Trade.t),
    engine.OrderManager._process_fill EngineScenario.manager
      EngineScenario.world_long
      (EngineScenario.order_at 110 storage.BUY 3 true)
    = engine.Done w'
    /\ storage.SQLiteManager.positions (engine.db w')
       !! ("va1", "BTCUSDT") = Some p'
    /\ (execution.Position.quantity p' == 5 + py_min 3 5)%Q
    /\ (5 < execution.Position.quantity p')%Q
    /\ storage.SQLiteManager.trades (engine.db w')
       = (storage.SQLiteManager.trades
            (engine.db EngineScenario.world_long) ++ [t])%list
    /\ (storage.Trade.pnl t == (110 - 100) * py_min 3 5)%Q.
Proof.
  refine (reduce_only_same_side_grows EngineScenario.manager
            EngineScenario.world_long
            (EngineScenario.order_at 110 storage.BUY 3 true)
            (execution.Position.mk (Some 1) "va1" "BTCUSDT" 5 100 100 0 0
               (Some (100 * (1 - 2 / 100))%Q)
               (EngineScenario.utcnow 0) (EngineScenario.utcnow 1))
            110 scenario_long_positions_keyed _ eq_refl eq_refl eq_refl
            _ _).
  - unfold storage.SQLiteManager.get_position.
    rewrite scenario_long_position. apply lookup_singleton_eq.
  - vm_compute. reflexivity.
  - vm_compute. discriminate.
Defined.

(** * When a fill raises *)

(** X27: when a fill with a price raises.  For an order that has a price,
    _process_fill raises in two cases only: AttributeError, when the order
    is reduce-only and the VA holds no position in the symbol; and
    ZeroDivisionError, when the order is not reduce-only, adds to a
    position, and the size of the position plus the filled quantity is
    zero.  Every other fill goes through. *)
Theorem process_fill_raises_iff (self : engine.OrderManager.t)
    (w : engine.world) (order : storage.Order.t) (price : float)
    (e : engine.fault) :
  storage.Order.price order = Some price ->
  let position :=
    storage.SQLiteManager.get_position (engine.db w)
      (storage.Order.va_id order) (storage.Order.symbol order) in
  engine.OrderManager._process_fill self w order = engine.Fails e
  <-> (storage.Order.reduce_only order = true
       /\ position = None
       /\ e = engine.AttributeError)
      \/ (storage.Order.reduce_only order = false
          /\ e = engine.ZeroDivisionError
          /\ exists p : execution.Position.t,
               position = Some p
               /\ engine.OrderManager._is_closing_order order p = false
               /\ (Qabs (execution.Position.quantity p)
                   + storage.Order.filled_quantity order == 0)%Q).
Proof.
  intros Hprice position.
  unfold engine.OrderManager._process_fill. fold position.
  destruct (storage.Order.reduce_only order) eqn:Hreduce; cbn [orb].
  - unfold engine.OrderManager._close_position. rewrite Hprice.
    destruct position as [p|].
    + split; [discriminate|].
      intros [(_ & H & _)|(H & _)]; discriminate.
    + split.
      * intros H. injection H as <-. now left.
      * intros [(_ & _ & ->)|(H & _)]; [reflexivity | discriminate].
  - destruct position as [p|].
    + destruct (engine.OrderManager._is_closing_order order p) eqn:Hclosing.
      * unfold engine.OrderManager._close_position. rewrite Hprice.
        split; [discriminate|].
        intros [(H & _)|(_ & _ & p0 & Hp0 & H & _)]; [discriminate|].
        injection Hp0 as <-. congruence.
      * unfold engine.OrderManager._open_or_add_position. rewrite Hprice.
        destruct (Qeqb _ 0) eqn:Hzero.
        -- apply Qeqb_eq in Hzero. split.
           ++ intros H. injection H as <-. right.
              split; [reflexivity|]. split; [reflexivity|].
              exists p. auto.
           ++ intros [(H & _)|(_ & -> & _)]; [discriminate | reflexivity].
        -- apply Qeqb_neq in Hzero. split; [discriminate|].
           intros [(H & _)|(_ & _ & p0 & Hp0 & _ & Hz)]; [discriminate|].
           injection Hp0 as <-. contradiction.
    + unfold engine.OrderManager._open_or_add_position. rewrite Hprice.
      split; [discriminate|].
      intros [(H & _)|(_ & _ & p0 & Hp0 & _)]; discriminate.
Qed.

Lemma process_fill_raises_iff_witness :
  engine.OrderManager._process_fill EngineScenario.manager
    EngineScenario.world
    (EngineScenario.order_at 100 storage.SELL 5 true)
  = engine.Fails engine.AttributeError.
Proof.
  apply (process_fill_raises_iff EngineScenario.manager EngineScenario.world
           (EngineScenario.order_at 100 storage.SELL 5 true) 100
           engine.AttributeError eq_refl).
  left. repeat split.
Defined.

(** * Trades and accounts *)







(** * The default stop-loss *)

(** X29: the stop-loss a position gets by default, and when it triggers.
    A fill at a price above zero, for more than zero, that opens a
    position and brings no stop-loss of its own gives the position the
    stop _calculate_stop_loss computes.  With stop_loss_percentage between
    0 and 100, check_stop_loss then triggers on a long exactly at prices
    at or below price * (1 - pct/100), and not at all when the percentage
    is 100 (the stop is 0.0, which counts as no stop); on a short,
    exactly at prices at or above price * (1 + pct/100). *)
Theorem default_stop_loss_triggers (self : engine.OrderManager.t)
    (w : engine.world) (order : storage.Order.t) (price x : float) :
  let pct :=
    Settings.stop_loss_percentage (engine.OrderManager.settings self) in
  storage.SQLiteManager.get_position (engine.db w)
    (storage.Order.va_id order) (storage.Order.symbol order) = None ->
  storage.Order.reduce_only order = false ->
  storage.Order.price order = Some price ->
  engine.OrderManager.truthy (storage.Order.stop_loss_price order) = false ->
  (0 < price)%Q ->
  (0 < storage.Order.filled_quantity order)%Q ->
  (0 <= pct <= 100)%Q ->
  exists (w' : engine.world) (p : execution.Position.t),
    engine.OrderManager._process_fill self w order = engine.Done w'
    /\ storage.SQLiteManager.positions (engine.db w')
       !! (storage.Order.va_id order, storage.Order.symbol order) = Some p
    /\ execution.Position.entry_price p = price
    /\ execution.Position.stop_loss_price p
       = Some (engine.OrderManager._calculate_stop_loss self price
                 (storage.Order.side order))
    /\ (execution.OrderManager.check_stop_loss p x = true
        <-> match storage.Order.side order with
            | storage.BUY =>
                (pct < 100)%Q /\ (x <= price * (1 - pct / 100))%Q
            | storage.SELL => (price * (1 + pct / 100) <= x)%Q
            end).
Proof.
  intros pct Hget Hreduce Hprice Hstop Hpos Hfilled Hpct.
  unfold engine.OrderManager._process_fill.
  rewrite Hget, Hreduce. cbn [orb].
  unfold engine.OrderManager._open_or_add_position.
  rewrite Hprice, Hstop. cbv zeta.
  eexists _, _. split; [reflexivity|]. cbn.
  rewrite lookup_insert_eq. split; [reflexivity|].
  split; [reflexivity|]. split; [reflexivity|].
  unfold execution.OrderManager.check_stop_loss.
  cbn [execution.Position.stop_loss_price execution.Position.quantity].
  unfold engine.OrderManager._calculate_stop_loss. fold pct.
  destruct (storage.Order.side order).
  - (* BUY: a long *)
    assert (Hlong : Qltb 0 (storage.Order.filled_quantity order) = true)
      by now apply Qltb_lt.
    rewrite Hlong. cbn [andb].
    destruct (Qeqb (price * (1 - pct / 100)) 0) eqn:Hzero.
    + apply Qeqb_eq in Hzero.
      split; [discriminate|]. intros [Hlt _]. exfalso.
      assert (H100 : (0 < 1 - pct / 100)%Q).
      { apply (Qmult_lt_r _ _ 100); [reflexivity|]. field_simplify. lra. }
      assert (Hprod : (0 < price * (1 - pct / 100))%Q)
        by now apply Qmult_lt_0_compat.
      lra.
    + apply Qeqb_neq in Hzero.
      assert (Hlt : (pct < 100)%Q).
      { apply Qnot_le_lt. intros Hge. apply Hzero.
        assert (Heq : (pct == 100)%Q) by lra. rewrite Heq. field. }
      destruct (Qleb x (price * (1 - pct / 100))) eqn:Hle.
      * apply Qleb_le in Hle. split; [now intros _|reflexivity].
      * apply Qleb_gt in Hle.
        assert (Hshort : Qltb (storage.Order.filled_quantity order) 0
                         = false) by (apply Qltb_ge; lra).
        rewrite Hshort. cbn [andb].
        split; [discriminate|]. intros [_ H]. lra.
  - (* SELL: a short *)
    assert (Hprod : (0 < price * (1 + pct / 100))%Q).
    { apply Qmult_lt_0_compat; [exact Hpos|].
      apply (Qmult_lt_r _ _ 100); [reflexivity|]. field_simplify. lra. }
    assert (Hzero : Qeqb (price * (1 + pct / 100)) 0 = false)
      by (apply Qeqb_neq; lra).
    rewrite Hzero.
    assert (Hlong : Qltb 0 (- storage.Order.filled_quantity order) = false)
      by (apply Qltb_ge; lra).
    assert (Hshort : Qltb (- storage.Order.filled_quantity order) 0 = true)
      by (apply Qltb_lt; lra).
    rewrite Hlong, Hshort. cbn [andb].
    destruct (Qleb (price * (1 + pct / 100)) x) eqn:Hle.
    + apply Qleb_le in Hle. split; [now intros _|reflexivity].
    + apply Qleb_gt in Hle. split; [discriminate|]. intros H. lra.
Qed.

Lemma default_stop_loss_triggers_witness :
  exists (w' : engine.world) (p : execution.Position.t),
    engine.OrderManager._process_fill EngineScenario.manager
      EngineScenario.world (EngineScenario.order_at 100 storage.BUY 5 false)
    = engine.Done w'
    /\ storage.SQLiteManager.positions (engine.db w')
       !! ("va1", "BTCUSDT") = Some p
    /\ execution.Position.entry_price p = 100%Q
    /\ execution.Position.stop_loss_price p
       = Some (100 * (1 - 2 / 100))%Q
    /\ (execution.OrderManager.check_stop_loss p 97 = true
        <-> (2 < 100)%Q /\ (97 <= 100 * (1 - 2 / 100))%Q).
Proof.
  refine (default_stop_loss_triggers EngineScenario.manager
            EngineScenario.world
            (EngineScenario.order_at 100 storage.BUY 5 false) 100 97
            eq_refl eq_refl eq_refl eq_refl _ _ _).
  - reflexivity.
  - reflexivity.
  - split; vm_compute; discriminate.
Defined.

(** * The market filters *)

Lemma first_failed_true (checks : list (bool * string)) :
  fst (MarketFilters.first_failed checks) = true
  <-> Forall (fun c => fst c = true) checks.
Proof.
  induction checks as [|[passed message] checks IH]; cbn.
  - split; [constructor | reflexivity].
  - destruct passed; cbn.
    + rewrite IH. split; [now constructor | now inversion 1].
    + split; [discriminate | inversion 1; discriminate].
Qed.

Lemma first_failed_message (checks : list (bool * string)) :
  fst (MarketFilters.first_failed checks) = true ->
  snd (MarketFilters.first_failed checks) = "OK".
Proof.
  induction checks as [|[passed message] checks IH]; cbn; [reflexivity|].
  destruct passed; [exact IH | discriminate].
Qed.

(** X30: what check_all checks, and when it raises.  With a trading window
    that parses, check_all raises ZeroDivisionError whenever the expected
    price is 0.0, whatever the other filters say (the slippage is computed
    before any result is looked at).  Otherwise it returns, and it passes,
    with the message "OK", exactly when the spread in basis points and the
    latency are within their maxima, the time of day lies in the window,
    both ends included, and |last - expected| / expected * 10000, when a
    price is expected, is within max_slippage_bps. *)
Theorem check_all_passes_iff (self : MarketFilters.t)
    (market_data : MarketData.t) (expected_price : option float)
    (utcnow : datetime) (start end_ : Z) :
  let settings := MarketFilters.settings self in
  MarketFilters.strptime_HM self (Settings.trading_window_start settings)
  = Ok start ->
  MarketFilters.strptime_HM self (Settings.trading_window_end settings)
  = Ok end_ ->
  if match expected_price with
     | Some x => Qeqb x 0
     | None => false
     end
  then MarketFilters.check_all self market_data expected_price utcnow
       = Raise ZeroDivisionError
  else
    exists (passed : bool) (message : string),
      MarketFilters.check_all self market_data expected_price utcnow
      = Ok (passed, message)
      /\ (passed = true -> message = "OK")
      /\ (passed = true
          <-> (MarketData.spread_bps market_data
               <= Settings.max_spread_bps settings)%Q
              /\ (MarketData.latency_ms market_data
                  <= Settings.max_latency_ms settings)%Q
              /\ start <= utcnow mod microseconds_per_day <= end_
              /\ match expected_price with
                 | Some x =>
                     (Qabs (MarketData.last market_data - x) / x * 10000
                      <= Settings.max_slippage_bps settings)%Q
                 | None => True
                 end).
Proof.
  intros settings Hstart Hend.
  unfold MarketFilters.check_all, MarketFilters.check_trading_window.
  fold settings. rewrite Hstart, Hend. cbn [mbind result_bind].
  set (c_spread := MarketFilters.check_spread self market_data).
  set (c_latency := MarketFilters.check_latency self market_data).
  set (now := utcnow mod microseconds_per_day).
  assert (Hspread : fst c_spread = true
                    <-> (MarketData.spread_bps market_data
                         <= Settings.max_spread_bps settings)%Q).
  { unfold c_spread, MarketFilters.check_spread. fold settings.
    destruct (Qltb _ _) eqn:H; cbn.
    - apply Qltb_lt in H. split; [discriminate | lra].
    - apply Qltb_ge in H. tauto. }
  assert (Hlatency : fst c_latency = true
                     <-> (MarketData.latency_ms market_data
                          <= Settings.max_latency_ms settings)%Q).
  { unfold c_latency, MarketFilters.check_latency. fold settings.
    destruct (Qltb _ _) eqn:H; cbn.
    - apply Qltb_lt in H. split; [discriminate | lra].
    - apply Qltb_ge in H. tauto. }
  pose (c_window :=
          if (start <=? now) && (now <=? end_) then (true, "OK")
          else (false,
                "Outside trading window "
                ++ Settings.trading_window_start settings ++ "-"
                ++ Settings.trading_window_end settings)).
  assert (Hwindow : fst c_window = true <-> start <= now <= end_).
  { unfold c_window. destruct ((start <=? now) && (now <=? end_)) eqn:H; cbn.
    - apply andb_true_iff in H as [H1 H2]. lia.
    - apply andb_false_iff in H. split; [discriminate|]. intros [H1 H2].
      destruct H as [H|H]; apply Z.leb_gt in H; lia. }
  assert (Hite : (if (start <=? now) && (now <=? end_)
                  then Ok (true, "OK")
                  else Ok (false,
                           "Outside trading window "
                           ++ Settings.trading_window_start settings ++ "-"
                           ++ Settings.trading_window_end settings))
                 = Ok c_window).
  { unfold c_window. now destruct ((start <=? now) && (now <=? end_)). }
  rewrite Hite. cbn [mbind result_bind].
  destruct expected_price as [x|].
  - unfold MarketFilters.check_slippage, py_div.
    destruct (Qeqb x 0); [reflexivity|]. cbn [mbind result_bind].
    fold settings.
    set (slippage := (Qabs (MarketData.last market_data - x) / x * 10000)%Q).
    destruct (Qltb (Settings.max_slippage_bps settings) slippage) eqn:Hslip;
      cbn [mbind result_bind app];
      eexists _, _; (split; [apply f_equal, surjective_pairing|]);
      (split; [apply first_failed_message|]);
      rewrite first_failed_true, !Forall_cons, Forall_nil,
        Hspread, Hlatency, Hwindow; cbn [fst].
    + apply Qltb_lt in Hslip. split; [intros (_ & _ & _ & H & _);
                                       discriminate|].
      intros (_ & _ & _ & H). lra.
    + apply Qltb_ge in Hslip. tauto.
  - cbn [mbind result_bind].
    eexists _, _. split; [apply f_equal, surjective_pairing|].
    split; [apply first_failed_message|].
    rewrite first_failed_true, !Forall_cons, Forall_nil,
      Hspread, Hlatency, Hwindow.
    tauto.
Qed.

Lemma check_all_passes_iff_witness :
  MarketFilters.check_all EngineScenario.filters EngineScenario.market_data
    (Some 0%Q) (Scenario.jan_1_2025 + Scenario.minutes 600)
  = Raise ZeroDivisionError.
Proof.
  exact (check_all_passes_iff EngineScenario.filters
           EngineScenario.market_data (Some 0%Q)
           (Scenario.jan_1_2025 + Scenario.minutes 600)
           (Scenario.minutes 570) (Scenario.minutes 960) eq_refl eq_refl).
Defined.
